(** * Billboard chart scraper and track aggregation (1a_data_billboard.ipynb)

    A shallow embedding of the notebook's three functions
    ([generate_dates], [scrape_week], [scrape_billboard]) and of the
    pandas cells that flatten and group the scraped weeks, followed by
    the properties of the specification that were checked against them.

    Conventions.
    - A Python [str] is a [string]; its characters are the code points
      below 256, compared by code point as Python does.
    - A Python [int] is a [Z].
    - A call that may raise returns a [result]; the exception that the
      interpreter would propagate is the argument of [Raise].
    - The network is a function from URLs to parsed documents, and a
      computation that may fetch threads the log of requested URLs.
    - The order in which the workers of a pool make their requests is
      not determined by the program; it is a parameter of the model. *)

From Stdlib Require Import ZArith Lia List Bool Ascii String Sorted Permutation
  OrderedTypeEx.
Import ListNotations.

Set Warnings "-register-all".

Open Scope bool_scope.
Open Scope string_scope.
Open Scope Z_scope.

(** ** Exceptions and results *)

Inductive exception : Type :=
| ValueError          (* strptime on a string that is not a date; pandas length mismatch *)
| OverflowError       (* datetime arithmetic leaving [date.min, date.max] *)
| TypeError           (* str.join on a cell that is not a str *)
| UnboundLocalError   (* reading a local that was never assigned *)
| ZeroDivisionError   (* int / 0 *)
| KeyError            (* a frame without the column asked for *)
| RequestException.   (* requests.get failing *)

Inductive result (A : Type) : Type :=
| Ok (a : A)
| Raise (e : exception).
Arguments Ok {A} a.
Arguments Raise {A} e.

Definition bind {A B : Type} (r : result A) (k : A -> result B) : result B :=
  match r with
  | Ok a => k a
  | Raise e => Raise e
  end.

Declare Scope py_scope.
Delimit Scope py_scope with py.
Notation "x <- c ;; k" := (bind c (fun x => k))
  (at level 61, c at next level, right associativity) : py_scope.
Open Scope py_scope.

(** ** Strings *)

Module Str.

Definition is_digit (c : ascii) : bool :=
  let n := nat_of_ascii c in (48 <=? n)%nat && (n <=? 57)%nat.

Definition digit_value (c : ascii) : Z := Z.of_nat (nat_of_ascii c) - 48.

Definition digit_char (d : Z) : ascii := ascii_of_nat (Z.to_nat (48 + d)).

Definition in_range (lo hi : Z) (c : ascii) : bool :=
  is_digit c && (lo <=? digit_value c) && (digit_value c <=? hi).

(** [str.isspace] on one character, for code points below 256. *)
Definition isspace (c : ascii) : bool :=
  let n := nat_of_ascii c in
  ((9 <=? n)%nat && (n <=? 13)%nat) || ((28 <=? n)%nat && (n <=? 32)%nat)
  || (n =? 133)%nat || (n =? 160)%nat.

Fixpoint lstrip (s : string) : string :=
  match s with
  | EmptyString => EmptyString
  | String c s' => if isspace c then lstrip s' else s
  end.

Fixpoint rstrip (s : string) : string :=
  match s with
  | EmptyString => EmptyString
  | String c s' =>
      match rstrip s' with
      | EmptyString => if isspace c then EmptyString else String c EmptyString
      | r => String c r
      end
  end.

(** [s.strip()] *)
Definition strip (s : string) : string := rstrip (lstrip s).

(** [s[-n:]] for a positive [n]: the last [n] characters, the whole
    string when it is shorter. *)
Definition suffix (n : nat) (s : string) : string :=
  substring (String.length s - n) n s.

(** [sep.join(l)] *)
Definition join (sep : string) (l : list string) : string := String.concat sep l.

(** [s.split(',')]: the fields between the commas, one more than
    there are commas; the empty string has the one field [""]. *)
Fixpoint split_comma (s : string) : list string :=
  match s with
  | EmptyString => [EmptyString]
  | String c s' =>
      if Ascii.eqb c ","%char then EmptyString :: split_comma s'
      else match split_comma s' with
           | f :: fs => String c f :: fs
           | [] => [String c EmptyString]
           end
  end.

Fixpoint comma_free (s : string) : bool :=
  match s with
  | EmptyString => true
  | String c s' => negb (Ascii.eqb c ","%char) && comma_free s'
  end.

(** The value of a plain decimal numeral, as [int(s)] reads it. *)
Fixpoint digits_value (acc : Z) (s : string) : option Z :=
  match s with
  | EmptyString => Some acc
  | String c s' =>
      if is_digit c then digits_value (10 * acc + digit_value c) s' else None
  end.

Definition int_literal (s : string) : option Z :=
  match s with
  | EmptyString => None
  | _ => digits_value 0 s
  end.

Definition is_positive_int (s : string) : bool :=
  match int_literal s with
  | Some n => 0 <? n
  | None => false
  end.

(** Tuple comparison of two pairs of strings, as Python compares
    [(title, artist)] keys: by the first components, then by the second. *)
Definition compare2 (a b : string * string) : comparison :=
  match String.compare (fst a) (fst b) with
  | Eq => String.compare (snd a) (snd b)
  | c => c
  end.

End Str.

(** ** The [datetime] library, as far as the notebook uses it

    After [datetime.py]: a date is a year, a month and a day; the
    time of day of every value the notebook builds is midnight, so it is
    left out. *)

Module Datetime.

Record datetime : Type := mkdate { year : Z; month : Z; day : Z }.

Definition MINYEAR : Z := 1.
Definition MAXYEAR : Z := 9999.
Definition MAXORDINAL : Z := 3652059.

Definition is_leap (y : Z) : bool :=
  (y mod 4 =? 0) && (negb (y mod 100 =? 0) || (y mod 400 =? 0)).

Definition days_before_year (y : Z) : Z :=
  let y := y - 1 in y * 365 + y / 4 - y / 100 + y / 400.

(** [_DAYS_IN_MONTH] *)
Definition DAYS_IN_MONTH (m : Z) : Z :=
  match m with
  | 1 => 31 | 2 => 28 | 3 => 31 | 4 => 30 | 5 => 31 | 6 => 30
  | 7 => 31 | 8 => 31 | 9 => 30 | 10 => 31 | 11 => 30 | 12 => 31
  | _ => 0
  end.

(** [_DAYS_BEFORE_MONTH] *)
Definition DAYS_BEFORE_MONTH (m : Z) : Z :=
  match m with
  | 1 => 0 | 2 => 31 | 3 => 59 | 4 => 90 | 5 => 120 | 6 => 151
  | 7 => 181 | 8 => 212 | 9 => 243 | 10 => 273 | 11 => 304 | 12 => 334
  | _ => 0
  end.

Definition days_in_month (y m : Z) : Z :=
  if (m =? 2) && is_leap y then 29 else DAYS_IN_MONTH m.

Definition days_before_month (y m : Z) : Z :=
  DAYS_BEFORE_MONTH m + (if (2 <? m) && is_leap y then 1 else 0).

Definition ymd2ord (y m d : Z) : Z :=
  days_before_year y + days_before_month y m + d.

Definition DI400Y : Z := 146097.
Definition DI100Y : Z := 36524.
Definition DI4Y : Z := 1461.

Definition ord2ymd (n : Z) : Z * Z * Z :=
  let n := n - 1 in
  let n400 := n / DI400Y in
  let n := n mod DI400Y in
  let y := n400 * 400 + 1 in
  let n100 := n / DI100Y in
  let n := n mod DI100Y in
  let n4 := n / DI4Y in
  let n := n mod DI4Y in
  let n1 := n / 365 in
  let n := n mod 365 in
  let y := y + n100 * 100 + n4 * 4 + n1 in
  if (n1 =? 4) || (n100 =? 4) then (y - 1, 12, 31)
  else
    let leapyear := (n1 =? 3) && (negb (n4 =? 24) || (n100 =? 3)) in
    let m := Z.shiftr (n + 50) 5 in
    let preceding := DAYS_BEFORE_MONTH m + (if (2 <? m) && leapyear then 1 else 0) in
    if n <? preceding then
      let m := m - 1 in
      let preceding :=
        preceding - (DAYS_IN_MONTH m + (if (m =? 2) && leapyear then 1 else 0)) in
      (y, m, n - preceding + 1)
    else (y, m, n - preceding + 1).

(** The constructor's range check: [datetime(y, m, d)] raises
    [ValueError] outside of it. *)
Definition valid_ymd (y m d : Z) : bool :=
  (MINYEAR <=? y) && (y <=? MAXYEAR) && (1 <=? m) && (m <=? 12)
  && (1 <=? d) && (d <=? days_in_month y m).

Definition valid (t : datetime) : bool := valid_ymd (year t) (month t) (day t).

Definition toordinal (t : datetime) : Z := ymd2ord (year t) (month t) (day t).

Definition fromordinal (n : Z) : datetime :=
  let '(y, m, d) := ord2ymd n in mkdate y m d.

(** [(a - b).days] for two datetimes at midnight. *)
Definition sub_days (a b : datetime) : Z := toordinal a - toordinal b.

(** [t - timedelta(days = k)]: [OverflowError] when the result would
    fall outside [date.min, date.max]. *)
Definition sub_timedelta (t : datetime) (k : Z) : result datetime :=
  let n := toordinal t - k in
  if (0 <? n) && (n <=? MAXORDINAL) then Ok (fromordinal n)
  else Raise OverflowError.

(** *** [datetime.strptime(s, '%Y-%m-%d')]

    [_strptime] turns the format into the regular expression
<<
    (?P<Y>\d\d\d\d)-(?P<m>1[0-2]|0[1-9]|[1-9])-(?P<d>3[0-1]|[1-2]\d|0[1-9]|[1-9]| [1-9])
>>
    matches it at the start of the string, and raises [ValueError]
    when there is no match, when text remains after the match, and when
    the three numbers are not a date.  The alternatives of a group are
    tried from left to right. *)

Definition num2 (a b : ascii) : Z := 10 * Str.digit_value a + Str.digit_value b.

(** A piece of the expression consumes a prefix of the text and
    gives the number it read and the rest of the text. *)
Definition token : Type := string -> option (Z * string).

(** Two characters, each from its class. *)
Definition chars2 (pa pb : ascii -> bool) : token := fun s =>
  match s with
  | String a (String b rest) => if pa a && pb b then Some (num2 a b, rest) else None
  | _ => None
  end.

(** One character from a class. *)
Definition chars1 (pa : ascii -> bool) : token := fun s =>
  match s with
  | String a rest => if pa a then Some (Str.digit_value a, rest) else None
  | EmptyString => None
  end.

(** A space, then one character from a class. *)
Definition space_then (pb : ascii -> bool) : token := fun s =>
  match s with
  | String a (String b rest) =>
      if Ascii.eqb a " " && pb b then Some (Str.digit_value b, rest) else None
  | _ => None
  end.

(** [\d\d\d\d] *)
Definition group_Y : token := fun s =>
  match chars2 Str.is_digit Str.is_digit s with
  | Some (hi, s') =>
      match chars2 Str.is_digit Str.is_digit s' with
      | Some (lo, rest) => Some (100 * hi + lo, rest)
      | None => None
      end
  | None => None
  end.

(** [1[0-2]|0[1-9]|[1-9]] *)
Definition group_m : list token :=
  [ chars2 (Ascii.eqb "1") (Str.in_range 0 2);
    chars2 (Ascii.eqb "0") (Str.in_range 1 9);
    chars1 (Str.in_range 1 9) ].

(** [3[0-1]|[1-2]\d|0[1-9]|[1-9]| [1-9]] *)
Definition group_d : list token :=
  [ chars2 (Ascii.eqb "3") (Str.in_range 0 1);
    chars2 (Str.in_range 1 2) Str.is_digit;
    chars2 (Ascii.eqb "0") (Str.in_range 1 9);
    chars1 (Str.in_range 1 9);
    space_then (Str.in_range 1 9) ].

(** The literal [-]. *)
Definition dash (s : string) : option string :=
  match s with
  | String a rest => if Ascii.eqb a "-" then Some rest else None
  | EmptyString => None
  end.

(** The first alternative, from the left, after which the rest of the
    expression [k] still matches. *)
Fixpoint first_match (alts : list token) (k : string -> bool) (s : string)
    : option (Z * string) :=
  match alts with
  | [] => None
  | p :: alts' =>
      match p s with
      | Some (v, rest) => if k rest then Some (v, rest) else first_match alts' k s
      | None => first_match alts' k s
      end
  end.

Definition match_day (s : string) : option (Z * string) :=
  first_match group_d (fun _ => true) s.

Definition dash_day (s : string) : bool :=
  match dash s with
  | Some s' => match match_day s' with Some _ => true | None => false end
  | None => false
  end.

Definition match_month (s : string) : option (Z * string) :=
  first_match group_m dash_day s.

(** The match of the whole expression at the start of [s]: the three
    numbers and the text that remains. *)
Definition format_regex_match (s : string) : option (Z * Z * Z * string) :=
  match group_Y s with
  | None => None
  | Some (y, s1) =>
      match dash s1 with
      | None => None
      | Some s2 =>
          match match_month s2 with
          | None => None
          | Some (m, s3) =>
              match dash s3 with
              | None => None
              | Some s4 =>
                  match match_day s4 with
                  | None => None
                  | Some (d, s5) => Some (y, m, d, s5)
                  end
              end
          end
      end
  end.

Definition strptime (s : string) : result datetime :=
  match format_regex_match s with
  | None => Raise ValueError                      (* does not match format *)
  | Some (_, _, _, String _ _) => Raise ValueError  (* unconverted data remains *)
  | Some (y, m, d, EmptyString) =>
      if valid_ymd y m d then Ok (mkdate y m d)
      else Raise ValueError                       (* not a date *)
  end.

(** *** [t.strftime('%Y-%m-%d')]

    [%m] and [%d] are two digits.  [%Y] is left to the C library:
    glibc writes the year without padding, other libraries pad it with
    zeros to four digits; the two agree from the year 1000 on.  The
    flag [pad_year] says which library the interpreter runs on. *)

Definition pad2 (n : Z) : string :=
  String (Str.digit_char (n / 10)) (String (Str.digit_char (n mod 10)) EmptyString).

Definition year4 (y : Z) : string := pad2 (y / 100) ++ pad2 (y mod 100).

Fixpoint lstrip_zeros (n : nat) (s : string) : string :=
  match n, s with
  | S n', String c s' => if Ascii.eqb c "0" then lstrip_zeros n' s' else s
  | _, _ => s
  end.

Definition format_year (pad_year : bool) (y : Z) : string :=
  if pad_year then year4 y else lstrip_zeros 3 (year4 y).

Definition strftime (pad_year : bool) (t : datetime) : string :=
  format_year pad_year (year t) ++ "-" ++ pad2 (month t) ++ "-" ++ pad2 (day t).

End Datetime.

(** ** Floats: [int / int] and [round]

    The notebook computes [int(round(days / 7))].  [/] on two ints is
    true division: the quotient rounded to the nearest binary64 value,
    ties to even.  A finite binary64 value is kept as its sign, mantissa
    and exponent: [(-1)^sign * mant * 2^expo]. *)

Module Float.

Record float : Type := mkfloat { sign : bool; mant : Z; expo : Z }.

(** The integer nearest to [n / d], for [0 <= n] and [0 < d]; a tie
    goes to the even neighbour. *)
Definition round_half_even (n d : Z) : Z :=
  let q := n / d in
  let r := n mod d in
  match 2 * r ?= d with
  | Lt => q
  | Gt => q + 1
  | Eq => if Z.even q then q else q + 1
  end.

Definition prec : Z := 53.
Definition emin : Z := -1074.

(** The binary64 value nearest to [a / b] for positive [a] and [b]:
    the quotient is scaled by [2^s] so that it has [prec] bits before
    the binary point (fewer for a subnormal result), and rounded there. *)
Definition div_pos (a b : Z) : Z * Z :=
  let s0 := prec - 1 + Z.log2 b - Z.log2 a in
  let s1 := if a * 2 ^ s0 <? b * 2 ^ (prec - 1) then s0 + 1 else s0 in
  let s := Z.min s1 (- emin) in
  let m := if 0 <=? s then round_half_even (a * 2 ^ s) b
           else round_half_even a (b * 2 ^ (- s)) in
  (m, - s).

(** [a / b] on ints.  A quotient beyond the largest float raises
    [OverflowError]. *)
Definition truediv (a b : Z) : result float :=
  if b =? 0 then Raise ZeroDivisionError
  else if a =? 0 then Ok (mkfloat (b <? 0) 0 0)
  else
    let '(m, e) := div_pos (Z.abs a) (Z.abs b) in
    if 2 ^ (1024 + 1074) <=? m * 2 ^ (e + 1074) then Raise OverflowError
    else Ok (mkfloat (xorb (a <? 0) (b <? 0)) m e).

(** [round(x)] with one argument: the nearest int, ties to even. *)
Definition round (x : float) : Z :=
  let v := if 0 <=? expo x then mant x * 2 ^ expo x
           else round_half_even (mant x) (2 ^ (- expo x)) in
  if sign x then - v else v.

End Float.

(** ** BeautifulSoup documents *)

Module Soup.

Inductive node : Type :=
| NavigableString (s : string)
| Tag (name : string) (class_ : list string) (contents : list node).

(** [tag.text]: the strings below the node, concatenated in document order. *)
Fixpoint text (n : node) : string :=
  match n with
  | NavigableString s => s
  | Tag _ _ cs => String.concat "" (map text cs)
  end.

(** The nodes strictly below [n], in document order. *)
Fixpoint descendants (n : node) : list node :=
  match n with
  | NavigableString _ => []
  | Tag _ _ cs => flat_map (fun c => c :: descendants c) cs
  end.

Definition has_class (c : string) (n : node) : bool :=
  match n with
  | NavigableString _ => false
  | Tag _ cls _ => existsb (String.eqb c) cls
  end.

(** [soup.find_all(class_ = c)] *)
Definition find_all (c : string) (soup : node) : list node :=
  filter (has_class c) (descendants soup).

End Soup.

(** ** Computations that use the network

    The state is the list of URLs requested so far, oldest first. *)

Definition Net (A : Type) : Type := list string -> result A * list string.

Definition ret {A : Type} (a : A) : Net A := fun log => (Ok a, log).

Definition lift {A : Type} (r : result A) : Net A := fun log => (r, log).

Definition bindN {A B : Type} (c : Net A) (k : A -> Net B) : Net B :=
  fun log =>
    match c log with
    | (Ok a, log') => k a log'
    | (Raise e, log') => (Raise e, log')
    end.

Notation "x <~ c ;; k" := (bindN c (fun x => k))
  (at level 61, c at next level, right associativity) : py_scope.

(** *** [list(pool.imap(f, l))]

    The pool is handed every element of [l], one task each, and its
    workers run the tasks in processes of their own.  The results come
    back in the order of [l], and the first task of the list that raised
    ends the call with its exception.

    The requests of a task are those it makes on its own, [f x] run on
    an empty log.  When a worker gets to a task is not determined by the
    program: [time i] is the moment at which the task at position [i]
    makes its requests, and the log receives the requests of all tasks in
    the order of these moments (tasks of one moment in the order of the
    list).  A task that raises does not stop the others: the exception
    leaves [scrape_billboard] before [pool.terminate()]. *)

Fixpoint imap_results {A B : Type} (f : A -> Net B) (l : list A)
    : result (list B) :=
  match l with
  | [] => Ok []
  | x :: l' => y <- fst (f x []) ;; ys <- imap_results f l' ;; Ok (y :: ys)
  end.

Fixpoint insert_task {A : Type} (time : nat -> nat) (x : nat * A)
    (l : list (nat * A)) : list (nat * A) :=
  match l with
  | [] => [x]
  | y :: l' =>
      if (time (fst x) <=? time (fst y))%nat then x :: l
      else y :: insert_task time x l'
  end.

Definition in_order_of {A : Type} (time : nat -> nat) (l : list A) : list A :=
  map snd (fold_right (insert_task time) [] (combine (seq 0 (List.length l)) l)).

Definition imap {A B : Type} (time : nat -> nat) (f : A -> Net B) (l : list A)
    : Net (list B) :=
  fun log =>
    (imap_results f l,
     (log ++ flat_map (fun x => snd (f x [])) (in_order_of time l))%list).

(** The value [scrape_week] returns, a list of four lists. *)
Record WeekRecord : Type := mkWeek {
  songs : list string;
  artists : list string;
  ranks : list string;
  weeks : list string
}.

(** ** The notebook's functions *)

Section Notebook.

(** The C library's [%Y] (see [Datetime.strftime]). *)
Variable pad_year : bool.

(** What [BeautifulSoup(requests.get(url).text, 'lxml')] evaluates to:
    the parsed document, or nothing when the request raises. *)
Variable web : string -> option Soup.node.

(** The moments at which the tasks of the pool make their requests
    (see [imap]). *)
Variable pool_time : nat -> nat.

(** The notebook runs as the main module. *)
Definition module_name : string := "__main__".

(** The loop of [generate_dates], with [n] iterations to go:
[[
    while i < weeks:
        alldates.append(week.strftime('%Y-%m-%d'))
        week = (week - interval)
        i += 1
]] *)
Fixpoint generate_dates_loop (n : nat) (week : Datetime.datetime)
    (alldates : list string) : result (list string) :=
  match n with
  | O => Ok alldates
  | S n' =>
      let alldates := (alldates ++ [Datetime.strftime pad_year week])%list in
      week <- Datetime.sub_timedelta week 7 ;;
      generate_dates_loop n' week alldates
  end.

(** [i] runs from 0 up to [weeks], so the body runs [weeks] times,
    and not at all when [weeks] is zero or negative. *)
Definition generate_dates (first_week : string) (weeks : Z) : result (list string) :=
  week <- Datetime.strptime first_week ;;
  generate_dates_loop (Z.to_nat weeks) week [].

(** [BeautifulSoup(requests.get(url).text, 'lxml')]: one request, logged. *)
Definition requests_get (url : string) : Net Soup.node :=
  fun log =>
    (match web url with Some soup => Ok soup | None => Raise RequestException end,
     (log ++ [url])%list).

Definition scrape_week (url : string) : Net WeekRecord :=
  soup <~ requests_get url ;;
  let weekslist : list string := [] in
  let songlist :=
    map (fun song => Str.strip (Soup.text song))
        (Soup.find_all "chart-list-item__title-text" soup) in
  let artistlist :=
    map (fun artist => Str.strip (Soup.text artist))
        (Soup.find_all "chart-list-item__artist" soup) in
  let rankslist :=
    map (fun rank => Str.strip (Soup.text rank))
        (Soup.find_all "chart-list-item__rank" soup) in
  let weekslist := (weekslist ++ repeat (Str.suffix 10 url) (List.length songlist))%list in
  ret (mkWeek songlist artistlist rankslist weekslist).

(** [int(round((strptime(first_week) - strptime(last_week)).days / 7))] *)
Definition n_weeks (first_week last_week : string) : result Z :=
  a <- Datetime.strptime first_week ;;
  b <- Datetime.strptime last_week ;;
  q <- Float.truediv (Datetime.sub_days a b) 7 ;;
  Ok (Float.round q).

(** The [print] of the number of weeks and the life of the pool
    ([Pool(25)], [terminate], [join]) leave the result and the requests
    as they are, and are left out; the workers of the pool make the
    requests of their tasks at the moments [pool_time].  [chart_data] is
    assigned under [if __name__ == '__main__'] only; returning it
    unassigned raises. *)
Definition scrape_billboard (first_week last_week url : string)
    : Net (list WeekRecord) :=
  n <~ lift (n_weeks first_week last_week) ;;
  date_list <~ lift (generate_dates first_week n) ;;
  let url_list := map (fun week => url ++ week) date_list in
  if String.eqb module_name "__main__" then
    chart_data <~ imap pool_time scrape_week url_list ;;
    ret chart_data
  else lift (Raise UnboundLocalError).

End Notebook.

(** ** The pandas cells

    A cell of an object column is a [str] or [NaN]; a frame is its
    columns by name, in the order of insertion, over a range index whose
    length is the length of every column. *)

Module Pandas.

Inductive cell : Type :=
| Str (s : string)
| NaN.

Definition frame : Type := list (string * list cell).

(** [pd.DataFrame()] *)
Definition empty : frame := [].

Definition index_length (df : frame) : nat :=
  match df with
  | [] => O
  | (_, c) :: _ => List.length c
  end.

(** [df[name] = values] for a list [values] and a new column [name].
    On an empty index the frame takes the index of the values, and the
    columns it has are filled with [NaN]; on any other index the
    lengths must agree. *)
Definition setitem (df : frame) (name : string) (values : list string)
    : result frame :=
  let n := List.length values in
  if (index_length df =? 0)%nat then
    Ok (map (fun c => (fst c, repeat NaN n)) df ++ [(name, map Str values)])%list
  else if (n =? index_length df)%nat then
    Ok (df ++ [(name, map Str values)])%list
  else Raise ValueError.

(** [df[name]] *)
Fixpoint getitem (df : frame) (name : string) : result (list cell) :=
  match df with
  | [] => Raise KeyError
  | (k, c) :: df' => if String.eqb k name then Ok c else getitem df' name
  end.

Definition key : Type := string * string.

(** The groups of a [groupby] on two columns: sorted by key, each
    with the cells of its rows in the order of the frame. *)
Fixpoint insert_group (k : key) (w : cell) (gs : list (key * list cell))
    : list (key * list cell) :=
  match gs with
  | [] => [(k, [w])]
  | (k', ws) :: gs' =>
      match Str.compare2 k k' with
      | Lt => (k, [w]) :: gs
      | Eq => (k', ws ++ [w])%list :: gs'
      | Gt => (k', ws) :: insert_group k w gs'
      end
  end.

(** A row whose key has a [NaN] belongs to no group. *)
Definition add_row (gs : list (key * list cell)) (r : cell * cell * cell)
    : list (key * list cell) :=
  match r with
  | (Str t, Str a, w) => insert_group (t, a) w gs
  | _ => gs
  end.

Definition groupby (by1 by2 col : list cell) : list (key * list cell) :=
  fold_left add_row (combine (combine by1 by2) col) [].

(** The strings of cells that are all [str]. *)
Fixpoint strings (cells : list cell) : option (list string) :=
  match cells with
  | [] => Some []
  | Str s :: cells' => option_map (cons s) (strings cells')
  | NaN :: _ => None
  end.

(** [sep.join(cells)]: [TypeError] on a cell that is not a [str]. *)
Definition str_join (sep : string) (cells : list cell) : result string :=
  match strings cells with
  | Some l => Ok (Str.join sep l)
  | None => Raise TypeError
  end.

End Pandas.

(** A row of the final [tracks_df]. *)
Module Track.
Record row : Type := mk {
  title : string;
  artist : string;
  weeks : string;
  week_count : Z
}.
Definition key (r : row) : Pandas.key := (title r, artist r).
End Track.

(** [billboard_df] has one row per scraped week and the four lists of
    the week as its cells; [[item for lst in billboard_df[col] for item in lst]]
    chains the lists of one column. *)
Definition flatten (col : WeekRecord -> list string) (billboard_responses : list WeekRecord)
    : list string :=
  flat_map col billboard_responses.

(** [tracks_df] after [pd.DataFrame()] and the four assignments of
    the flattened columns. *)
Definition tracks_df_flat (billboard_responses : list WeekRecord) : result Pandas.frame :=
  df <- Pandas.setitem Pandas.empty "title" (flatten songs billboard_responses) ;;
  df <- Pandas.setitem df "artist" (flatten artists billboard_responses) ;;
  df <- Pandas.setitem df "rank" (flatten ranks billboard_responses) ;;
  Pandas.setitem df "week" (flatten weeks billboard_responses).

(** [.apply(','.join).reset_index(name='weeks')] on the groups, and
    [tracks_df['week_count'] = tracks_df['weeks'].apply(lambda x: len(x.split(',')))]:
    one row per group, in the order of the groups. *)
Fixpoint apply_join (gs : list (Pandas.key * list Pandas.cell)) : result (list Track.row) :=
  match gs with
  | [] => Ok []
  | ((t, a), ws) :: gs' =>
      x <- Pandas.str_join "," ws ;;
      rows <- apply_join gs' ;;
      Ok (Track.mk t a x (Z.of_nat (List.length (Str.split_comma x))) :: rows)
  end.

(** [tracks_df] at the end of the notebook, the table that is saved:
[[
    tracks_df = (tracks_df.groupby(['title','artist'])
                 ['week'].apply(','.join)
                 .reset_index(name='weeks'))
]]
    with its [week_count] column. *)
Definition tracks_df (billboard_responses : list WeekRecord) : result (list Track.row) :=
  df <- tracks_df_flat billboard_responses ;;
  t <- Pandas.getitem df "title" ;;
  a <- Pandas.getitem df "artist" ;;
  w <- Pandas.getitem df "week" ;;
  apply_join (Pandas.groupby t a w).


(** * Vocabulary of the statements

    The properties below are stated and proved with these definitions;
    none of them is part of the notebook. *)

Module Spec.
Import Datetime Pandas.

(** ** Dates *)

(** A string that [strptime] refuses. *)
Definition malformed (s : string) : Prop := forall t, strptime s <> Ok t.

(** A string that [strptime] reads as a date. *)
Definition is_date_string (s : string) : Prop := exists t, strptime s = Ok t.

(** The ceiling of [a / b] for a positive [b]. *)
Definition ceil_div (a b : Z) : Z := - ((- a) / b).

(** The date [i] weeks before [t]. *)
Definition weeks_before (t : datetime) (i : nat) : datetime :=
  fromordinal (toordinal t - 7 * Z.of_nat i).

(** The month estimate of [ord2ymd], on the day [r] of a year
    (counted from 0). *)
Definition month_of_day (leapyear : bool) (r : Z) : Z * Z :=
  let m := Z.shiftr (r + 50) 5 in
  let preceding := DAYS_BEFORE_MONTH m + (if (2 <? m) && leapyear then 1 else 0) in
  if r <? preceding then
    let m := m - 1 in
    (m, preceding - (DAYS_IN_MONTH m + (if (m =? 2) && leapyear then 1 else 0)))
  else (m, preceding).

Definition no_comma (p : ascii -> bool) : Prop :=
  forall c, p c = true -> Ascii.eqb c "," = false.

(** A token that reads no comma. *)
Definition clean (p : token) : Prop :=
  forall s v r, p s = Some (v, r) ->
  exists pre, s = pre ++ r /\ Str.comma_free pre = true.

(** ** The chart page *)

Definition title_class : string := "chart-list-item__title-text".
Definition artist_class : string := "chart-list-item__artist".
Definition rank_class : string := "chart-list-item__rank".

Definition trimmed_text (n : Soup.node) : string := Str.strip (Soup.text n).

(** Text that is only white space. *)
Fixpoint all_space (s : string) : bool :=
  match s with
  | EmptyString => true
  | String c s' => Str.isspace c && all_space s'
  end.

(** Text without white space. *)
Fixpoint no_space (s : string) : bool :=
  match s with
  | EmptyString => true
  | String c s' => negb (Str.isspace c) && no_space s'
  end.

(** ** Groups and rows *)

Definition key_lt (a b : key) : Prop := Str.compare2 a b = Lt.


Definition key_eqb (a b : key) : bool :=
  match Str.compare2 a b with Eq => true | _ => false end.

(** The cells of the group of [k], if there is one. *)
Fixpoint lookup (k : key) (gs : list (key * list cell)) : option (list cell) :=
  match gs with
  | [] => None
  | (k', ws) :: gs' => if key_eqb k k' then Some ws else lookup k gs'
  end.

Definition keys (gs : list (key * list cell)) : list key := map fst gs.

Definition row_key (r : cell * cell * cell) : option key :=
  match r with
  | (Str t, Str a, _) => Some (t, a)
  | _ => None
  end.

Definition has_key (k : key) (r : cell * cell * cell) : bool :=
  match row_key r with
  | Some k' => key_eqb k' k
  | None => false
  end.

(** The cells of the rows with key [k], in the order of the rows. *)
Definition select (k : key) (rows : list (cell * cell * cell)) : list cell :=
  map snd (filter (has_key k) rows).

Definition nonempty {A : Type} (l : list A) : option (list A) :=
  match l with
  | [] => None
  | _ => Some l
  end.

Definition grouped (gs : list (key * list cell)) (rows : list (cell * cell * cell))
    : Prop :=
  StronglySorted key_lt (keys gs)
  /\ forall k, lookup k gs = nonempty (select k rows).

Definition row_of (g : key * list cell) (l : list string) : Track.row :=
  let x := Str.join "," l in
  Track.mk (fst (fst g)) (snd (fst g)) x
    (Z.of_nat (List.length (Str.split_comma x))).


(** The flattened rows: title, artist and week of every chart entry,
    in the order of the scrape. *)
Definition entries (billboard_responses : list WeekRecord)
    : list (string * string * string) :=
  combine (combine (flatten songs billboard_responses)
                   (flatten artists billboard_responses))
          (flatten weeks billboard_responses).

(** The week identifiers recorded for a key, in the order of the scrape. *)
Definition weeks_of (k : key) (es : list (string * string * string)) : list string :=
  map snd (filter (fun e => key_eqb (fst e) k) es).

(** The rows of one scraped week. *)
Definition record_entries (r : WeekRecord) : list (string * string * string) :=
  combine (combine (songs r) (artists r)) (weeks r).

(** A scraped week whose four columns have one length. *)
Definition well_formed (r : WeekRecord) : Prop :=
  List.length (artists r) = List.length (songs r)
  /\ List.length (ranks r) = List.length (songs r)
  /\ List.length (weeks r) = List.length (songs r).

Definition title_is_NaN (df : frame) : Prop :=
  exists c rest, df = ("title", c) :: rest /\ Forall (eq NaN) c.

(** ** Sample inputs *)

(** The URL the notebook scrapes. *)
Definition base_url : string := "https://www.billboard.com/charts/country-songs/".

(** A network on which every request fails. *)
Definition offline : string -> option Soup.node := fun _ => None.

(** A pool whose tasks make their requests one after the other, in the
    order of the list. *)
Definition in_turn : nat -> nat := fun i => i.

(** A pool in which the second task is the first to make its request. *)
Definition second_first : nat -> nat :=
  fun i => match i with 1%nat => 0%nat | _ => 1%nat end.

(** A page with one song title and neither an artist nor a rank. *)
Definition page_title_only : Soup.node :=
  Soup.Tag "html" []
    [Soup.Tag "body" []
       [Soup.Tag "span" ["chart-list-item__title-text"]
          [Soup.NavigableString "Song X"]]].

(** A page whose only rank element holds a dash. *)
Definition page_rank_dash : Soup.node :=
  Soup.Tag "html" []
    [Soup.Tag "body" []
       [Soup.Tag "div" ["chart-list-item__rank"]
          [Soup.NavigableString " - "]]].

(** A page without any chart item. *)
Definition page_no_chart : Soup.node :=
  Soup.Tag "html" []
    [Soup.Tag "body" [] [Soup.Tag "p" ["notice"] [Soup.NavigableString "No chart."]]].

Definition week_url : string :=
  "https://www.billboard.com/charts/country-songs/2019-05-12".

(** Three weeks of one chart: a song that stays, one that leaves and
    one that enters. *)
Definition three_weeks : list WeekRecord :=
  [mkWeek ["Whiskey Glasses"; "Beautiful Crazy"] ["Morgan Wallen"; "Luke Combs"]
     ["1"; "2"] ["2019-05-12"; "2019-05-12"];
   mkWeek ["Beautiful Crazy"; "Whiskey Glasses"] ["Luke Combs"; "Morgan Wallen"]
     ["1"; "2"] ["2019-05-05"; "2019-05-05"];
   mkWeek ["Beautiful Crazy"; "God's Country"] ["Luke Combs"; "Blake Shelton"]
     ["1"; "2"] ["2019-04-28"; "2019-04-28"]].

Definition three_weeks_table : list Track.row :=
  [Track.mk "Beautiful Crazy" "Luke Combs" "2019-05-12,2019-05-05,2019-04-28" 3;
   Track.mk "God's Country" "Blake Shelton" "2019-04-28" 1;
   Track.mk "Whiskey Glasses" "Morgan Wallen" "2019-05-12,2019-05-05" 2].

(** ** The scrape as a whole *)

(** The record [scrape_week] builds from the document of a URL. *)
Definition week_record (soup : Soup.node) (url : string) : WeekRecord :=
  mkWeek (map trimmed_text (Soup.find_all title_class soup))
         (map trimmed_text (Soup.find_all artist_class soup))
         (map trimmed_text (Soup.find_all rank_class soup))
         (repeat (Str.suffix 10 url) (List.length (Soup.find_all title_class soup))).

(** The first of two date strings is the same day as the second, or a
    later one. *)
Definition not_earlier (w w' : string) : Prop :=
  exists d d', strptime w = Ok d /\ strptime w' = Ok d'
               /\ toordinal d' <= toordinal d.

(** The sum of the counts of a table. *)
Definition total_count (out : list Track.row) : Z :=
  fold_right Z.add 0 (map Track.week_count out).

(** A scraped week without entries. *)
Definition empty_week : WeekRecord := mkWeek [] [] [] [].

(** A page with one chart entry. *)
Definition page_one_entry : Soup.node :=
  Soup.Tag "html" []
    [Soup.Tag "body" []
       [Soup.Tag "div" ["chart-list-item__rank"] [Soup.NavigableString " 1 "];
        Soup.Tag "span" ["chart-list-item__title-text"]
          [Soup.NavigableString "Whiskey Glasses"];
        Soup.Tag "div" ["chart-list-item__artist"]
          [Soup.NavigableString " Morgan Wallen "]]].

(** A network that serves the same page for every URL. *)
Definition serves (page : Soup.node) : string -> option Soup.node :=
  fun _ => Some page.

End Spec.

(** * Properties *)

(** ** The model against recorded runs

    The notebook printed "Scraping 3120 weeks from Billboard." for its
    two dates, and listed the weeks 2019-05-12, 2019-05-05, 2019-04-28
    first; CPython gives the quotients below as
    [float.as_integer_ratio] shows them. *)

Example notebook_run_3120_weeks : n_weeks "2019-05-12" "1959-07-23" = Ok 3120.
Proof. vm_compute. reflexivity. Qed.

Example notebook_run_first_weeks :
  generate_dates false "2019-05-12" 3 = Ok ["2019-05-12"; "2019-05-05"; "2019-04-28"].
Proof. vm_compute. reflexivity. Qed.

Example truediv_1_7 :
  Float.truediv 1 7 = Ok (Float.mkfloat false 5146971002709138 (-55)).
Proof. vm_compute. reflexivity. Qed.

Example truediv_21840_7 :
  Float.truediv 21840 7 = Ok (Float.mkfloat false 6860952557322240 (-41)).
Proof. vm_compute. reflexivity. Qed.

Example truediv_3652058_7 :
  Float.truediv 3652058 7 = Ok (Float.mkfloat false 8963125527482953 (-34)).
Proof. vm_compute. reflexivity. Qed.

Example round_ties_to_even :
  map Float.round [Float.mkfloat false 5 (-1); Float.mkfloat false 7 (-1);
                   Float.mkfloat true 1 (-1)]
  = [2; 4; 0].
Proof. reflexivity. Qed.

Example strptime_accepts :
  map Datetime.strptime ["2019-05-12"; "2019-5-2"; "2019-10- 5"; "2020-02-29"]
  = map Ok [Datetime.mkdate 2019 5 12; Datetime.mkdate 2019 5 2;
            Datetime.mkdate 2019 10 5; Datetime.mkdate 2020 2 29].
Proof. vm_compute. reflexivity. Qed.

Example strptime_refuses :
  map Datetime.strptime ["2019-02-29"; "2019-05-35"; "0000-01-01"; "2019-13-05";
                         "2019-05-02 "; "12-05-2019"; ""]
  = repeat (Raise ValueError) 7.
Proof. vm_compute. reflexivity. Qed.

Example strftime_year_999 :
  Datetime.strftime false (Datetime.mkdate 999 5 2) = "999-05-02"
  /\ Datetime.strftime true (Datetime.mkdate 999 5 2) = "0999-05-02".
Proof. split; reflexivity. Qed.

Example strip_white_space : Str.strip (String "009" " 1 " ++ String "010" "") = "1".
Proof. reflexivity. Qed.

(** ** The calendar *)

Module DatetimeFacts.
Import Datetime Spec.

Lemma shiftr5 n : Z.shiftr n 5 = n / 32.
Proof. now rewrite Z.shiftr_div_pow2 by lia. Qed.

Lemma is_leap_spec y :
  is_leap y = true <-> (y mod 4 = 0 /\ (y mod 100 <> 0 \/ y mod 400 = 0)).
Proof.
  unfold is_leap.
  rewrite andb_true_iff, orb_true_iff, negb_true_iff, !Z.eqb_eq, Z.eqb_neq.
  tauto.
Qed.

(** The year part of an ordinal: the four nested divisions. *)
Lemma days_before_year_split a b c e :
  0 <= b <= 3 -> 0 <= c <= 24 -> 0 <= e <= 3 ->
  days_before_year (400 * a + 100 * b + 4 * c + e + 1)
  = DI400Y * a + DI100Y * b + DI4Y * c + 365 * e.
Proof.
  intros Hb Hc He. unfold days_before_year, DI400Y, DI100Y, DI4Y.
  replace (400 * a + 100 * b + 4 * c + e + 1 - 1)
    with (400 * a + 100 * b + 4 * c + e) by lia.
  Z.div_mod_to_equations. lia.
Qed.

Lemma is_leap_split a b c e :
  0 <= b <= 3 -> 0 <= c <= 24 -> 0 <= e <= 3 ->
  is_leap (400 * a + 100 * b + 4 * c + e + 1)
  = (e =? 3) && (negb (c =? 24) || (b =? 3)).
Proof.
  intros Hb Hc He.
  apply eq_true_iff_eq. rewrite is_leap_spec.
  rewrite andb_true_iff, orb_true_iff, negb_true_iff, !Z.eqb_eq, Z.eqb_neq.
  Z.div_mod_to_equations. lia.
Qed.

Lemma month_of_day_spec (leapyear : bool) (r : Z) :
  0 <= r < 365 + (if leapyear then 1 else 0) ->
  let '(m, p) := month_of_day leapyear r in
  1 <= m <= 12
  /\ p = DAYS_BEFORE_MONTH m + (if (2 <? m) && leapyear then 1 else 0)
  /\ p <= r < p + DAYS_IN_MONTH m + (if (m =? 2) && leapyear then 1 else 0).
Proof.
  intros Hr. unfold month_of_day. rewrite shiftr5.
  assert (Hm : 1 <= (r + 50) / 32 <= 12)
    by (destruct leapyear; Z.div_mod_to_equations; lia).
  remember ((r + 50) / 32) as m eqn:Em.
  assert (Hb : 32 * m <= r + 50 < 32 * m + 32)
    by (subst m; Z.div_mod_to_equations; lia).
  clear Em.
  assert (Hc : m = 1 \/ m = 2 \/ m = 3 \/ m = 4 \/ m = 5 \/ m = 6 \/ m = 7
               \/ m = 8 \/ m = 9 \/ m = 10 \/ m = 11 \/ m = 12) by lia.
  destruct leapyear;
    repeat (destruct Hc as [-> | Hc]); try subst m;
    change (2 - 1) with 1; change (3 - 1) with 2; change (4 - 1) with 3;
    change (5 - 1) with 4; change (6 - 1) with 5; change (7 - 1) with 6;
    change (8 - 1) with 7; change (9 - 1) with 8; change (10 - 1) with 9;
    change (11 - 1) with 10; change (12 - 1) with 11; change (1 - 1) with 0;
    cbv [DAYS_BEFORE_MONTH DAYS_IN_MONTH Z.eqb Pos.eqb andb];
    match goal with
    | |- context [r <? ?b] => destruct (Z.ltb_spec r b); cbn in *; lia
    end.
Qed.

Lemma ord2ymd_month_of_day n :
  ord2ymd n =
    let n0 := n - 1 in
    let a := n0 / DI400Y in
    let b := (n0 mod DI400Y) / DI100Y in
    let c := ((n0 mod DI400Y) mod DI100Y) / DI4Y in
    let e := (((n0 mod DI400Y) mod DI100Y) mod DI4Y) / 365 in
    let r := (((n0 mod DI400Y) mod DI100Y) mod DI4Y) mod 365 in
    let y := a * 400 + 1 + b * 100 + c * 4 + e in
    if (e =? 4) || (b =? 4) then (y - 1, 12, 31)
    else
      let '(m, p) :=
        month_of_day ((e =? 3) && (negb (c =? 24) || (b =? 3))) r in
      (y, m, r - p + 1).
Proof.
  unfold ord2ymd, month_of_day. cbv zeta.
  destruct ((_ =? 4) || (_ =? 4)); [reflexivity|].
  match goal with |- context [if ?c then _ else _] =>
    match c with _ <? _ => destruct c end end; reflexivity.
Qed.

Lemma days_in_month_eq y m :
  days_in_month y m = DAYS_IN_MONTH m + (if (m =? 2) && is_leap y then 1 else 0).
Proof.
  unfold days_in_month. destruct (Z.eqb_spec m 2) as [->|]; cbn; [|lia].
  destruct (is_leap y); reflexivity.
Qed.

Ltac december :=
  change (DAYS_IN_MONTH 12) with 31; change (DAYS_BEFORE_MONTH 12) with 334;
  change (12 =? 2) with false; change (2 <? 12) with true;
  change (3 =? 3) with true; change (24 =? 24) with true; cbn [andb orb negb].

(** [ord2ymd] returns a date of the calendar, the one whose ordinal
    is its argument. *)
Lemma ord2ymd_spec n :
  1 <= n ->
  let '(y, m, d) := ord2ymd n in
  1 <= y /\ (n <= MAXORDINAL -> y <= MAXYEAR) /\ 1 <= m <= 12
  /\ 1 <= d <= days_in_month y m /\ ymd2ord y m d = n.
Proof.
  intros Hn. rewrite ord2ymd_month_of_day. cbv zeta.
  set (n0 := n - 1).
  set (a := n0 / DI400Y). set (r1 := n0 mod DI400Y).
  set (b := r1 / DI100Y). set (r2 := r1 mod DI100Y).
  set (c := r2 / DI4Y). set (r3 := r2 mod DI4Y).
  set (e := r3 / 365). set (r := r3 mod 365).
  assert (H0 : n0 = DI400Y * a + r1 /\ 0 <= r1 < DI400Y /\ 0 <= a)
    by (unfold a, r1, DI400Y; Z.div_mod_to_equations; lia).
  assert (H1 : r1 = DI100Y * b + r2 /\ 0 <= r2 < DI100Y /\ 0 <= b <= 4)
    by (unfold b, r2, DI100Y, DI400Y in *; Z.div_mod_to_equations; lia).
  assert (H2 : r2 = DI4Y * c + r3 /\ 0 <= r3 < DI4Y /\ 0 <= c <= 24)
    by (unfold c, r3, DI4Y, DI100Y in *; Z.div_mod_to_equations; lia).
  assert (H3 : r3 = 365 * e + r /\ 0 <= r < 365 /\ 0 <= e <= 4)
    by (unfold e, r, DI4Y in *; Z.div_mod_to_equations; lia).
  clearbody a r1 b r2 c r3 e r. subst n0.
  unfold DI400Y, DI100Y, DI4Y, MAXORDINAL, MAXYEAR in *.
  destruct (Z.eqb_spec e 4) as [He|He]; [|destruct (Z.eqb_spec b 4) as [Hb|Hb]];
    cbn [orb].
  - (* the last day of a leap year that ends a 4-year cycle *)
    replace (a * 400 + 1 + b * 100 + c * 4 + e - 1)
      with (400 * a + 100 * b + 4 * c + 3 + 1) by lia.
    rewrite days_in_month_eq. unfold ymd2ord, days_before_month.
    rewrite days_before_year_split, is_leap_split by lia.
    unfold DI400Y, DI100Y, DI4Y.
    replace ((3 =? 3) && (negb (c =? 24) || (b =? 3))) with true
      by (symmetry; rewrite andb_true_iff, orb_true_iff, negb_true_iff,
            Z.eqb_neq, !Z.eqb_eq; lia).
    december. lia.
  - (* the last day of a 400-year cycle *)
    replace (a * 400 + 1 + b * 100 + c * 4 + e - 1)
      with (400 * a + 100 * 3 + 4 * 24 + 3 + 1) by lia.
    rewrite days_in_month_eq. unfold ymd2ord, days_before_month.
    rewrite days_before_year_split, is_leap_split by lia.
    unfold DI400Y, DI100Y, DI4Y. december. lia.
  - set (leapyear := (e =? 3) && (negb (c =? 24) || (b =? 3))).
    assert (Hr : 0 <= r < 365 + (if leapyear then 1 else 0))
      by (destruct leapyear; lia).
    pose proof (month_of_day_spec leapyear r Hr) as Hm.
    destruct (month_of_day leapyear r) as [m p].
    destruct Hm as (Hm & Hp & Hd).
    replace (a * 400 + 1 + b * 100 + c * 4 + e)
      with (400 * a + 100 * b + 4 * c + e + 1) by lia.
    rewrite days_in_month_eq. unfold ymd2ord, days_before_month.
    rewrite days_before_year_split, is_leap_split by lia.
    fold leapyear. unfold DI400Y, DI100Y, DI4Y. lia.
Qed.

Lemma days_before_year_succ y :
  days_before_year (y + 1)
  = days_before_year y + 365 + (if is_leap y then 1 else 0).
Proof.
  unfold days_before_year.
  destruct (is_leap y) eqn:E.
  - apply is_leap_spec in E. Z.div_mod_to_equations. lia.
  - assert (H : ~ (y mod 4 = 0 /\ (y mod 100 <> 0 \/ y mod 400 = 0)))
      by (rewrite <- is_leap_spec, E; discriminate).
    Z.div_mod_to_equations. lia.
Qed.

Lemma days_before_year_mono y y' :
  y <= y' -> days_before_year y <= days_before_year y'.
Proof. unfold days_before_year. intros H. Z.div_mod_to_equations. lia. Qed.

Lemma month_cases m :
  1 <= m <= 12 ->
  m = 1 \/ m = 2 \/ m = 3 \/ m = 4 \/ m = 5 \/ m = 6 \/ m = 7
  \/ m = 8 \/ m = 9 \/ m = 10 \/ m = 11 \/ m = 12.
Proof. lia. Qed.

Ltac each_month H :=
  apply month_cases in H;
  repeat (destruct H as [-> | H]); try subst.

Lemma ymd2ord_bounds y m d :
  1 <= m <= 12 -> 1 <= d <= days_in_month y m ->
  days_before_year y < ymd2ord y m d <= days_before_year (y + 1).
Proof.
  intros Hm Hd. rewrite days_before_year_succ.
  unfold ymd2ord, days_before_month. rewrite days_in_month_eq in Hd.
  each_month Hm; destruct (is_leap y); cbn in *; lia.
Qed.

(** Two dates of the calendar with the same ordinal are the same. *)
Lemma ymd2ord_inj y m d y' m' d' :
  1 <= m <= 12 -> 1 <= d <= days_in_month y m ->
  1 <= m' <= 12 -> 1 <= d' <= days_in_month y' m' ->
  ymd2ord y m d = ymd2ord y' m' d' ->
  y = y' /\ m = m' /\ d = d'.
Proof.
  intros Hm Hd Hm' Hd' E.
  pose proof (ymd2ord_bounds y m d Hm Hd) as B.
  pose proof (ymd2ord_bounds y' m' d' Hm' Hd') as B'.
  assert (y = y') as <-.
  { destruct (Z.lt_trichotomy y y') as [L | [L | L]]; [|assumption|].
    - pose proof (days_before_year_mono (y + 1) y'). lia.
    - pose proof (days_before_year_mono (y' + 1) y). lia. }
  split; [reflexivity|].
  unfold ymd2ord, days_before_month in E. rewrite days_in_month_eq in Hd, Hd'.
  each_month Hm; each_month Hm'; destruct (is_leap y); cbn in *; lia.
Qed.

Lemma valid_ymd_spec y m d :
  valid_ymd y m d = true <->
  1 <= y <= MAXYEAR /\ 1 <= m <= 12 /\ 1 <= d <= days_in_month y m.
Proof.
  unfold valid_ymd, MINYEAR. rewrite !andb_true_iff, !Z.leb_le. lia.
Qed.

Lemma days_before_year_MAX : days_before_year (MAXYEAR + 1) = MAXORDINAL.
Proof. reflexivity. Qed.

Lemma toordinal_range t :
  valid t = true -> 1 <= toordinal t <= MAXORDINAL.
Proof.
  unfold valid, toordinal. rewrite valid_ymd_spec. intros (Hy & Hm & Hd).
  pose proof (ymd2ord_bounds _ _ _ Hm Hd).
  pose proof (days_before_year_mono 1 (year t)).
  pose proof (days_before_year_mono (year t + 1) (MAXYEAR + 1)).
  rewrite days_before_year_MAX in *. change (days_before_year 1) with 0 in *.
  lia.
Qed.

Lemma fromordinal_valid n :
  1 <= n <= MAXORDINAL -> valid (fromordinal n) = true.
Proof.
  intros [H1 H2]. pose proof (ord2ymd_spec n H1) as S.
  unfold fromordinal, valid. destruct (ord2ymd n) as [[y m] d]. cbn.
  apply valid_ymd_spec. intuition lia.
Qed.

Lemma toordinal_fromordinal n :
  1 <= n -> toordinal (fromordinal n) = n.
Proof.
  intros H1. pose proof (ord2ymd_spec n H1) as S.
  unfold fromordinal, toordinal. destruct (ord2ymd n) as [[y m] d]. cbn.
  tauto.
Qed.

Lemma fromordinal_toordinal t :
  valid t = true -> fromordinal (toordinal t) = t.
Proof.
  intros V. pose proof (toordinal_range t V) as R.
  pose proof (ord2ymd_spec (toordinal t) (proj1 R)) as S.
  unfold fromordinal. destruct (ord2ymd (toordinal t)) as [[y m] d].
  destruct S as (_ & _ & Hm & Hd & E).
  unfold valid in V. apply valid_ymd_spec in V. destruct V as (_ & Vm & Vd).
  destruct (ymd2ord_inj _ _ _ _ _ _ Hm Hd Vm Vd E) as (-> & -> & ->).
  now destruct t.
Qed.

End DatetimeFacts.

(** ** Parsing and printing dates *)

Module StrptimeFacts.
Import Datetime Spec.

Lemma is_digit_no_comma : no_comma Str.is_digit.
Proof.
  intros c. destruct c as [[] [] [] [] [] [] [] []]; vm_compute; congruence.
Qed.

Lemma in_range_no_comma lo hi : no_comma (Str.in_range lo hi).
Proof.
  intros c H. unfold Str.in_range in H.
  apply andb_true_iff in H as [H _]. apply andb_true_iff in H as [H _].
  now apply is_digit_no_comma.
Qed.

Lemma eqb_no_comma (a : ascii) : a <> ","%char -> no_comma (Ascii.eqb a).
Proof.
  intros Ha c H. apply Ascii.eqb_eq in H. subst c. now apply Ascii.eqb_neq.
Qed.

Lemma comma_free_app s r :
  Str.comma_free (s ++ r) = Str.comma_free s && Str.comma_free r.
Proof.
  induction s as [|c s IH]; cbn; [reflexivity|].
  now rewrite IH, andb_assoc.
Qed.

Lemma chars2_clean pa pb : no_comma pa -> no_comma pb -> clean (chars2 pa pb).
Proof.
  intros Ha Hb s v r H. unfold chars2 in H.
  destruct s as [|a [|b rest]]; try discriminate.
  destruct (pa a) eqn:Ea; destruct (pb b) eqn:Eb; try discriminate.
  injection H as _ <-. exists (String a (String b "")). split; [reflexivity|].
  cbn. now rewrite (Ha _ Ea), (Hb _ Eb).
Qed.

Lemma chars1_clean pa : no_comma pa -> clean (chars1 pa).
Proof.
  intros Ha s v r H. unfold chars1 in H.
  destruct s as [|a rest]; try discriminate.
  destruct (pa a) eqn:Ea; try discriminate.
  injection H as _ <-. exists (String a ""). split; [reflexivity|].
  cbn. now rewrite (Ha _ Ea).
Qed.

Lemma space_then_clean pb : no_comma pb -> clean (space_then pb).
Proof.
  intros Hb s v r H. unfold space_then in H.
  destruct s as [|a [|b rest]]; try discriminate.
  destruct (Ascii.eqb_spec a " ") as [->|]; try discriminate.
  destruct (pb b) eqn:Eb; try discriminate.
  injection H as _ <-. exists (String " " (String b "")). split; [reflexivity|].
  cbn. now rewrite (Hb _ Eb).
Qed.

Lemma dash_clean s r :
  dash s = Some r -> s = String "-" r.
Proof.
  destruct s as [|a rest]; cbn; try discriminate.
  destruct (Ascii.eqb_spec a "-") as [->|]; congruence.
Qed.

Lemma first_match_clean alts k :
  Forall clean alts -> clean (first_match alts k).
Proof.
  intros Hall s v r. induction Hall as [|p alts Hp _ IH]; cbn; [discriminate|].
  destruct (p s) as [[v' r']|] eqn:E; [|exact IH].
  destruct (k r'); [|exact IH].
  intros [= <- <-]. exact (Hp _ _ _ E).
Qed.

Lemma group_Y_clean : clean group_Y.
Proof.
  intros s v r H. unfold group_Y in H.
  destruct (chars2 Str.is_digit Str.is_digit s) as [[hi s']|] eqn:E1; try discriminate.
  destruct (chars2 Str.is_digit Str.is_digit s') as [[lo s'']|] eqn:E2; try discriminate.
  injection H as _ <-.
  apply (chars2_clean _ _ is_digit_no_comma is_digit_no_comma) in E1, E2.
  destruct E1 as (p1 & -> & C1), E2 as (p2 & -> & C2).
  exists (p1 ++ p2). split.
  - clear. induction p1; cbn; congruence.
  - now rewrite comma_free_app, C1, C2.
Qed.

Lemma group_m_clean : Forall clean group_m.
Proof.
  repeat constructor;
    first [ apply chars2_clean | apply chars1_clean ];
    first [ apply in_range_no_comma | apply eqb_no_comma; discriminate ].
Qed.

Lemma group_d_clean : Forall clean group_d.
Proof.
  repeat constructor;
    first [ apply chars2_clean | apply chars1_clean | apply space_then_clean ];
    first [ apply in_range_no_comma | apply is_digit_no_comma
          | apply eqb_no_comma; discriminate ].
Qed.

(** What [strptime] accepts is a date of the calendar, written
    without a comma. *)
Lemma strptime_Ok s t :
  strptime s = Ok t -> valid t = true /\ Str.comma_free s = true.
Proof.
  unfold strptime, format_regex_match. intros H.
  destruct (group_Y s) as [[y s1]|] eqn:EY; try discriminate.
  destruct (dash s1) as [s2|] eqn:E1; try discriminate.
  destruct (match_month s2) as [[m s3]|] eqn:EM; try discriminate.
  destruct (dash s3) as [s4|] eqn:E2; try discriminate.
  destruct (match_day s4) as [[d s5]|] eqn:ED; try discriminate.
  destruct s5; try discriminate.
  destruct (valid_ymd y m d) eqn:V; try discriminate.
  injection H as <-. split; [exact V|].
  apply group_Y_clean in EY. destruct EY as (pY & -> & CY).
  apply dash_clean in E1, E2. subst s1 s3.
  apply (first_match_clean _ _ group_m_clean) in EM.
  destruct EM as (pm & -> & Cm).
  apply (first_match_clean _ _ group_d_clean) in ED.
  destruct ED as (pd & -> & Cd).
  rewrite comma_free_app, CY. cbn. rewrite comma_free_app, Cm. cbn.
  now rewrite comma_free_app, Cd.
Qed.

(** *** Printing, then parsing *)

Lemma digit_cases k :
  0 <= k <= 9 ->
  k = 0 \/ k = 1 \/ k = 2 \/ k = 3 \/ k = 4 \/ k = 5 \/ k = 6 \/ k = 7
  \/ k = 8 \/ k = 9.
Proof. lia. Qed.

Lemma digit_char_spec k :
  0 <= k <= 9 ->
  Str.is_digit (Str.digit_char k) = true
  /\ Str.digit_value (Str.digit_char k) = k
  /\ (1 <= k -> Ascii.eqb (Str.digit_char k) "0" = false).
Proof.
  intros H. apply digit_cases in H.
  repeat (destruct H as [-> | H]); try subst k;
    (split; [reflexivity | split; [reflexivity | intros; first [lia | reflexivity]]]).
Qed.

Lemma chars2_pad2 n rest :
  0 <= n <= 99 ->
  chars2 Str.is_digit Str.is_digit (pad2 n ++ rest) = Some (n, rest).
Proof.
  intros H. unfold pad2, chars2. cbn [append].
  assert (H1 : 0 <= n / 10 <= 9) by (Z.div_mod_to_equations; lia).
  assert (H2 : 0 <= n mod 10 <= 9) by (Z.div_mod_to_equations; lia).
  destruct (digit_char_spec _ H1) as (D1 & V1 & _).
  destruct (digit_char_spec _ H2) as (D2 & V2 & _).
  rewrite D1, D2. cbn [andb]. unfold num2. rewrite V1, V2.
  do 2 f_equal. Z.div_mod_to_equations. lia.
Qed.

Lemma group_Y_year4 y rest :
  0 <= y <= 9999 -> group_Y (year4 y ++ rest) = Some (y, rest).
Proof.
  intros H. unfold group_Y, year4.
  assert (Hlen : forall a b c : string, ((a ++ b) ++ c = a ++ b ++ c)%string)
    by (intros a b c; induction a; cbn; congruence).
  rewrite Hlen, chars2_pad2 by (Z.div_mod_to_equations; lia).
  rewrite chars2_pad2 by (Z.div_mod_to_equations; lia).
  do 2 f_equal. Z.div_mod_to_equations. lia.
Qed.

Lemma format_year_year4 pad_year y :
  0 <= y <= 9999 -> pad_year = true \/ 1000 <= y ->
  format_year pad_year y = year4 y.
Proof.
  intros H [-> | Hy]; [reflexivity|].
  unfold format_year. destruct pad_year; [reflexivity|].
  unfold year4, pad2. cbn [append lstrip_zeros].
  assert (H1 : 1 <= y / 100 / 10 <= 9) by (Z.div_mod_to_equations; lia).
  destruct (digit_char_spec (y / 100 / 10)) as (_ & _ & N); [lia|].
  now rewrite N.
Qed.

Lemma day_cases d :
  1 <= d <= 31 ->
  d = 1 \/ d = 2 \/ d = 3 \/ d = 4 \/ d = 5 \/ d = 6 \/ d = 7 \/ d = 8
  \/ d = 9 \/ d = 10 \/ d = 11 \/ d = 12 \/ d = 13 \/ d = 14 \/ d = 15
  \/ d = 16 \/ d = 17 \/ d = 18 \/ d = 19 \/ d = 20 \/ d = 21 \/ d = 22
  \/ d = 23 \/ d = 24 \/ d = 25 \/ d = 26 \/ d = 27 \/ d = 28 \/ d = 29
  \/ d = 30 \/ d = 31.
Proof. lia. Qed.

Lemma match_day_pad2 d :
  1 <= d <= 31 -> match_day (pad2 d) = Some (d, "").
Proof.
  intros H. apply day_cases in H.
  repeat (destruct H as [-> | H]); try subst d; reflexivity.
Qed.

Lemma match_month_pad2 m d :
  1 <= m <= 12 -> 1 <= d <= 31 ->
  match_month (pad2 m ++ "-" ++ pad2 d) = Some (m, "-" ++ pad2 d).
Proof.
  intros Hm Hd. pose proof (match_day_pad2 d Hd) as D.
  generalize dependent (pad2 d). intros sd D.
  apply DatetimeFacts.month_cases in Hm.
  repeat (destruct Hm as [-> | Hm]); try subst m;
    cbv -[match_day]; rewrite D; reflexivity.
Qed.

Lemma days_in_month_le_31 y m : days_in_month y m <= 31.
Proof.
  unfold days_in_month.
  destruct ((m =? 2) && is_leap y); [lia|].
  unfold DAYS_IN_MONTH.
  repeat match goal with |- context [match ?x with _ => _ end] => destruct x end;
    lia.
Qed.

(** The text [strftime] writes for a date from the year 1000 on (for
    any date, where the C library pads the year) is read back by
    [strptime] as that date. *)
Lemma strptime_strftime pad_year t :
  valid t = true -> pad_year = true \/ 1000 <= year t ->
  strptime (strftime pad_year t) = Ok t.
Proof.
  intros V P. destruct t as [y m d]. unfold valid in V. cbn in V, P.
  pose proof V as V'. apply DatetimeFacts.valid_ymd_spec in V'.
  destruct V' as (Hy & Hm & Hd). unfold MAXYEAR in Hy.
  pose proof (days_in_month_le_31 y m).
  unfold strftime, strptime, format_regex_match. cbn [year month day].
  rewrite format_year_year4, group_Y_year4 by first [lia | exact P].
  change (dash ("-" ++ pad2 m ++ "-" ++ pad2 d)) with (Some (pad2 m ++ "-" ++ pad2 d)).
  cbv iota beta. rewrite match_month_pad2 by lia.
  change (dash ("-" ++ pad2 d)) with (Some (pad2 d)).
  cbv iota beta. rewrite match_day_pad2 by lia.
  now rewrite V.
Qed.

End StrptimeFacts.

(** ** Rounding the number of weeks *)

Module FloatFacts.
Import Float.

Lemma round_half_even_error n d :
  0 < d -> - d <= 2 * (d * round_half_even n d) - 2 * n <= d.
Proof.
  intros Hd. unfold round_half_even.
  pose proof (Z.div_mod n d ltac:(lia)) as E.
  pose proof (Z.mod_pos_bound n d Hd) as B.
  set (q := n / d) in *. set (r := n mod d) in *.
  destruct (Z.compare_spec (2 * r) d); [destruct (Z.even q)| |]; nia.
Qed.

Lemma round_half_even_unique n d k :
  0 < d -> - d < 2 * n - 2 * (k * d) < d -> round_half_even n d = k.
Proof.
  intros Hd Hk. unfold round_half_even.
  pose proof (Z.div_mod n d ltac:(lia)) as E.
  pose proof (Z.mod_pos_bound n d Hd) as B.
  set (q := n / d) in *. set (r := n mod d) in *.
  assert (Hq : q = k \/ q = k - 1) by nia.
  destruct Hq as [-> | ->]; destruct (Z.compare_spec (2 * r) d);
    try (destruct (Z.even _)); nia.
Qed.

(** The scale that [div_pos] picks for a numerator below [2^52] and
    the denominator 7. *)
Lemma div_pos_7 a :
  0 < a < 2 ^ 52 ->
  exists s, 3 <= s <= 55 /\ div_pos a 7 = (round_half_even (a * 2 ^ s) 7, - s).
Proof.
  intros Ha. unfold div_pos, prec, emin.
  assert (L : 0 <= Z.log2 a < 52).
  { split; [apply Z.log2_nonneg|]. apply Z.log2_lt_pow2; lia. }
  change (Z.log2 7) with 2.
  set (s0 := 53 - 1 + 2 - Z.log2 a).
  set (s1 := if a * 2 ^ s0 <? 7 * 2 ^ (53 - 1) then s0 + 1 else s0).
  assert (H1 : 3 <= s1 <= 55) by (unfold s1, s0; destruct (_ <? _); lia).
  exists s1. split; [exact H1|].
  rewrite Z.min_l by lia.
  destruct (Z.leb_spec 0 s1); [reflexivity|lia].
Qed.

Lemma round_truediv_pos a :
  0 < a < 2 ^ 52 ->
  exists m s, 3 <= s /\ truediv a 7 = Ok (mkfloat false m (- s))
              /\ round_half_even m (2 ^ s) = (a + 3) / 7.
Proof.
  intros Ha. destruct (div_pos_7 a Ha) as (s & Hs & E).
  exists (round_half_even (a * 2 ^ s) 7), s. split; [lia|].
  assert (P : 8 <= 2 ^ s).
  { change 8 with (2 ^ 3). apply Z.pow_le_mono_r; lia. }
  pose proof (round_half_even_error (a * 2 ^ s) 7 ltac:(lia)) as R.
  set (m := round_half_even (a * 2 ^ s) 7) in *.
  split.
  - unfold truediv. change (7 =? 0) with false. cbv iota.
    destruct (Z.eqb_spec a 0); [lia|].
    rewrite (Z.abs_eq a), (Z.abs_eq 7) by lia. rewrite E.
    fold m. replace (a <? 0) with false by (symmetry; apply Z.ltb_ge; lia).
    change (7 <? 0) with false. cbn [xorb].
    destruct (Z.leb_spec (2 ^ (1024 + 1074)) (m * 2 ^ (- s + 1074))) as [O|_];
      [exfalso|reflexivity].
    assert (T : 2 ^ s * 2 ^ (- s + 1074) = 2 ^ 1074)
      by (rewrite <- Z.pow_add_r by lia; f_equal; lia).
    assert (Q : 0 < 2 ^ (- s + 1074)) by (apply Z.pow_pos_nonneg; lia).
    assert (m <= a * 2 ^ s) by nia.
    assert (m * 2 ^ (- s + 1074) <= a * 2 ^ 1074) by nia.
    assert (2 ^ 52 * 2 ^ 1074 < 2 ^ (1024 + 1074)) by (vm_compute; reflexivity).
    assert (0 < 2 ^ 1074) by (vm_compute; reflexivity).
    nia.
  - apply round_half_even_unique; [lia|].
    pose proof (Z.div_mod (a + 3) 7 ltac:(lia)) as D.
    pose proof (Z.mod_pos_bound (a + 3) 7 ltac:(lia)) as B.
    set (k := (a + 3) / 7) in *. nia.
Qed.

(** [int(round(days / 7))] is [days / 7] rounded to the nearest
    integer, which for an integer [days] is the floor of
    [(days + 3) / 7]: the binary64 quotient is too close to the exact
    one to round differently. *)
Lemma round_truediv_7 days :
  - 2 ^ 52 < days < 2 ^ 52 ->
  exists q, truediv days 7 = Ok q /\ round q = (days + 3) / 7.
Proof.
  intros H. destruct (Z.lt_trichotomy days 0) as [N | [-> | P]].
  - destruct (round_truediv_pos (- days) ltac:(lia)) as (m & s & Hs & E & R).
    exists (mkfloat true m (- s)). split.
    + unfold truediv in *. change (7 =? 0) with false in *. cbv iota in *.
      destruct (Z.eqb_spec days 0); [lia|].
      destruct (Z.eqb_spec (- days) 0); [lia|].
      rewrite Z.abs_eq in E by lia. rewrite (Z.abs_neq days) by lia.
      destruct (div_pos (- days) (Z.abs 7)) as [m' e'].
      replace (days <? 0) with true by (symmetry; apply Z.ltb_lt; lia).
      replace (- days <? 0) with false in E by (symmetry; apply Z.ltb_ge; lia).
      destruct (_ <=? _); [discriminate|]. now injection E as -> ->.
    + unfold round. cbn [sign mant expo].
      destruct (Z.leb_spec 0 (- s)); [lia|].
      rewrite Z.opp_involutive, R. Z.div_mod_to_equations. lia.
  - exists (mkfloat false 0 0). split; reflexivity.
  - destruct (round_truediv_pos days ltac:(lia)) as (m & s & Hs & E & R).
    exists (mkfloat false m (- s)). split; [exact E|].
    unfold round. cbn [sign mant expo].
    destruct (Z.leb_spec 0 (- s)); [lia|].
    now rewrite Z.opp_involutive.
Qed.

End FloatFacts.

(** ** [generate_dates] *)

Module GenerateDatesFacts.
Import Datetime Spec DatetimeFacts.

Lemma weeks_before_0 t : valid t = true -> weeks_before t 0 = t.
Proof.
  intros V. unfold weeks_before. rewrite Z.mul_0_r, Z.sub_0_r.
  now apply fromordinal_toordinal.
Qed.

Lemma weeks_before_valid t i :
  valid t = true -> 7 * Z.of_nat i < toordinal t ->
  valid (weeks_before t i) = true.
Proof.
  intros V H. pose proof (toordinal_range t V).
  apply fromordinal_valid. lia.
Qed.

Lemma weeks_before_toordinal t i :
  7 * Z.of_nat i < toordinal t ->
  toordinal (weeks_before t i) = toordinal t - 7 * Z.of_nat i.
Proof. intros H. apply toordinal_fromordinal. lia. Qed.

Lemma sub_timedelta_7 t :
  valid t = true ->
  sub_timedelta t 7 =
    if 7 <? toordinal t then Ok (weeks_before t 1) else Raise OverflowError.
Proof.
  intros V. pose proof (toordinal_range t V). unfold sub_timedelta, weeks_before.
  change (7 * Z.of_nat 1) with 7.
  destruct (Z.ltb_spec 7 (toordinal t)), (Z.ltb_spec 0 (toordinal t - 7)),
    (Z.leb_spec (toordinal t - 7) MAXORDINAL); cbn; try reflexivity; lia.
Qed.

Lemma weeks_before_S t i :
  valid t = true -> 7 < toordinal t ->
  weeks_before (weeks_before t 1) i = weeks_before t (S i).
Proof.
  intros V H. unfold weeks_before at 1 3.
  rewrite weeks_before_toordinal by lia. f_equal. lia.
Qed.

(** The loop returns when the date never leaves the calendar, also
    not in the subtraction that follows the last append. *)
Lemma generate_dates_loop_Ok pad_year n : forall week alldates,
  valid week = true -> 7 * Z.of_nat n < toordinal week ->
  generate_dates_loop pad_year n week alldates
  = Ok (alldates ++ map (fun i => strftime pad_year (weeks_before week i)) (seq 0 n))%list.
Proof.
  induction n as [|n IH]; intros week alldates V H.
  - cbn. now rewrite app_nil_r.
  - cbn [generate_dates_loop]. rewrite sub_timedelta_7 by exact V.
    destruct (Z.ltb_spec 7 (toordinal week)); [|lia]. cbn [bind].
    rewrite IH.
    + rewrite <- app_assoc. do 2 f_equal. cbn [seq map app].
      rewrite weeks_before_0 by exact V. f_equal.
      rewrite <- seq_shift, map_map. apply map_ext. intros i.
      now rewrite weeks_before_S.
    + apply (weeks_before_valid week 1); [exact V|lia].
    + rewrite weeks_before_toordinal; lia.
Qed.

Lemma generate_dates_loop_overflow pad_year n : forall week alldates,
  valid week = true -> (0 < n)%nat -> toordinal week <= 7 * Z.of_nat n ->
  generate_dates_loop pad_year n week alldates = Raise OverflowError.
Proof.
  induction n as [|n IH]; intros week alldates V Hn H; [lia|].
  cbn [generate_dates_loop]. rewrite sub_timedelta_7 by exact V.
  destruct (Z.ltb_spec 7 (toordinal week)); [|reflexivity]. cbn [bind].
  apply IH.
  - apply (weeks_before_valid week 1); [exact V|lia].
  - lia.
  - rewrite weeks_before_toordinal; lia.
Qed.

(** The four outcomes of [generate_dates]. *)
Lemma generate_dates_Ok pad_year first_week weeks t :
  strptime first_week = Ok t -> 7 * weeks < toordinal t ->
  generate_dates pad_year first_week weeks
  = Ok (map (fun i => strftime pad_year (weeks_before t i)) (seq 0 (Z.to_nat weeks))).
Proof.
  intros E H. unfold generate_dates. rewrite E. cbn [bind].
  apply StrptimeFacts.strptime_Ok in E. destruct E as [V _].
  pose proof (toordinal_range t V).
  rewrite generate_dates_loop_Ok; [reflexivity|exact V|lia].
Qed.

Lemma generate_dates_nonpositive pad_year first_week weeks t :
  strptime first_week = Ok t -> weeks <= 0 ->
  generate_dates pad_year first_week weeks = Ok [].
Proof.
  intros E H. unfold generate_dates. rewrite E. cbn [bind].
  now replace (Z.to_nat weeks) with O by lia.
Qed.

Lemma generate_dates_overflow pad_year first_week weeks t :
  strptime first_week = Ok t -> 0 < weeks -> toordinal t <= 7 * weeks ->
  generate_dates pad_year first_week weeks = Raise OverflowError.
Proof.
  intros E Hw H. unfold generate_dates. rewrite E. cbn [bind].
  apply StrptimeFacts.strptime_Ok in E. destruct E as [V _].
  apply generate_dates_loop_overflow; [exact V|lia|lia].
Qed.

Lemma strptime_raises s e : strptime s = Raise e -> e = ValueError.
Proof.
  unfold strptime.
  destruct (format_regex_match s) as [[[[y m] d] [|c r]]|]; try congruence.
  destruct (valid_ymd y m d); congruence.
Qed.

Lemma generate_dates_malformed pad_year first_week weeks e :
  strptime first_week = Raise e ->
  generate_dates pad_year first_week weeks = Raise ValueError.
Proof.
  intros E. unfold generate_dates. rewrite E. cbn.
  now rewrite (strptime_raises _ _ E).
Qed.

End GenerateDatesFacts.

(** ** [str.strip] *)

Module StripFacts.
Import Str.

Lemma rstrip_cons c s :
  rstrip (String c s) =
    match rstrip s with
    | EmptyString => if isspace c then EmptyString else String c EmptyString
    | r => String c r
    end.
Proof. reflexivity. Qed.

Lemma rstrip_idem s : rstrip (rstrip s) = rstrip s.
Proof.
  induction s as [|c s IH]; [reflexivity|].
  rewrite rstrip_cons. destruct (rstrip s) as [|c' r] eqn:E.
  - destruct (isspace c) eqn:Ec; [reflexivity|]. cbn. now rewrite Ec.
  - rewrite rstrip_cons, IH. reflexivity.
Qed.

Lemma lstrip_head s :
  lstrip s = "" \/ exists c r, lstrip s = String c r /\ isspace c = false.
Proof.
  induction s as [|c s IH]; [now left|].
  cbn. destruct (isspace c) eqn:Ec; [exact IH|]. right. now exists c, s.
Qed.

Lemma rstrip_head c r :
  isspace c = false -> exists r', rstrip (String c r) = String c r'.
Proof.
  intros Ec. rewrite rstrip_cons. destruct (rstrip r) as [|c' r'].
  - rewrite Ec. now exists "".
  - now exists (String c' r').
Qed.

Lemma lstrip_strip s : lstrip (strip s) = strip s.
Proof.
  unfold strip. destruct (lstrip_head s) as [-> | (c & r & -> & Ec)];
    [reflexivity|].
  destruct (rstrip_head c r Ec) as [r' ->]. cbn. now rewrite Ec.
Qed.

Lemma rstrip_strip s : rstrip (strip s) = strip s.
Proof. apply rstrip_idem. Qed.

(** Trimmed text stays as it is when trimmed again. *)
Lemma strip_idem s : strip (strip s) = strip s.
Proof. unfold strip at 1. now rewrite lstrip_strip, rstrip_strip. Qed.

Lemma lstrip_all_space ws s :
  Spec.all_space ws = true -> lstrip (ws ++ s) = lstrip s.
Proof.
  induction ws as [|c ws IH]; cbn; [reflexivity|].
  intros H. apply andb_true_iff in H as [Hc Hw]. now rewrite Hc, IH.
Qed.

Lemma rstrip_all_space ws : Spec.all_space ws = true -> rstrip ws = "".
Proof.
  induction ws as [|c ws IH]; [reflexivity|]. cbn [Spec.all_space].
  intros H. apply andb_true_iff in H as [Hc Hw].
  now rewrite rstrip_cons, IH, Hc.
Qed.

Lemma rstrip_app_all_space s ws :
  Spec.all_space ws = true -> rstrip (s ++ ws) = rstrip s.
Proof.
  intros H. induction s as [|c s IH]; cbn [append].
  - now rewrite rstrip_all_space.
  - now rewrite !rstrip_cons, IH.
Qed.

Lemma no_space_trimmed s :
  Spec.no_space s = true -> lstrip s = s /\ rstrip s = s.
Proof.
  induction s as [|c s IH]; [now split|]. cbn [Spec.no_space].
  intros H. apply andb_true_iff in H as [Hc Hs]. apply negb_true_iff in Hc.
  destruct (IH Hs) as [_ R]. split.
  - cbn. now rewrite Hc.
  - rewrite rstrip_cons, R, Hc. now destruct s.
Qed.

(** Trimming takes the white space around a word away, and nothing else. *)
Lemma strip_padded ws1 s ws2 :
  Spec.all_space ws1 = true -> Spec.all_space ws2 = true ->
  Spec.no_space s = true ->
  strip (ws1 ++ s ++ ws2) = s.
Proof.
  intros H1 H2 Hs. unfold strip. rewrite lstrip_all_space by exact H1.
  destruct (no_space_trimmed s Hs) as [L R].
  destruct s as [|c s].
  - cbn [append]. clear L R Hs.
    assert (E : lstrip ws2 = "").
    { clear H1. induction ws2 as [|c ws IH]; [reflexivity|]. cbn in *.
      apply andb_true_iff in H2 as [Hc Hw]. rewrite Hc. now apply IH. }
    now rewrite E.
  - cbn [Spec.no_space] in Hs. apply andb_true_iff in Hs as [Hc _].
    apply negb_true_iff in Hc.
    change (String c s ++ ws2) with (String c (s ++ ws2)).
    cbn [lstrip]. rewrite Hc.
    change (String c (s ++ ws2)) with (String c s ++ ws2).
    now rewrite rstrip_app_all_space.
Qed.

Lemma is_digit_not_space c : is_digit c = true -> isspace c = false.
Proof.
  destruct c as [[] [] [] [] [] [] [] []]; vm_compute; congruence.
Qed.

Lemma digits_value_no_space s : forall acc n,
  digits_value acc s = Some n -> Spec.no_space s = true.
Proof.
  induction s as [|c s IH]; intros acc n; [reflexivity|]. cbn.
  destruct (is_digit c) eqn:D; [|discriminate].
  intros H. rewrite (is_digit_not_space c D). cbn. now apply (IH _ _ H).
Qed.

Lemma is_positive_int_no_space s :
  is_positive_int s = true -> Spec.no_space s = true.
Proof.
  unfold is_positive_int, int_literal. destruct s as [|c s]; [discriminate|].
  destruct (digits_value 0 (String c s)) as [n|] eqn:E; [|discriminate].
  intros _. now apply (digits_value_no_space _ _ _ E).
Qed.

End StripFacts.

(** ** The scraper *)

Module ScrapeFacts.
Import Datetime Spec DatetimeFacts GenerateDatesFacts.

(** [scrape_week] requests its URL, once, and then only reads the
    document. *)
Lemma scrape_week_run web url log :
  scrape_week web url log =
    match web url with
    | Some soup =>
        (Ok (mkWeek (map trimmed_text (Soup.find_all title_class soup))
                    (map trimmed_text (Soup.find_all artist_class soup))
                    (map trimmed_text (Soup.find_all rank_class soup))
                    (repeat (Str.suffix 10 url)
                       (List.length (Soup.find_all title_class soup)))),
         log ++ [url])%list
    | None => (Raise RequestException, log ++ [url])%list
    end.
Proof.
  unfold scrape_week, bindN, requests_get, ret.
  destruct (web url); [|reflexivity].
  now rewrite length_map.
Qed.

Lemma bindN_ret {A} (c : Net A) log : (x <~ c ;; ret x) log = c log.
Proof. unfold bindN, ret. now destruct (c log) as [[a|e] log']. Qed.

Lemma n_weeks_Ok first_week last_week a b :
  strptime first_week = Ok a -> strptime last_week = Ok b ->
  n_weeks first_week last_week = Ok ((sub_days a b + 3) / 7).
Proof.
  intros Ea Eb. unfold n_weeks. rewrite Ea, Eb. cbn [bind].
  apply StrptimeFacts.strptime_Ok in Ea, Eb.
  pose proof (toordinal_range a (proj1 Ea)) as Ra.
  pose proof (toordinal_range b (proj1 Eb)) as Rb.
  unfold MAXORDINAL in *.
  destruct (FloatFacts.round_truediv_7 (sub_days a b)) as (q & -> & R).
  - unfold sub_days. change (2 ^ 52) with 4503599627370496. lia.
  - cbn [bind]. now rewrite R.
Qed.

Lemma n_weeks_malformed first_week last_week :
  (exists e, strptime first_week = Raise e)
  \/ (exists e, strptime last_week = Raise e) ->
  n_weeks first_week last_week = Raise ValueError.
Proof.
  unfold n_weeks. intros [[e E] | [e E]].
  - rewrite E. cbn. now rewrite (strptime_raises _ _ E).
  - destruct (strptime first_week) as [a|e'] eqn:Ef.
    + rewrite E. cbn. now rewrite (strptime_raises _ _ E).
    + cbn. now rewrite (strptime_raises _ _ Ef).
Qed.

(** A pool that is given no task returns no result and makes no
    request. *)
Lemma imap_nil {A B} time (f : A -> Net B) log : imap time f [] log = (Ok [], log).
Proof. unfold imap. cbn. now rewrite app_nil_r. Qed.

(** [scrape_billboard], by the outcome of its first two steps. *)
Lemma scrape_billboard_run pad_year web pool_time first_week last_week url log :
  scrape_billboard pad_year web pool_time first_week last_week url log =
    match n_weeks first_week last_week with
    | Raise e => (Raise e, log)
    | Ok n =>
        match generate_dates pad_year first_week n with
        | Raise e => (Raise e, log)
        | Ok date_list =>
            imap pool_time (scrape_week web)
              (map (fun week => url ++ week) date_list) log
        end
    end.
Proof.
  unfold scrape_billboard, bindN at 1, lift at 1.
  destruct (n_weeks first_week last_week) as [n|e]; [|reflexivity].
  unfold bindN at 1, lift at 1.
  destruct (generate_dates pad_year first_week n) as [l|e]; [|reflexivity].
  change (module_name =? "__main__")%string with true. cbv iota.
  apply bindN_ret.
Qed.

(** A malformed date ends the call in [strptime], before the pool is
    given anything to fetch. *)
Lemma scrape_billboard_malformed pad_year web pool_time first_week last_week url log :
  (exists e, strptime first_week = Raise e)
  \/ (exists e, strptime last_week = Raise e) ->
  scrape_billboard pad_year web pool_time first_week last_week url log
  = (Raise ValueError, log).
Proof.
  intros H. rewrite scrape_billboard_run. now rewrite n_weeks_malformed.
Qed.

(** A count of weeks that is not positive gives no dates, no URLs,
    and the empty list of results. *)
Lemma scrape_billboard_nonpositive pad_year web pool_time first_week last_week url log a b :
  strptime first_week = Ok a -> strptime last_week = Ok b ->
  sub_days a b <= 3 ->
  scrape_billboard pad_year web pool_time first_week last_week url log = (Ok [], log).
Proof.
  intros Ea Eb H. rewrite scrape_billboard_run.
  rewrite (n_weeks_Ok _ _ _ _ Ea Eb).
  rewrite (generate_dates_nonpositive _ _ _ _ Ea);
    [apply imap_nil | Z.div_mod_to_equations; lia].
Qed.

(** *** The week identifiers of a scrape are its dates *)

Lemma string_length_app (s r : string) :
  String.length (s ++ r) = (String.length s + String.length r)%nat.
Proof. induction s as [|c s IH]; cbn; [reflexivity|now rewrite IH]. Qed.

Lemma substring_all (s : string) : substring 0 (String.length s) s = s.
Proof. induction s as [|c s IH]; cbn; [reflexivity|now rewrite IH]. Qed.

Lemma substring_skip (s r : string) (n : nat) :
  substring (String.length s) n (s ++ r) = substring 0 n r.
Proof. induction s as [|c s IH]; cbn; [reflexivity|exact IH]. Qed.

(** The last characters of a URL that ends in a text are that text. *)
Lemma suffix_app (url d : string) :
  Str.suffix (String.length d) (url ++ d) = d.
Proof.
  unfold Str.suffix. rewrite string_length_app.
  replace (String.length url + String.length d - String.length d)%nat
    with (String.length url) by lia.
  now rewrite substring_skip, substring_all.
Qed.

Lemma strftime_length pad_year t :
  valid t = true -> pad_year = true \/ 1000 <= year t ->
  String.length (strftime pad_year t) = 10%nat.
Proof.
  intros V P. unfold valid in V. apply valid_ymd_spec in V.
  unfold MAXYEAR in V. unfold strftime.
  rewrite StrptimeFacts.format_year_year4 by first [lia | exact P].
  reflexivity.
Qed.

Lemma year_from_1000 t :
  valid t = true -> days_before_year 1000 < toordinal t -> 1000 <= year t.
Proof.
  intros V H. unfold valid in V. apply valid_ymd_spec in V.
  destruct V as (_ & Vm & Vd).
  pose proof (ymd2ord_bounds _ _ _ Vm Vd) as B. fold (toordinal t) in B.
  destruct (Z.le_gt_cases 1000 (year t)) as [L|L]; [exact L|].
  pose proof (days_before_year_mono (year t + 1) 1000). lia.
Qed.

Lemma toordinal_from_1000 t :
  valid t = true -> 1000 <= year t -> days_before_year 1000 < toordinal t.
Proof.
  intros V H. unfold valid in V. apply valid_ymd_spec in V.
  destruct V as (_ & Vm & Vd).
  pose proof (ymd2ord_bounds _ _ _ Vm Vd) as B. fold (toordinal t) in B.
  pose proof (days_before_year_mono 1000 (year t)). lia.
Qed.

Lemma imap_results_scrape_week web urls : forall rs,
  imap_results (scrape_week web) urls = Ok rs ->
  Forall2 (fun url r => exists k, weeks r = repeat (Str.suffix 10 url) k) urls rs.
Proof.
  induction urls as [|u urls IH]; intros rs H.
  - cbn in H. injection H as <-. constructor.
  - cbn [imap_results] in H. rewrite scrape_week_run in H.
    destruct (web u) as [soup|]; [|discriminate]. cbn [fst bind] in H.
    destruct (imap_results (scrape_week web) urls) as [rs'|e]; [|discriminate].
    cbn [bind] in H. injection H as <-.
    constructor; [|exact (IH _ eq_refl)].
    now eexists.
Qed.

Lemma imap_scrape_week time web urls log rs log' :
  imap time (scrape_week web) urls log = (Ok rs, log') ->
  Forall2 (fun url r => exists k, weeks r = repeat (Str.suffix 10 url) k) urls rs.
Proof.
  unfold imap. intros H. injection H as H _.
  exact (imap_results_scrape_week web urls rs H).
Qed.

(** In the records [scrape_billboard] returns, every week identifier
    is the text of one of the generated dates, and is read back as a
    date: always where the C library pads the year, and for a last week
    from the year 1000 on otherwise. *)
Lemma scrape_billboard_week_identifiers
    pad_year web pool_time first_week last_week url log rs log' b :
  scrape_billboard pad_year web pool_time first_week last_week url log = (Ok rs, log') ->
  strptime last_week = Ok b -> pad_year = true \/ 1000 <= year b ->
  Forall (fun r => Forall is_date_string (weeks r)) rs.
Proof.
  intros H Eb P. rewrite scrape_billboard_run in H.
  destruct (strptime first_week) as [a|e] eqn:Ea;
    [|rewrite n_weeks_malformed in H by (left; now exists e); discriminate].
  rewrite (n_weeks_Ok _ _ _ _ Ea Eb) in H.
  set (n := (sub_days a b + 3) / 7) in *.
  pose proof (proj1 (StrptimeFacts.strptime_Ok _ _ Ea)) as Va.
  pose proof (proj1 (StrptimeFacts.strptime_Ok _ _ Eb)) as Vb.
  destruct (Z.le_gt_cases n 0) as [N|N].
  { rewrite (generate_dates_nonpositive _ _ _ a Ea N) in H.
    cbn in H. injection H as <- _. constructor. }
  destruct (Z.ltb_spec (7 * n) (toordinal a)) as [L|L];
    [|rewrite (generate_dates_overflow _ _ _ a Ea) in H by lia; discriminate].
  rewrite (generate_dates_Ok _ _ _ a Ea L) in H.
  rewrite map_map in H. apply imap_scrape_week in H.
  assert (D : forall i, (i < Z.to_nat n)%nat ->
              is_date_string (Str.suffix 10 (url ++ strftime pad_year (weeks_before a i)))).
  { intros i Hi.
    assert (Vi : valid (weeks_before a i) = true)
      by (apply weeks_before_valid; [exact Va|lia]).
    assert (Pi : pad_year = true \/ 1000 <= year (weeks_before a i)).
    { destruct P as [P|P]; [now left|right].
      apply year_from_1000; [exact Vi|].
      rewrite weeks_before_toordinal by lia.
      pose proof (toordinal_from_1000 b Vb P).
      unfold n, sub_days in *. Z.div_mod_to_equations. lia. }
    rewrite <- (strftime_length pad_year _ Vi Pi), suffix_app.
    exists (weeks_before a i). now apply StrptimeFacts.strptime_strftime. }
  assert (U : forall u,
              In u (map (fun i => url ++ strftime pad_year (weeks_before a i))
                      (seq 0 (Z.to_nat n))) ->
              is_date_string (Str.suffix 10 u)).
  { intros u Hu. apply in_map_iff in Hu. destruct Hu as (i & <- & Hi).
    apply in_seq in Hi. apply D. lia. }
  clear D. revert U H.
  generalize (map (fun i => url ++ strftime pad_year (weeks_before a i))
                (seq 0 (Z.to_nat n))) as urls.
  intros urls U H. induction H as [|u r urls rs [k Hk] _ IH]; constructor.
  - rewrite Hk. apply Forall_forall. intros w Hw. apply repeat_spec in Hw.
    subst w. apply U. now left.
  - apply IH. intros u' Hu'. apply U. now right.
Qed.

End ScrapeFacts.

(** ** Grouping *)

Module GroupFacts.
Import Pandas Spec.

Lemma string_compare_refl s : String.compare s s = Eq.
Proof. exact (proj2 (String_as_OT.cmp_eq s s) eq_refl). Qed.

Lemma string_compare_eq s s' : String.compare s s' = Eq -> s = s'.
Proof. exact (proj1 (String_as_OT.cmp_eq s s')). Qed.

Lemma string_compare_trans s1 s2 s3 :
  String.compare s1 s2 = Lt -> String.compare s2 s3 = Lt ->
  String.compare s1 s3 = Lt.
Proof.
  intros H1 H2. apply String_as_OT.cmp_lt in H1, H2.
  apply (proj2 (String_as_OT.cmp_lt s1 s3)).
  eapply String_as_OT.lt_trans; eassumption.
Qed.

Lemma compare2_eq a b : Str.compare2 a b = Eq <-> a = b.
Proof.
  destruct a as [a1 a2], b as [b1 b2]. unfold Str.compare2. cbn [fst snd].
  split.
  - destruct (String.compare a1 b1) eqn:E1; try discriminate.
    intros E2. apply string_compare_eq in E1, E2. congruence.
  - intros [= -> ->]. now rewrite !string_compare_refl.
Qed.

Lemma compare2_refl a : Str.compare2 a a = Eq.
Proof. now apply compare2_eq. Qed.

Lemma compare2_antisym a b : Str.compare2 a b = CompOpp (Str.compare2 b a).
Proof.
  unfold Str.compare2.
  rewrite (String.compare_antisym (fst a) (fst b)).
  rewrite (String.compare_antisym (snd a) (snd b)).
  now destruct (String.compare (fst b) (fst a)).
Qed.

Lemma compare2_gt a b : Str.compare2 a b = Gt -> key_lt b a.
Proof.
  unfold key_lt. rewrite (compare2_antisym b a). now intros ->.
Qed.

Lemma key_lt_trans a b c : key_lt a b -> key_lt b c -> key_lt a c.
Proof.
  destruct a as [a1 a2], b as [b1 b2], c as [c1 c2].
  unfold key_lt, Str.compare2. cbn [fst snd]. intros H1 H2.
  destruct (String.compare a1 b1) eqn:E1; try discriminate;
    destruct (String.compare b1 c1) eqn:E2; try discriminate.
  - apply string_compare_eq in E1, E2. subst.
    rewrite string_compare_refl. eapply string_compare_trans; eassumption.
  - apply string_compare_eq in E1. subst. now rewrite E2.
  - apply string_compare_eq in E2. subst. now rewrite E1.
  - now rewrite (string_compare_trans _ _ _ E1 E2).
Qed.

Lemma key_lt_irrefl a : ~ key_lt a a.
Proof. unfold key_lt. now rewrite compare2_refl. Qed.

Lemma key_eqb_spec a b : reflect (a = b) (key_eqb a b).
Proof.
  unfold key_eqb. destruct (Str.compare2 a b) eqn:E; constructor.
  - now apply compare2_eq.
  - intros ->. now rewrite compare2_refl in E.
  - intros ->. now rewrite compare2_refl in E.
Qed.

Lemma lookup_below k gs :
  Forall (key_lt k) (keys gs) -> lookup k gs = None.
Proof.
  induction gs as [|[k' ws] gs IH]; [reflexivity|].
  cbn. intros H. inversion H as [|? ? Hk Hr]; subst.
  destruct (key_eqb_spec k k') as [->|]; [now apply key_lt_irrefl in Hk|].
  now apply IH.
Qed.

Lemma insert_group_keys k w gs x :
  In x (keys (insert_group k w gs)) -> x = k \/ In x (keys gs).
Proof.
  induction gs as [|[k' ws] gs IH]; cbn.
  - intros [<-|[]]. now left.
  - destruct (Str.compare2 k k') eqn:E; cbn.
    + tauto.
    + intros [<-|H]; tauto.
    + intros [<-|H]; [tauto|]. destruct (IH H); tauto.
Qed.

Lemma insert_group_sorted k w gs :
  StronglySorted key_lt (keys gs) ->
  StronglySorted key_lt (keys (insert_group k w gs)).
Proof.
  induction gs as [|[k' ws] gs IH]; cbn; intros S.
  - repeat constructor.
  - inversion S as [|? ? S' F]; subst.
    destruct (Str.compare2 k k') eqn:E; cbn.
    + now constructor.
    + constructor; [exact S|]. constructor; [exact E|].
      eapply Forall_impl; [|exact F]. intros x. now apply key_lt_trans.
    + constructor; [now apply IH|].
      apply Forall_forall. intros x Hx.
      apply insert_group_keys in Hx. destruct Hx as [->|Hx].
      * now apply compare2_gt.
      * rewrite Forall_forall in F. now apply F.
Qed.

Lemma insert_group_lookup k w gs x :
  StronglySorted key_lt (keys gs) ->
  lookup x (insert_group k w gs) =
    if key_eqb x k
    then Some (match lookup k gs with Some ws => ws ++ [w] | None => [w] end)%list
    else lookup x gs.
Proof.
  induction gs as [|[k' ws] gs IH]; cbn; intros S.
  - now destruct (key_eqb x k).
  - inversion S as [|? ? S' F]; subst.
    destruct (Str.compare2 k k') eqn:E; cbn.
    + apply compare2_eq in E. subst k'.
      unfold key_eqb at 3. rewrite compare2_refl.
      now destruct (key_eqb x k).
    + destruct (key_eqb_spec x k) as [Hx|Hx]; [|reflexivity].
      unfold key_eqb. rewrite E. f_equal.
      rewrite lookup_below; [reflexivity|].
      eapply Forall_impl; [|exact F]. intros y. now apply key_lt_trans.
    + rewrite IH by exact S'.
      assert (N : key_eqb k k' = false) by (unfold key_eqb; now rewrite E).
      rewrite N.
      destruct (key_eqb_spec x k') as [->|]; [|reflexivity].
      destruct (key_eqb_spec k' k) as [->|]; [|reflexivity].
      now rewrite compare2_refl in E.
Qed.

Lemma lookup_In k ws gs :
  StronglySorted key_lt (keys gs) ->
  (In (k, ws) gs <-> lookup k gs = Some ws).
Proof.
  induction gs as [|[k' ws'] gs IH]; cbn; intros S.
  - split; [tauto|discriminate].
  - inversion S as [|? ? S' F]; subst.
    destruct (key_eqb_spec k k') as [->|N].
    + split; [|intros [= ->]; now left].
      intros [[= ->]|H]; [reflexivity|].
      rewrite Forall_forall in F.
      apply (in_map fst) in H. apply F in H. now apply key_lt_irrefl in H.
    + rewrite <- (IH S'). split; [|tauto].
      intros [[= -> ->]|H]; [congruence|exact H].
Qed.

End GroupFacts.

(** ** The aggregation *)

Module AggregateFacts.
Import Pandas Spec GroupFacts.

(** *** [split] after [join] *)

Lemma split_comma_cons s : exists f fs, Str.split_comma s = f :: fs.
Proof.
  destruct s as [|c s]; cbn; [now eauto|].
  destruct (Ascii.eqb c ","); [now eauto|].
  destruct (Str.split_comma s); now eauto.
Qed.

Lemma split_comma_free s :
  Str.comma_free s = true -> Str.split_comma s = [s].
Proof.
  induction s as [|c s IH]; [reflexivity|]. cbn.
  destruct (Ascii.eqb c ","); [discriminate|]. cbn. intros H.
  now rewrite IH.
Qed.

Lemma split_comma_app s rest :
  Str.comma_free s = true ->
  Str.split_comma (s ++ String "," rest) = s :: Str.split_comma rest.
Proof.
  induction s as [|c s IH]; [reflexivity|]. cbn.
  destruct (Ascii.eqb c ","); [discriminate|]. cbn. intros H.
  now rewrite (IH H).
Qed.

(** Splitting the joined text gives the fields back when no field
    holds a comma. *)
Lemma split_comma_join l :
  l <> [] -> Forall (fun s => Str.comma_free s = true) l ->
  Str.split_comma (Str.join "," l) = l.
Proof.
  intros N F. induction F as [|s l Hs F IH]; [congruence|].
  destruct l as [|s' l'].
  - now apply split_comma_free.
  - etransitivity;
      [exact (split_comma_app s (Str.join "," (s' :: l')) Hs)|].
    f_equal. apply IH. discriminate.
Qed.

(** *** The groups of a frame *)

Lemma select_app k rows rows' :
  select k (rows ++ rows') = (select k rows ++ select k rows')%list.
Proof. unfold select. now rewrite filter_app, map_app. Qed.

Lemma select_one k r :
  select k [r] =
    match row_key r with
    | Some k' => if key_eqb k' k then [snd r] else []
    | None => []
    end.
Proof.
  unfold select, has_key. cbn [filter].
  destruct (row_key r) as [k'|]; [|reflexivity].
  now destruct (key_eqb k' k).
Qed.

Lemma add_row_grouped gs rows r :
  grouped gs rows -> grouped (add_row gs r) (rows ++ [r]).
Proof.
  intros [S L]. unfold add_row.
  assert (Skip : row_key r = None -> grouped gs (rows ++ [r])).
  { intros N. split; [exact S|]. intros k.
    now rewrite select_app, select_one, N, app_nil_r. }
  destruct r as [[[t|] [a|]] w]; try (apply Skip; reflexivity).
  split; [now apply insert_group_sorted|].
  intros k. rewrite insert_group_lookup by exact S.
  rewrite select_app, select_one, L. cbn [row_key snd].
  destruct (key_eqb_spec k (t, a)) as [->|N].
  - unfold key_eqb. rewrite compare2_refl.
    destruct (select (t, a) rows); reflexivity.
  - destruct (key_eqb_spec (t, a) k) as [E|_]; [congruence|].
    now rewrite app_nil_r.
Qed.

Lemma fold_add_row_grouped rows' : forall gs rows,
  grouped gs rows -> grouped (fold_left add_row rows' gs) (rows ++ rows').
Proof.
  induction rows' as [|r rows' IH]; intros gs rows G; cbn.
  - now rewrite app_nil_r.
  - replace (rows ++ r :: rows')%list with ((rows ++ [r]) ++ rows')%list
      by now rewrite <- app_assoc.
    apply IH. now apply add_row_grouped.
Qed.

Lemma groupby_grouped by1 by2 col :
  grouped (groupby by1 by2 col) (combine (combine by1 by2) col).
Proof.
  unfold groupby.
  apply (fold_add_row_grouped _ [] []). split; [constructor|reflexivity].
Qed.

Lemma groupby_NaN by1 by2 col :
  Forall (eq NaN) by1 -> groupby by1 by2 col = [].
Proof.
  unfold groupby. generalize (@nil (key * list cell)) as gs.
  intros gs F. revert by2 col gs.
  induction F as [|c by1 <- F IH]; intros by2 col gs; [reflexivity|].
  destruct by2 as [|a by2]; [reflexivity|].
  destruct col as [|w col]; [reflexivity|].
  cbn. apply IH.
Qed.

(** *** From the groups to the rows of the table *)

Lemma apply_join_Ok gs out :
  apply_join gs = Ok out ->
  Forall2 (fun g row => exists l, strings (snd g) = Some l /\ row = row_of g l)
    gs out.
Proof.
  revert out. induction gs as [|[[t a] ws] gs IH]; cbn; intros out H.
  - injection H as <-. constructor.
  - unfold str_join in H. destruct (strings ws) as [l|] eqn:E; [|discriminate].
    cbn in H. destruct (apply_join gs) as [rows|]; [|discriminate].
    cbn in H. injection H as <-. constructor; [|now apply IH].
    now exists l.
Qed.

Lemma apply_join_total gs :
  Forall (fun g => exists l, strings (snd g) = Some l) gs ->
  exists out, apply_join gs = Ok out.
Proof.
  induction 1 as [|[[t a] ws] gs [l E] _ [out IH]]; cbn; [now eauto|].
  unfold str_join. cbn in E. rewrite E, IH. cbn. now eauto.
Qed.

Lemma strings_Str l : strings (map Str l) = Some l.
Proof. induction l as [|s l IH]; cbn; [reflexivity|now rewrite IH]. Qed.

(** *** The rows of [tracks_df], from the scraped weeks *)

Lemma select_Str k T : forall A W,
  select k (combine (combine (map Str T) (map Str A)) (map Str W))
  = map Str (weeks_of k (combine (combine T A) W)).
Proof.
  unfold select, weeks_of.
  induction T as [|t T IH]; intros A W; [reflexivity|].
  destruct A as [|a A]; [reflexivity|]. destruct W as [|w W]; [reflexivity|].
  cbn [map combine filter]. unfold has_key at 1. cbn [row_key fst].
  destruct (key_eqb (t, a) k); cbn [map snd]; now rewrite IH.
Qed.

Lemma setitem_title_is_NaN df name values df' :
  title_is_NaN df -> setitem df name values = Ok df' -> title_is_NaN df'.
Proof.
  intros (c & rest & -> & F). unfold setitem.
  destruct (index_length _ =? 0)%nat.
  - intros [= <-]. cbn. eexists _, _. split; [reflexivity|].
    apply Forall_forall. intros x Hx. now apply repeat_spec in Hx.
  - destruct (_ =? _)%nat; [|discriminate]. intros [= <-].
    cbn. now eexists _, _.
Qed.

(** What the table is when the aggregation returns: empty when no
    title was scraped; otherwise the four columns have one length and
    the table is the groups of the flattened rows. *)
Lemma aggregate_Ok billboard_responses out :
  tracks_df billboard_responses = Ok out ->
  let T := flatten songs billboard_responses in
  let A := flatten artists billboard_responses in
  let W := flatten weeks billboard_responses in
  (T = [] /\ out = [])
  \/ (List.length A = List.length T /\ List.length W = List.length T
      /\ apply_join (groupby (map Str T) (map Str A) (map Str W)) = Ok out).
Proof.
  unfold tracks_df, tracks_df_flat. cbv zeta.
  generalize (flatten songs billboard_responses) as T.
  generalize (flatten artists billboard_responses) as A.
  generalize (flatten ranks billboard_responses) as R.
  generalize (flatten weeks billboard_responses) as W.
  intros W R A T H. destruct T as [|t0 T].
  - left. split; [reflexivity|].
    change (setitem empty "title" []) with (Ok [("title", @nil cell)]) in H.
    cbn [bind] in H.
    assert (N1 : title_is_NaN [("title", @nil cell)]) by (eexists _, _; eauto).
    destruct (setitem _ "artist" A) as [df2|] eqn:E2; [|discriminate].
    apply (setitem_title_is_NaN _ _ _ _ N1) in E2. cbn [bind] in H.
    destruct (setitem df2 "rank" R) as [df3|] eqn:E3; [|discriminate].
    apply (setitem_title_is_NaN _ _ _ _ E2) in E3. cbn [bind] in H.
    destruct (setitem df3 "week" W) as [df4|] eqn:E4; [|discriminate].
    apply (setitem_title_is_NaN _ _ _ _ E3) in E4. cbn [bind] in H.
    destruct E4 as (c & rest & -> & F).
    change (getitem (("title", c) :: rest) "title") with (Ok c) in H.
    cbn [bind] in H.
    destruct (getitem _ "artist") as [a|]; [|discriminate]. cbn [bind] in H.
    destruct (getitem _ "week") as [w|]; [|discriminate]. cbn [bind] in H.
    rewrite (groupby_NaN _ _ _ F) in H. now injection H as <-.
  - right. unfold setitem in H. cbn [empty index_length map app bind] in H.
    change ((0 =? 0)%nat) with true in H. cbv iota in H. cbn [bind] in H.
    cbn [index_length List.length map Nat.eqb] in H.
    destruct (List.length A =? _)%nat eqn:EA; [|discriminate].
    cbn [bind app index_length List.length map Nat.eqb] in H.
    destruct (List.length R =? _)%nat eqn:ER; [|discriminate].
    cbn [bind app index_length List.length map Nat.eqb] in H.
    destruct (List.length W =? _)%nat eqn:EW; [|discriminate].
    cbn in H. apply Nat.eqb_eq in EA, EW. rewrite length_map in EA, EW.
    cbn [List.length]. repeat split; assumption.
Qed.

Lemma Forall2_In_r {A B} (R : A -> B -> Prop) l l' y :
  Forall2 R l l' -> In y l' -> exists x, In x l /\ R x y.
Proof.
  induction 1 as [|x y' l l' HR _ IH]; cbn; [tauto|].
  intros [<-|H]; [now eauto|]. destruct (IH H) as (x' & ? & ?). now eauto.
Qed.

Lemma Forall2_In_l {A B} (R : A -> B -> Prop) l l' x :
  Forall2 R l l' -> In x l -> exists y, In y l' /\ R x y.
Proof.
  induction 1 as [|x' y l l' HR _ IH]; cbn; [tauto|].
  intros [<-|H]; [now eauto|]. destruct (IH H) as (y' & ? & ?). now eauto.
Qed.

Lemma row_of_key g l : Track.key (row_of g l) = fst g.
Proof. now destruct g as [[t a] ws]. Qed.

Lemma nonempty_Some {A} (l l' : list A) :
  nonempty l = Some l' -> l' = l /\ l <> [].
Proof. destruct l; [discriminate|]. intros [= <-]. now split. Qed.

(** The table, row by row: its keys are in strictly increasing
    order; a row holds the week identifiers recorded for its key, in the
    order of the scrape, joined by commas, and the number of fields of
    that text; every key with an entry has its row. *)
Lemma aggregate_spec billboard_responses out :
  tracks_df billboard_responses = Ok out ->
  let es := entries billboard_responses in
  StronglySorted key_lt (map Track.key out)
  /\ (forall row, In row out ->
        weeks_of (Track.key row) es <> []
        /\ Track.weeks row = Str.join "," (weeks_of (Track.key row) es)
        /\ Track.week_count row
           = Z.of_nat (List.length (Str.split_comma (Track.weeks row))))
  /\ (forall k, weeks_of k es <> [] -> exists row, In row out /\ Track.key row = k).
Proof.
  intros H. apply aggregate_Ok in H. cbv zeta in H. unfold entries.
  destruct H as [[ET ->] | (_ & _ & H)].
  - rewrite ET. cbn. repeat split; try constructor; try tauto.
  - set (T := flatten songs billboard_responses) in *.
    set (A := flatten artists billboard_responses) in *.
    set (W := flatten weeks billboard_responses) in *.
    destruct (groupby_grouped (map Str T) (map Str A) (map Str W)) as [S L].
    set (gs := groupby _ _ _) in *.
    apply apply_join_Ok in H.
    assert (K : map Track.key out = keys gs).
    { clear -H. induction H as [|g row gs out (l & _ & ->) _ IH]; cbn;
        [reflexivity|]. now rewrite row_of_key, IH. }
    assert (G : forall k ws, In (k, ws) gs ->
                ws = map Str (weeks_of k (combine (combine T A) W))
                /\ weeks_of k (combine (combine T A) W) <> []).
    { intros k ws Hin. apply (lookup_In _ _ _ S) in Hin.
      rewrite L, select_Str in Hin. apply nonempty_Some in Hin.
      destruct Hin as [-> N]. split; [reflexivity|].
      intros E. now rewrite E in N. }
    split; [now rewrite K|]. split.
    + intros row Hrow.
      destruct (Forall2_In_r _ _ _ _ H Hrow) as ([k ws] & Hin & l & E & ->).
      rewrite row_of_key. cbn [fst snd] in *.
      destruct (G _ _ Hin) as [-> N]. rewrite strings_Str in E.
      injection E as <-. now repeat split.
    + intros k N.
      assert (Hin : In (k, map Str (weeks_of k (combine (combine T A) W))) gs).
      { apply (lookup_In _ _ _ S). rewrite L, select_Str.
        destruct (weeks_of k _); [congruence|reflexivity]. }
      destruct (Forall2_In_l _ _ _ _ H Hin) as (row & Hrow & l & _ & ->).
      exists (row_of (k, map Str (weeks_of k (combine (combine T A) W))) l).
      split; [exact Hrow|apply row_of_key].
Qed.

(** The aggregation returns a table whenever the four flattened
    columns have one length. *)
Lemma aggregate_total billboard_responses :
  let T := flatten songs billboard_responses in
  List.length (flatten artists billboard_responses) = List.length T ->
  List.length (flatten ranks billboard_responses) = List.length T ->
  List.length (flatten weeks billboard_responses) = List.length T ->
  exists out, tracks_df billboard_responses = Ok out.
Proof.
  unfold tracks_df, tracks_df_flat. cbv zeta.
  generalize (flatten songs billboard_responses) as T.
  generalize (flatten artists billboard_responses) as A.
  generalize (flatten ranks billboard_responses) as R.
  generalize (flatten weeks billboard_responses) as W.
  intros W R A T HA HR HW.
  destruct T as [|t0 T].
  - destruct A, R, W; try discriminate. exists []. reflexivity.
  - unfold setitem. cbn [empty index_length map app bind].
    change ((0 =? 0)%nat) with true. cbv iota. cbn [bind].
    cbn [index_length List.length map Nat.eqb].
    rewrite length_map.
    replace (List.length A =? S (List.length T))%nat with true
      by (symmetry; apply Nat.eqb_eq; exact HA).
    cbn [bind app index_length List.length map Nat.eqb]. rewrite length_map.
    replace (List.length R =? S (List.length T))%nat with true
      by (symmetry; apply Nat.eqb_eq; exact HR).
    cbn [bind app index_length List.length map Nat.eqb]. rewrite length_map.
    replace (List.length W =? S (List.length T))%nat with true
      by (symmetry; apply Nat.eqb_eq; exact HW).
    cbn [bind app getitem String.eqb Ascii.eqb Bool.eqb].
    apply apply_join_total.
    destruct (groupby_grouped (Str t0 :: map Str T) (map Str A) (map Str W))
      as [S L].
    apply Forall_forall. intros [k ws] Hin.
    apply (lookup_In _ _ _ S) in Hin.
    change (Str t0 :: map Str T) with (map Str (t0 :: T)) in Hin, L.
    rewrite L, select_Str in Hin. apply nonempty_Some in Hin.
    destruct Hin as [-> _]. cbn [snd]. eexists. apply strings_Str.
Qed.

Lemma combine_app {A B} (l1 l2 : list A) (l1' l2' : list B) :
  List.length l1 = List.length l1' ->
  combine (l1 ++ l2) (l1' ++ l2') = (combine l1 l1' ++ combine l2 l2')%list.
Proof.
  revert l1'. induction l1 as [|x l1 IH]; intros [|y l1'] H; try discriminate;
    [reflexivity|].
  cbn. f_equal. apply IH. now injection H.
Qed.

(** The rows of well-formed weeks are the rows of the first week,
    then those of the other weeks. *)
Lemma entries_cons r rs :
  well_formed r -> entries (r :: rs) = (record_entries r ++ entries rs)%list.
Proof.
  intros (Ha & _ & Hw). unfold entries, record_entries, flatten. cbn [flat_map].
  rewrite !combine_app; [reflexivity| |]; try rewrite length_combine; lia.
Qed.

Lemma entries_nil : entries [] = [].
Proof. reflexivity. Qed.

Lemma weeks_of_app k es es' :
  weeks_of k (es ++ es') = (weeks_of k es ++ weeks_of k es')%list.
Proof. unfold weeks_of. now rewrite filter_app, map_app. Qed.

Lemma flatten_length_well_formed rs :
  Forall well_formed rs ->
  List.length (flatten artists rs) = List.length (flatten songs rs)
  /\ List.length (flatten ranks rs) = List.length (flatten songs rs)
  /\ List.length (flatten weeks rs) = List.length (flatten songs rs).
Proof.
  unfold flatten. induction 1 as [|r rs (Ha & Hr & Hw) _ (IHa & IHr & IHw)];
    cbn [flat_map]; [now repeat split|].
  rewrite !length_app. lia.
Qed.

(** Well-formed weeks always aggregate to a table. *)
Lemma tracks_df_well_formed rs :
  Forall well_formed rs -> exists out, tracks_df rs = Ok out.
Proof.
  intros F. destruct (flatten_length_well_formed rs F) as (Ha & Hr & Hw).
  now apply aggregate_total.
Qed.

Lemma sorted_NoDup (l : list key) : StronglySorted key_lt l -> NoDup l.
Proof.
  induction 1 as [|k l _ IH F]; constructor; [|exact IH].
  intros Hin. rewrite Forall_forall in F. exact (key_lt_irrefl _ (F _ Hin)).
Qed.

Lemma key_eqb_refl (k : key) : key_eqb k k = true.
Proof. now destruct (key_eqb_spec k k). Qed.

(** In a table without two rows of one key, the rows of the key of a
    row are that row and no other. *)
Lemma one_row_per_key (out : list Track.row) (row : Track.row) :
  NoDup (map Track.key out) -> In row out ->
  filter (fun r => key_eqb (Track.key r) (Track.key row)) out = [row].
Proof.
  induction out as [|r out IH]; cbn [map In filter]; [tauto|].
  intros N H. apply NoDup_cons_iff in N. destruct N as [Nr N].
  destruct H as [->|H].
  - rewrite key_eqb_refl. f_equal.
    clear -Nr. induction out as [|r out IH]; cbn [filter]; [reflexivity|].
    destruct (key_eqb_spec (Track.key r) (Track.key row)) as [E|_].
    + destruct Nr. left. exact E.
    + apply IH. intros H. apply Nr. now right.
  - destruct (key_eqb_spec (Track.key r) (Track.key row)) as [E|_].
    + destruct Nr. rewrite E. now apply in_map.
    + now apply IH.
Qed.

End AggregateFacts.


(** * The specification, statement by statement *)

Import Datetime Spec.

(** ** Date ranges *)

(** C1, as stated, does not hold: it asks for an error on every pair
    of dates whose start is not after the end.  With the start
    2019-04-28 and the end 2019-05-12, both well-formed and the start two
    weeks before the end, [scrape_billboard] computes -2 weeks, generates
    no date, fetches nothing and returns the empty list. *)
Lemma C1_inverted_range_returns :
  strptime "2019-04-28" = Ok (mkdate 2019 4 28)
  /\ strptime "2019-05-12" = Ok (mkdate 2019 5 12)
  /\ toordinal (mkdate 2019 4 28) <= toordinal (mkdate 2019 5 12)
  /\ n_weeks "2019-04-28" "2019-05-12" = Ok (-2)
  /\ generate_dates false "2019-04-28" (-2) = Ok []
  /\ scrape_billboard false offline in_turn "2019-04-28" "2019-05-12" base_url []
     = (Ok [], [])
  /\ ~ (forall pad_year web pool_time first_week last_week url a b,
          strptime first_week = Ok a -> strptime last_week = Ok b ->
          toordinal a <= toordinal b ->
          exists e log,
            scrape_billboard pad_year web pool_time first_week last_week url []
            = (Raise e, log)).
Proof.
  repeat (split; [vm_compute; (reflexivity || discriminate)|]).
  intros H.
  destruct (H false offline in_turn "2019-04-28" "2019-05-12" base_url
              (mkdate 2019 4 28) (mkdate 2019 5 12))
    as (e & log & E); try reflexivity; [vm_compute; discriminate|].
  vm_compute in E. discriminate.
Qed.

(** C1, amended: a date string that [strptime] refuses, as first or as
    last week, makes [scrape_billboard] fail with the [ValueError] that
    [strptime] raises, with the log of requests as it was: nothing is
    fetched.  [generate_dates] fails in the same way on a first week that
    is refused, whatever the number of weeks. *)
Theorem C1_malformed_dates_raise_before_fetching
    (pad_year : bool) (web : string -> option Soup.node)
    (pool_time : nat -> nat) (first_week last_week url : string)
    (log : list string) :
  malformed first_week \/ malformed last_week ->
  scrape_billboard pad_year web pool_time first_week last_week url log
  = (Raise ValueError, log)
  /\ (malformed first_week ->
      forall weeks, generate_dates pad_year first_week weeks = Raise ValueError).
Proof.
  assert (R : forall s, malformed s -> exists e, strptime s = Raise e).
  { intros s M. destruct (strptime s) as [t|e] eqn:E; [|now exists e].
    now destruct (M t). }
  intros H. split.
  - apply ScrapeFacts.scrape_billboard_malformed.
    destruct H as [M|M]; [left|right]; now apply R.
  - intros M weeks. destruct (R _ M) as [e E].
    now apply (GenerateDatesFacts.generate_dates_malformed _ _ _ e).
Qed.

Lemma C1_malformed_dates_witness :
  (malformed "2019-13-01" \/ malformed "2019-05-12")
  /\ scrape_billboard false offline in_turn "2019-13-01" "2019-05-12" base_url []
     = (Raise ValueError, [])
  /\ generate_dates false "2019-13-01" 104 = Raise ValueError.
Proof.
  assert (M : malformed "2019-13-01") by (intros t; vm_compute; discriminate).
  split; [now left|].
  destruct (C1_malformed_dates_raise_before_fetching false offline in_turn
              "2019-13-01" "2019-05-12" base_url [] (or_introl M)) as [S G].
  split; [exact S|exact (G M 104)].
Defined.

(** C10: a number of weeks that is zero or negative makes
    [generate_dates] return the empty list; when it is the number
    [scrape_billboard] computes from its two dates, as it is whenever the
    first week is before the last week, [scrape_billboard] requests no
    URL and returns the empty list, without an error. *)
Theorem C10_nonpositive_weeks_scrape_nothing
    (pad_year : bool) (web : string -> option Soup.node)
    (pool_time : nat -> nat) (first_week last_week url : string)
    (log : list string)
    (a : datetime) (weeks : Z) :
  strptime first_week = Ok a -> weeks <= 0 ->
  generate_dates pad_year first_week weeks = Ok []
  /\ (n_weeks first_week last_week = Ok weeks ->
      scrape_billboard pad_year web pool_time first_week last_week url log = (Ok [], log))
  /\ (forall b,
        strptime last_week = Ok b -> toordinal a < toordinal b ->
        exists n, n_weeks first_week last_week = Ok n /\ n <= 0
                  /\ scrape_billboard pad_year web pool_time first_week last_week url log
                     = (Ok [], log)).
Proof.
  intros Ea Hw. split; [|split].
  - now apply (GenerateDatesFacts.generate_dates_nonpositive _ _ _ a).
  - intros En. rewrite ScrapeFacts.scrape_billboard_run, En.
    rewrite (GenerateDatesFacts.generate_dates_nonpositive _ _ _ a Ea Hw).
    apply ScrapeFacts.imap_nil.
  - intros b Eb Hab. exists ((sub_days a b + 3) / 7).
    split; [now apply ScrapeFacts.n_weeks_Ok|].
    unfold sub_days. split; [Z.div_mod_to_equations; lia|].
    apply (ScrapeFacts.scrape_billboard_nonpositive _ _ _ _ _ _ _ a b Ea Eb).
    unfold sub_days. lia.
Qed.

Lemma C10_nonpositive_weeks_witness :
  strptime "2019-04-28" = Ok (mkdate 2019 4 28)
  /\ -2 <= 0
  /\ generate_dates false "2019-04-28" (-2) = Ok []
  /\ scrape_billboard false offline in_turn "2019-04-28" "2019-05-12" base_url []
     = (Ok [], []).
Proof.
  split; [reflexivity|]. split; [lia|].
  destruct (C10_nonpositive_weeks_scrape_nothing false offline in_turn
              "2019-04-28" "2019-05-12" base_url []
              (mkdate 2019 4 28) (-2) eq_refl ltac:(lia)) as (G & S & _).
  split; [exact G|]. apply S. vm_compute. reflexivity.
Defined.

(** C2, as stated, does not hold: it asks for the ceiling of the
    number of days over 7.  From 2019-05-11 to 2019-05-12 there is one
    day, whose ceiling over 7 is 1; [scrape_billboard] computes
    [round(1 / 7)], which is 0, and [generate_dates] then returns the
    empty list. *)
Lemma C2_one_day_rounds_to_zero_weeks :
  strptime "2019-05-12" = Ok (mkdate 2019 5 12)
  /\ strptime "2019-05-11" = Ok (mkdate 2019 5 11)
  /\ toordinal (mkdate 2019 5 11) < toordinal (mkdate 2019 5 12)
  /\ ceil_div (sub_days (mkdate 2019 5 12) (mkdate 2019 5 11)) 7 = 1
  /\ n_weeks "2019-05-12" "2019-05-11" = Ok 0
  /\ generate_dates false "2019-05-12" 0 = Ok []
  /\ ~ (forall first_week last_week a b,
          strptime first_week = Ok a -> strptime last_week = Ok b ->
          toordinal b < toordinal a ->
          n_weeks first_week last_week = Ok (ceil_div (sub_days a b) 7)).
Proof.
  repeat (split; [vm_compute; reflexivity|]).
  intros H.
  specialize (H "2019-05-12" "2019-05-11" (mkdate 2019 5 12) (mkdate 2019 5 11)
                eq_refl eq_refl eq_refl).
  vm_compute in H. discriminate.
Qed.

(** C2, amended: for a start date after the end date, the number of
    weeks [scrape_billboard] computes is the number of days over 7 rounded
    to the nearest integer, the floor of [(days + 3) / 7]; it is the
    ceiling exactly when the remainder of the days by 7 is 0, 4, 5 or 6.
    [generate_dates], called with that number, returns a list of exactly
    that many entries, unless the walk, which steps back once more after
    the last entry, leaves the calendar before 0001-01-01; this cannot
    happen with an end date from 0001-01-04 on. *)
Theorem C2_weeks_are_days_over_seven_rounded
    (pad_year : bool) (first_week last_week : string) (a b : datetime) :
  strptime first_week = Ok a -> strptime last_week = Ok b ->
  toordinal b < toordinal a ->
  let days := sub_days a b in
  let n := (days + 3) / 7 in
  n_weeks first_week last_week = Ok n
  /\ (n = ceil_div days 7 <-> days mod 7 = 0 \/ 4 <= days mod 7)
  /\ (exists l,
        (if 7 * n <? toordinal a then Ok l else Raise OverflowError)
        = generate_dates pad_year first_week n
        /\ Z.of_nat (List.length l) = n)
  /\ (3 < toordinal b -> 7 * n < toordinal a).
Proof.
  intros Ea Eb Hab days n.
  assert (Hn : 0 <= n) by (unfold n, days, sub_days; Z.div_mod_to_equations; lia).
  split; [now apply ScrapeFacts.n_weeks_Ok|]. split; [|split].
  - unfold n, ceil_div. Z.div_mod_to_equations. lia.
  - exists (map (fun i => strftime pad_year (weeks_before a i)) (seq 0 (Z.to_nat n))).
    split; [|rewrite length_map, length_seq; lia].
    destruct (Z.ltb_spec (7 * n) (toordinal a)).
    + symmetry. exact (GenerateDatesFacts.generate_dates_Ok _ _ _ a Ea H).
    + symmetry. apply (GenerateDatesFacts.generate_dates_overflow _ _ _ a Ea); [|lia].
      pose proof (DatetimeFacts.toordinal_range a
                    (proj1 (StrptimeFacts.strptime_Ok _ _ Ea))).
      lia.
  - intros H3. unfold n, days, sub_days. Z.div_mod_to_equations. lia.
Qed.

Lemma C2_weeks_witness :
  strptime "2019-05-12" = Ok (mkdate 2019 5 12)
  /\ strptime "2019-04-28" = Ok (mkdate 2019 4 28)
  /\ toordinal (mkdate 2019 4 28) < toordinal (mkdate 2019 5 12)
  /\ n_weeks "2019-05-12" "2019-04-28" = Ok 2
  /\ generate_dates false "2019-05-12" 2 = Ok ["2019-05-12"; "2019-05-05"].
Proof.
  split; [reflexivity|]. split; [reflexivity|]. split; [reflexivity|].
  destruct (C2_weeks_are_days_over_seven_rounded false
              "2019-05-12" "2019-04-28" (mkdate 2019 5 12) (mkdate 2019 4 28)
              eq_refl eq_refl eq_refl) as (N & _).
  split; [exact N|reflexivity].
Defined.

(** C3: for a start date that [strptime] accepts and a positive
    number of weeks, the list [generate_dates] returns is the text of as
    many dates as there are weeks: the first is the start date and each
    next one is 7 days before its predecessor.  Each text is read back by
    [strptime] as its date (from the year 1000 on, and for every year
    where the C library pads the year).  The list is returned whenever
    the date 7 days before its last entry is still in the calendar. *)
Theorem C3_dates_walk_back_by_seven_days
    (pad_year : bool) (first_week : string) (weeks : Z) (t : datetime) :
  strptime first_week = Ok t -> 0 < weeks ->
  (7 * weeks < toordinal t ->
   exists l, generate_dates pad_year first_week weeks = Ok l)
  /\ forall l, generate_dates pad_year first_week weeks = Ok l ->
     exists ds,
       l = map (strftime pad_year) ds
       /\ List.length ds = Z.to_nat weeks
       /\ hd_error ds = Some t
       /\ (forall i d d',
             nth_error ds i = Some d -> nth_error ds (S i) = Some d' ->
             sub_days d d' = 7)
       /\ (forall d, In d ds ->
             valid d = true
             /\ (pad_year = true \/ 1000 <= year d ->
                 strptime (strftime pad_year d) = Ok d)).
Proof.
  intros Et Hw.
  pose proof (proj1 (StrptimeFacts.strptime_Ok _ _ Et)) as V.
  pose proof (DatetimeFacts.toordinal_range t V) as R.
  split.
  - intros H. eexists. exact (GenerateDatesFacts.generate_dates_Ok _ _ _ t Et H).
  - intros l E.
    destruct (Z.ltb_spec (7 * weeks) (toordinal t)) as [H|H];
      [|rewrite (GenerateDatesFacts.generate_dates_overflow _ _ _ t Et Hw H) in E;
        discriminate].
    rewrite (GenerateDatesFacts.generate_dates_Ok _ _ _ t Et H) in E.
    injection E as <-.
    exists (map (weeks_before t) (seq 0 (Z.to_nat weeks))).
    assert (N : forall i d, nth_error (map (weeks_before t) (seq 0 (Z.to_nat weeks))) i
                            = Some d ->
                (i < Z.to_nat weeks)%nat /\ d = weeks_before t i).
    { intros i d Hi.
      assert (Hlt : (i < Z.to_nat weeks)%nat).
      { assert (Hne : nth_error (map (weeks_before t) (seq 0 (Z.to_nat weeks))) i
                      <> None) by congruence.
        apply nth_error_Some in Hne.
        now rewrite length_map, length_seq in Hne. }
      split; [exact Hlt|].
      rewrite nth_error_map, nth_error_seq in Hi.
      destruct (Nat.ltb_spec i (Z.to_nat weeks)); [|lia].
      cbn in Hi. congruence. }
    split; [now rewrite map_map|]. split; [now rewrite length_map, length_seq|].
    split; [|split].
    + destruct (Z.to_nat weeks) as [|n] eqn:En; [lia|]. cbn.
      now rewrite GenerateDatesFacts.weeks_before_0.
    + intros i d d' Hd Hd'. apply N in Hd, Hd'.
      destruct Hd as [_ ->], Hd' as [Hi ->]. unfold sub_days.
      rewrite !GenerateDatesFacts.weeks_before_toordinal by lia. lia.
    + intros d Hd. apply In_nth_error in Hd. destruct Hd as [i Hi].
      apply N in Hi. destruct Hi as [Hi ->].
      assert (Vd : valid (weeks_before t i) = true)
        by (apply GenerateDatesFacts.weeks_before_valid; [exact V|lia]).
      split; [exact Vd|]. intros P. now apply StrptimeFacts.strptime_strftime.
Qed.

Lemma C3_dates_walk_back_witness :
  strptime "2019-05-12" = Ok (mkdate 2019 5 12)
  /\ 0 < 3
  /\ generate_dates false "2019-05-12" 3
     = Ok ["2019-05-12"; "2019-05-05"; "2019-04-28"]
  /\ exists ds,
       ["2019-05-12"; "2019-05-05"; "2019-04-28"] = map (strftime false) ds
       /\ hd_error ds = Some (mkdate 2019 5 12)
       /\ (forall i d d',
             nth_error ds i = Some d -> nth_error ds (S i) = Some d' ->
             sub_days d d' = 7).
Proof.
  assert (G : generate_dates false "2019-05-12" 3
              = Ok ["2019-05-12"; "2019-05-05"; "2019-04-28"])
    by (vm_compute; reflexivity).
  split; [reflexivity|]. split; [lia|]. split; [exact G|].
  destruct (C3_dates_walk_back_by_seven_days false "2019-05-12" 3
              (mkdate 2019 5 12) eq_refl ltac:(lia)) as [_ H].
  destruct (H _ G) as (ds & E & _ & Hd & Hs & _).
  exists ds. split; [exact E|]. split; [exact Hd|exact Hs].
Defined.

(** ** One chart week *)

(** C4, as stated, does not hold: the three selectors are matched one
    by one, and only the week identifiers are counted after the titles.
    On a page with one title element and no artist or rank element,
    [scrape_week] returns one title, one week identifier, no artist and no
    rank. *)
Lemma C4_title_without_artist :
  scrape_week (fun _ => Some page_title_only) week_url []
  = (Ok (mkWeek ["Song X"] [] [] ["2019-05-12"]), [week_url])
  /\ ~ (forall web url log r log',
          scrape_week web url log = (Ok r, log') ->
          List.length (songs r) = List.length (artists r)
          /\ List.length (artists r) = List.length (ranks r)
          /\ List.length (ranks r) = List.length (weeks r)).
Proof.
  assert (E : scrape_week (fun _ => Some page_title_only) week_url []
              = (Ok (mkWeek ["Song X"] [] [] ["2019-05-12"]), [week_url]))
    by (vm_compute; reflexivity).
  split; [exact E|]. intros H. apply H in E. cbn in E. lia.
Qed.

(** C4, amended: in every record [scrape_week] returns, the week
    identifiers are as many as the titles; the titles, the artists and
    the ranks are as many as the elements of the page that carry their
    class, so that the four sequences have one length exactly when the
    page has as many artist elements and as many rank elements as it has
    title elements. *)
Theorem C4_column_lengths
    (web : string -> option Soup.node) (url : string) (log log' : list string)
    (r : WeekRecord) :
  scrape_week web url log = (Ok r, log') ->
  exists soup,
    web url = Some soup
    /\ List.length (weeks r) = List.length (songs r)
    /\ List.length (songs r) = List.length (Soup.find_all title_class soup)
    /\ List.length (artists r) = List.length (Soup.find_all artist_class soup)
    /\ List.length (ranks r) = List.length (Soup.find_all rank_class soup)
    /\ (well_formed r <->
        List.length (Soup.find_all artist_class soup)
        = List.length (Soup.find_all title_class soup)
        /\ List.length (Soup.find_all rank_class soup)
           = List.length (Soup.find_all title_class soup)).
Proof.
  rewrite ScrapeFacts.scrape_week_run.
  destruct (web url) as [soup|]; [|discriminate].
  intros [= <- _]. exists soup. unfold well_formed. cbn [songs artists ranks weeks].
  rewrite repeat_length, !length_map.
  do 5 (split; [reflexivity|]).
  split.
  - intros (A & R & _). exact (conj A R).
  - intros [A R]. exact (conj A (conj R eq_refl)).
Qed.

Lemma C4_column_lengths_witness :
  scrape_week (fun _ => Some page_title_only) week_url []
  = (Ok (mkWeek ["Song X"] [] [] ["2019-05-12"]), [week_url])
  /\ exists soup,
       List.length ["2019-05-12"] = List.length ["Song X"]
       /\ List.length ["Song X"] = List.length (Soup.find_all title_class soup)
       /\ List.length (@nil string) = List.length (Soup.find_all artist_class soup).
Proof.
  assert (E : scrape_week (fun _ => Some page_title_only) week_url []
              = (Ok (mkWeek ["Song X"] [] [] ["2019-05-12"]), [week_url]))
    by (vm_compute; reflexivity).
  split; [exact E|].
  destruct (C4_column_lengths _ _ _ _ _ E) as (soup & _ & W & T & A & _).
  exists soup. split; [exact W|]. split; [exact T|exact A].
Defined.

(** C5, as stated, does not hold: a rank is the text of its element,
    trimmed, and is never converted or checked.  On a page whose rank
    element holds a dash, the rank [scrape_week] returns is the text "-",
    which is not the numeral of a positive integer. *)
Lemma C5_rank_is_raw_text :
  scrape_week (fun _ => Some page_rank_dash) week_url []
  = (Ok (mkWeek [] [] ["-"] []), [week_url])
  /\ Str.is_positive_int "-" = false
  /\ ~ (forall web url log r log',
          scrape_week web url log = (Ok r, log') ->
          Forall (fun rank => Str.is_positive_int rank = true) (ranks r)).
Proof.
  assert (E : scrape_week (fun _ => Some page_rank_dash) week_url []
              = (Ok (mkWeek [] [] ["-"] []), [week_url]))
    by (vm_compute; reflexivity).
  split; [exact E|]. split; [reflexivity|].
  intros H. apply H in E. cbn in E. inversion E as [|? ? P _]. discriminate.
Qed.

(** C5, amended: in every record [scrape_week] returns, the ranks are,
    in the order of the page, the trimmed texts of the elements of class
    [chart-list-item__rank]: strings without white space at either end.
    Where the text of the element is the numeral of a positive integer
    with white space around it, the rank is that numeral. *)
Theorem C5_ranks_are_trimmed_text
    (web : string -> option Soup.node) (url : string) (log log' : list string)
    (r : WeekRecord) :
  scrape_week web url log = (Ok r, log') ->
  exists soup,
    web url = Some soup
    /\ ranks r = map trimmed_text (Soup.find_all rank_class soup)
    /\ Forall (fun rank => Str.strip rank = rank) (ranks r)
    /\ Forall2 (fun e rank =>
                  forall ws1 numeral ws2,
                    all_space ws1 = true -> all_space ws2 = true ->
                    Str.is_positive_int numeral = true ->
                    Soup.text e = ws1 ++ numeral ++ ws2 ->
                    rank = numeral)
         (Soup.find_all rank_class soup) (ranks r).
Proof.
  rewrite ScrapeFacts.scrape_week_run.
  destruct (web url) as [soup|]; [|discriminate].
  intros [= <- _]. exists soup. cbn [ranks].
  split; [reflexivity|]. split; [reflexivity|]. split.
  - apply Forall_forall. intros rank Hin. apply in_map_iff in Hin.
    destruct Hin as (e & <- & _). apply StripFacts.strip_idem.
  - induction (Soup.find_all rank_class soup) as [|e es IH]; cbn;
      constructor; [|exact IH].
    intros ws1 numeral ws2 H1 H2 Hn E. unfold trimmed_text. rewrite E.
    apply StripFacts.strip_padded; try assumption.
    now apply StripFacts.is_positive_int_no_space.
Qed.

Lemma C5_ranks_witness :
  scrape_week (fun _ => Some page_rank_dash) week_url []
  = (Ok (mkWeek [] [] ["-"] []), [week_url])
  /\ Forall (fun rank => Str.strip rank = rank) ["-"].
Proof.
  assert (E : scrape_week (fun _ => Some page_rank_dash) week_url []
              = (Ok (mkWeek [] [] ["-"] []), [week_url]))
    by (vm_compute; reflexivity).
  split; [exact E|].
  destruct (C5_ranks_are_trimmed_text _ _ _ _ _ E) as (soup & _ & _ & F & _).
  exact F.
Defined.

(** C6: when the page was fetched and none of the three selectors
    matches an element of it, [scrape_week] returns the record of four
    empty sequences, and no error. *)
Theorem C6_no_chart_items_empty_record
    (web : string -> option Soup.node) (url : string) (log : list string)
    (soup : Soup.node) :
  web url = Some soup ->
  Soup.find_all title_class soup = [] ->
  Soup.find_all artist_class soup = [] ->
  Soup.find_all rank_class soup = [] ->
  scrape_week web url log = (Ok (mkWeek [] [] [] []), (log ++ [url])%list).
Proof.
  intros Ew Et Ea Er. rewrite ScrapeFacts.scrape_week_run, Ew, Et, Ea, Er.
  reflexivity.
Qed.

Lemma C6_no_chart_items_witness :
  Soup.find_all title_class page_no_chart = []
  /\ Soup.find_all artist_class page_no_chart = []
  /\ Soup.find_all rank_class page_no_chart = []
  /\ scrape_week (fun _ => Some page_no_chart) week_url []
     = (Ok (mkWeek [] [] [] []), [week_url]).
Proof.
  split; [reflexivity|]. split; [reflexivity|]. split; [reflexivity|].
  exact (C6_no_chart_items_empty_record (fun _ => Some page_no_chart) week_url []
           page_no_chart eq_refl eq_refl eq_refl eq_refl).
Defined.

(** ** Tracks *)

(** A date string holds no comma, so it is one field of the joined text. *)
Lemma date_string_comma_free (w : string) :
  is_date_string w -> Str.comma_free w = true.
Proof. intros [t E]. exact (proj2 (StrptimeFacts.strptime_Ok _ _ E)). Qed.

(** The text of a row is that of as many fields as weeks were recorded
    for its key, when no week identifier holds a comma. *)
Lemma week_count_comma_free (billboard_responses : list WeekRecord)
    (out : list Track.row) (row : Track.row) :
  Forall (fun r => Forall (fun w => Str.comma_free w = true) (weeks r))
    billboard_responses ->
  tracks_df billboard_responses = Ok out -> In row out ->
  Str.split_comma (Track.weeks row)
  = weeks_of (Track.key row) (entries billboard_responses).
Proof.
  intros F E Hrow.
  destruct (AggregateFacts.aggregate_spec _ _ E) as (_ & C & _).
  destruct (C row Hrow) as (N & -> & _).
  apply AggregateFacts.split_comma_join; [exact N|].
  apply Forall_forall. intros w Hw. unfold weeks_of in Hw.
  apply in_map_iff in Hw. destruct Hw as ([[t a] w'] & <- & Hin).
  apply filter_In in Hin. destruct Hin as [Hin _].
  unfold entries in Hin. apply in_combine_r in Hin. unfold flatten in Hin.
  apply in_flat_map in Hin. destruct Hin as (r & Hr & Hw).
  rewrite Forall_forall in F. specialize (F r Hr).
  rewrite Forall_forall in F. now apply F.
Qed.

(** C7: two scraped weeks that each hold one entry of the same title
    and artist, under two date strings, aggregate to a table with exactly
    one row of that title and artist: no two rows of the table have one
    key, and the rows of that title and artist are one row and no more.
    Its weeks are the two dates joined by a comma, first scraped first,
    and its count is 2.  Week A
    [("Song X", "Artist Y", 1, "2020-01-01")] and week B
    [("Song X", "Artist Y", 3, "2020-01-08")] aggregate to the one row
    Song X, Artist Y, "2020-01-01,2020-01-08", 2. *)
Theorem C7_two_weeks_one_row
    (week_A week_B : WeekRecord) (title artist week1 week2 : string) :
  well_formed week_A -> well_formed week_B ->
  weeks_of (title, artist) (record_entries week_A) = [week1] ->
  weeks_of (title, artist) (record_entries week_B) = [week2] ->
  is_date_string week1 -> is_date_string week2 -> week1 <> week2 ->
  exists out,
    tracks_df [week_A; week_B] = Ok out
    /\ In (Track.mk title artist (week1 ++ "," ++ week2) 2) out
    /\ (forall row, In row out -> Track.key row = (title, artist) ->
          row = Track.mk title artist (week1 ++ "," ++ week2) 2)
    /\ NoDup (map Track.key out)
    /\ filter (fun row => key_eqb (Track.key row) (title, artist)) out
       = [Track.mk title artist (week1 ++ "," ++ week2) 2].
Proof.
  intros WA WB EA EB D1 D2 _.
  apply date_string_comma_free in D1, D2.
  destruct (AggregateFacts.tracks_df_well_formed [week_A; week_B]) as [out E];
    [constructor; [exact WA|constructor; [exact WB|constructor]]|].
  exists out. split; [exact E|].
  destruct (AggregateFacts.aggregate_spec _ _ E) as (S & C & K).
  apply AggregateFacts.sorted_NoDup in S.
  assert (W : weeks_of (title, artist) (entries [week_A; week_B]) = [week1; week2]).
  { rewrite !AggregateFacts.entries_cons, AggregateFacts.entries_nil by assumption.
    now rewrite !AggregateFacts.weeks_of_app, EA, EB. }
  assert (R : forall row, In row out -> Track.key row = (title, artist) ->
              row = Track.mk title artist (week1 ++ "," ++ week2) 2).
  { intros row Hrow Hk. destruct (C row Hrow) as (_ & Hw & Hc).
    rewrite Hk, W in Hw.
    change (Str.join "," [week1; week2]) with (week1 ++ String "," week2) in Hw.
    rewrite Hw in Hc.
    rewrite AggregateFacts.split_comma_app in Hc by exact D1.
    rewrite AggregateFacts.split_comma_free in Hc by exact D2.
    destruct row as [t a w c]. unfold Track.key in Hk. cbn in *.
    injection Hk as -> ->. now subst. }
  destruct (K (title, artist)) as (row & Hrow & Hk); [rewrite W; discriminate|].
  pose proof (R row Hrow Hk) as Er. rewrite Er in Hrow.
  split; [exact Hrow|]. split; [exact R|]. split; [exact S|].
  exact (AggregateFacts.one_row_per_key out _ S Hrow).
Qed.

Lemma C7_two_weeks_one_row_witness :
  tracks_df [mkWeek ["Song X"] ["Artist Y"] ["1"] ["2020-01-01"];
             mkWeek ["Song X"] ["Artist Y"] ["3"] ["2020-01-08"]]
  = Ok [Track.mk "Song X" "Artist Y" "2020-01-01,2020-01-08" 2]
  /\ exists out,
       tracks_df [mkWeek ["Song X"] ["Artist Y"] ["1"] ["2020-01-01"];
                  mkWeek ["Song X"] ["Artist Y"] ["3"] ["2020-01-08"]]
       = Ok out
       /\ In (Track.mk "Song X" "Artist Y" "2020-01-01,2020-01-08" 2) out
       /\ (forall row, In row out -> Track.key row = ("Song X", "Artist Y") ->
             row = Track.mk "Song X" "Artist Y" "2020-01-01,2020-01-08" 2)
       /\ NoDup (map Track.key out)
       /\ filter (fun row => key_eqb (Track.key row) ("Song X", "Artist Y")) out
          = [Track.mk "Song X" "Artist Y" "2020-01-01,2020-01-08" 2].
Proof.
  split; [vm_compute; reflexivity|].
  apply (C7_two_weeks_one_row
           (mkWeek ["Song X"] ["Artist Y"] ["1"] ["2020-01-01"])
           (mkWeek ["Song X"] ["Artist Y"] ["3"] ["2020-01-08"])
           "Song X" "Artist Y" "2020-01-01" "2020-01-08").
  - repeat split.
  - repeat split.
  - reflexivity.
  - reflexivity.
  - exists (mkdate 2020 1 1). vm_compute. reflexivity.
  - exists (mkdate 2020 1 8). vm_compute. reflexivity.
  - discriminate.
Defined.

(** C8: in the table the aggregation returns for scraped weeks whose
    week identifiers are date strings, the count of every row is the
    number of week identifiers recorded for the title and artist of the
    row, and is at least 1: no row stands for a track that never
    appeared. *)
Theorem C8_week_count_is_number_of_weeks
    (billboard_responses : list WeekRecord) (out : list Track.row)
    (row : Track.row) :
  Forall (fun r => Forall is_date_string (weeks r)) billboard_responses ->
  tracks_df billboard_responses = Ok out ->
  In row out ->
  Track.week_count row
  = Z.of_nat (List.length (weeks_of (Track.key row) (entries billboard_responses)))
  /\ 1 <= Track.week_count row.
Proof.
  intros F E Hrow.
  assert (F' : Forall (fun r => Forall (fun w => Str.comma_free w = true) (weeks r))
                 billboard_responses).
  { eapply Forall_impl; [|exact F]. intros r Fr.
    eapply Forall_impl; [|exact Fr]. intros w. apply date_string_comma_free. }
  destruct (AggregateFacts.aggregate_spec _ _ E) as (_ & C & _).
  destruct (C row Hrow) as (N & _ & ->).
  rewrite (week_count_comma_free _ _ _ F' E Hrow).
  split; [reflexivity|].
  destruct (weeks_of _ _); [congruence|cbn; lia].
Qed.

Lemma three_weeks_dates :
  Forall (fun r => Forall is_date_string (weeks r)) three_weeks.
Proof.
  repeat constructor;
    first [ exists (mkdate 2019 5 12); vm_compute; reflexivity
          | exists (mkdate 2019 5 5); vm_compute; reflexivity
          | exists (mkdate 2019 4 28); vm_compute; reflexivity ].
Qed.

Lemma three_weeks_aggregate : tracks_df three_weeks = Ok three_weeks_table.
Proof. vm_compute. reflexivity. Qed.

Lemma C8_week_count_witness :
  Forall (fun r => Forall is_date_string (weeks r)) three_weeks
  /\ tracks_df three_weeks = Ok three_weeks_table
  /\ In (Track.mk "Beautiful Crazy" "Luke Combs"
           "2019-05-12,2019-05-05,2019-04-28" 3) three_weeks_table
  /\ 3 = Z.of_nat (List.length
                     (weeks_of ("Beautiful Crazy", "Luke Combs") (entries three_weeks)))
  /\ 1 <= 3.
Proof.
  assert (I : In (Track.mk "Beautiful Crazy" "Luke Combs"
                    "2019-05-12,2019-05-05,2019-04-28" 3) three_weeks_table)
    by (left; reflexivity).
  split; [exact three_weeks_dates|]. split; [exact three_weeks_aggregate|].
  split; [exact I|].
  exact (C8_week_count_is_number_of_weeks three_weeks three_weeks_table _
           three_weeks_dates three_weeks_aggregate I).
Defined.

(** The same for what the scraper delivers: the week identifiers it
    records are dates (see [ScrapeFacts.scrape_billboard_week_identifiers]),
    so that every count in the table made of a scrape is the number of
    weeks its track appeared in. *)
Corollary scraped_table_week_counts
    (pad_year : bool) (web : string -> option Soup.node)
    (pool_time : nat -> nat) (first_week last_week url : string)
    (log log' : list string)
    (b : datetime) (rs : list WeekRecord) (out : list Track.row) (row : Track.row) :
  scrape_billboard pad_year web pool_time first_week last_week url log = (Ok rs, log') ->
  strptime last_week = Ok b -> pad_year = true \/ 1000 <= year b ->
  tracks_df rs = Ok out -> In row out ->
  Str.split_comma (Track.weeks row) = weeks_of (Track.key row) (entries rs)
  /\ Track.week_count row
     = Z.of_nat (List.length (weeks_of (Track.key row) (entries rs))).
Proof.
  intros S Eb P E Hrow.
  pose proof (ScrapeFacts.scrape_billboard_week_identifiers
                _ _ _ _ _ _ _ _ _ _ S Eb P) as F.
  assert (F' : Forall (fun r => Forall (fun w => Str.comma_free w = true) (weeks r)) rs).
  { eapply Forall_impl; [|exact F]. intros r Fr.
    eapply Forall_impl; [|exact Fr]. intros w. apply date_string_comma_free. }
  pose proof (week_count_comma_free _ _ _ F' E Hrow) as W.
  split; [exact W|].
  destruct (AggregateFacts.aggregate_spec _ _ E) as (_ & C & _).
  destruct (C row Hrow) as (_ & _ & ->). now rewrite W.
Qed.

(** C9: two runs of the aggregation on the same scraped weeks come to
    the same end, the same table or the same error.  The rows of the
    table are in the strictly increasing order of their (title, artist)
    keys, so that no key has two rows, and the weeks of a row are those
    recorded for its key in the order of the scrape: the table is
    determined by its input, row by row and in its order. *)
Theorem C9_aggregation_is_reproducible
    (billboard_responses : list WeekRecord)
    (run1 run2 : result (list Track.row)) :
  run1 = tracks_df billboard_responses ->
  run2 = tracks_df billboard_responses ->
  run1 = run2
  /\ forall out, run1 = Ok out ->
       StronglySorted key_lt (map Track.key out)
       /\ NoDup (map Track.key out)
       /\ (forall row, In row out ->
             Track.weeks row
             = Str.join "," (weeks_of (Track.key row) (entries billboard_responses)))
       /\ (forall k, weeks_of k (entries billboard_responses) <> [] ->
             exists row, In row out /\ Track.key row = k).
Proof.
  intros -> ->. split; [reflexivity|]. intros out E.
  destruct (AggregateFacts.aggregate_spec _ _ E) as (S & C & K).
  split; [exact S|]. split; [|split].
  - clear -S. induction S as [|k ks S IH F]; constructor; [|exact IH].
    intros Hin. rewrite Forall_forall in F.
    now apply (GroupFacts.key_lt_irrefl k), F.
  - intros row Hrow. now destruct (C row Hrow) as (_ & W & _).
  - exact K.
Qed.

Lemma C9_aggregation_witness :
  Ok three_weeks_table = tracks_df three_weeks
  /\ StronglySorted key_lt (map Track.key three_weeks_table)
  /\ NoDup (map Track.key three_weeks_table).
Proof.
  assert (E : Ok three_weeks_table = tracks_df three_weeks)
    by (symmetry; exact three_weeks_aggregate).
  split; [exact E|].
  destruct (C9_aggregation_is_reproducible three_weeks _ _ E E) as [_ H].
  destruct (H _ eq_refl) as (S & N & _).
  split; [exact S|exact N].
Defined.


(** * Further properties of the notebook *)

(** ** The scrape, step by step *)

Module PipelineFacts.
Import DatetimeFacts GenerateDatesFacts ScrapeFacts.

Lemma scrape_week_record web url log :
  scrape_week web url log =
    match web url with
    | Some soup => (Ok (week_record soup url), (log ++ [url])%list)
    | None => (Raise RequestException, (log ++ [url])%list)
    end.
Proof. apply scrape_week_run. Qed.

(** The order of the workers rearranges the tasks and no more: each
    task is run once. *)
Lemma insert_task_Permutation {A} time (x : nat * A) l :
  Permutation (insert_task time x l) (x :: l).
Proof.
  induction l as [|y l IH]; cbn; [reflexivity|].
  destruct (_ <=? _)%nat; [reflexivity|].
  rewrite IH. apply perm_swap.
Qed.

Lemma in_order_of_Permutation {A} time (l : list A) :
  Permutation (in_order_of time l) l.
Proof.
  unfold in_order_of.
  assert (P : forall ps : list (nat * A),
              Permutation (fold_right (insert_task time) [] ps) ps).
  { induction ps as [|x ps IH]; cbn [fold_right]; [reflexivity|].
    rewrite insert_task_Permutation. now constructor. }
  rewrite (Permutation_map snd (P _)).
  clear P. generalize 0%nat. induction l as [|x l IH]; intros start; cbn;
    [reflexivity|]. constructor. apply IH.
Qed.

(** The requests of a pool of [scrape_week] tasks are the URLs of the
    tasks, each once, in the order of the workers. *)
Lemma imap_requests web time urls log :
  snd (imap time (scrape_week web) urls log)
  = (log ++ in_order_of time urls)%list.
Proof.
  unfold imap. cbn [snd]. f_equal.
  induction (in_order_of time urls) as [|u us IH]; cbn [flat_map];
    [reflexivity|].
  rewrite IH, scrape_week_record. now destruct (web u).
Qed.

(** A map over the pool returns when every fetch succeeds: one record
    per URL, in the order of the URLs. *)
Lemma imap_results_Ok web urls : forall rs,
  imap_results (scrape_week web) urls = Ok rs ->
  Forall2 (fun u r => exists soup, web u = Some soup /\ r = week_record soup u)
    urls rs.
Proof.
  induction urls as [|u urls IH]; intros rs H.
  - cbn in H. injection H as <-. constructor.
  - cbn [imap_results] in H. rewrite scrape_week_record in H.
    destruct (web u) as [soup|] eqn:Eu; [|discriminate]. cbn [fst bind] in H.
    destruct (imap_results (scrape_week web) urls) as [rs'|e]; [|discriminate].
    cbn [bind] in H. injection H as <-.
    constructor; [now exists soup|now apply IH].
Qed.

Lemma imap_Ok web time urls log rs log' :
  imap time (scrape_week web) urls log = (Ok rs, log') ->
  (exists requests, log' = (log ++ requests)%list /\ Permutation requests urls)
  /\ Forall2 (fun u r => exists soup, web u = Some soup /\ r = week_record soup u)
       urls rs.
Proof.
  intros H. pose proof (imap_requests web time urls log) as R.
  rewrite H in R. cbn [snd] in R. unfold imap in H. injection H as H _.
  split; [|exact (imap_results_Ok web urls rs H)].
  exists (in_order_of time urls). split; [exact R|apply in_order_of_Permutation].
Qed.

(** A map over the pool ends with the exception of a fetch whenever
    one URL cannot be fetched. *)
Lemma imap_fails web time urls log :
  Exists (fun u => web u = None) urls ->
  exists log', imap time (scrape_week web) urls log = (Raise RequestException, log').
Proof.
  intros X. unfold imap. eexists. f_equal.
  induction urls as [|u urls IH]; [inversion X|].
  cbn [imap_results]. rewrite scrape_week_record.
  destruct (web u) as [soup|] eqn:Eu; [|reflexivity]. cbn [fst bind].
  inversion X as [? ? Hu|? ? X']; subst; [congruence|].
  now rewrite (IH X').
Qed.

Lemma imap_raises web time urls log e log' :
  imap time (scrape_week web) urls log = (Raise e, log') ->
  e = RequestException /\ Exists (fun u => web u = None) urls.
Proof.
  unfold imap. intros H. injection H as H _. revert H.
  induction urls as [|u urls IH]; [discriminate|].
  cbn [imap_results]. rewrite scrape_week_record.
  destruct (web u) as [soup|] eqn:Eu; cbn [fst bind].
  - destruct (imap_results (scrape_week web) urls) as [rs'|e']; [discriminate|].
    cbn [bind]. intros [= <-]. destruct (IH eq_refl) as [-> X].
    split; [reflexivity|now apply Exists_cons_tl].
  - intros [= <-]. split; [reflexivity|now apply Exists_cons_hd].
Qed.

(** The dates [scrape_billboard] generates from two well-formed dates. *)
Lemma scrape_billboard_dates pad_year first_week last_week a b :
  strptime first_week = Ok a -> strptime last_week = Ok b ->
  let n := (sub_days a b + 3) / 7 in
  n_weeks first_week last_week = Ok n
  /\ generate_dates pad_year first_week n =
       if (0 <? n) && (toordinal a <=? 7 * n) then Raise OverflowError
       else Ok (map (fun i => strftime pad_year (weeks_before a i))
                  (seq 0 (Z.to_nat n))).
Proof.
  intros Ea Eb n. split; [now apply n_weeks_Ok|].
  destruct (Z.ltb_spec 0 n) as [P|N]; cbn [andb].
  - destruct (Z.leb_spec (toordinal a) (7 * n)) as [O|L].
    + now apply (generate_dates_overflow _ _ _ a).
    + now apply generate_dates_Ok.
  - rewrite (generate_dates_nonpositive _ _ _ a Ea N).
    now replace (Z.to_nat n) with O by lia.
Qed.

(** Every generated date lies after the last week, by 4 days or more,
    and not after the first week. *)
Lemma generated_date_range a b i :
  let n := (sub_days a b + 3) / 7 in
  valid a = true -> (i < Z.to_nat n)%nat -> 7 * n < toordinal a ->
  valid (weeks_before a i) = true
  /\ toordinal b + 4 <= toordinal (weeks_before a i) <= toordinal a.
Proof.
  intros n Va Hi L. split; [apply weeks_before_valid; [exact Va|lia]|].
  rewrite weeks_before_toordinal by lia.
  unfold n, sub_days in *. Z.div_mod_to_equations. lia.
Qed.

End PipelineFacts.

(** ** Date ranges, continued *)

(** X1: for a positive number of weeks, [generate_dates] raises
    [OverflowError] exactly when the date 7 days before the last
    requested week would fall before 0001-01-01: the loop subtracts the
    interval once more after the last append, so it fails even where
    every requested week exists. *)
Theorem X1_generate_dates_overflow
    (pad_year : bool) (first_week : string) (weeks : Z) (t : datetime) :
  strptime first_week = Ok t -> 0 < weeks ->
  (generate_dates pad_year first_week weeks = Raise OverflowError
   <-> toordinal t <= 7 * weeks).
Proof.
  intros Et Hw. split.
  - intros E. destruct (Z.le_gt_cases (toordinal t) (7 * weeks)) as [L|G];
      [exact L|].
    rewrite (GenerateDatesFacts.generate_dates_Ok _ _ _ t Et) in E by lia.
    discriminate.
  - now apply GenerateDatesFacts.generate_dates_overflow.
Qed.

Lemma X1_generate_dates_overflow_witness :
  strptime "0001-01-05" = Ok (mkdate 1 1 5) /\ 0 < 1
  /\ toordinal (mkdate 1 1 5) - 7 * (1 - 1) = 5
  /\ generate_dates false "0001-01-05" 1 = Raise OverflowError.
Proof.
  split; [reflexivity|]. split; [lia|]. split; [reflexivity|].
  apply (X1_generate_dates_overflow false "0001-01-05" 1 (mkdate 1 1 5)
           eq_refl ltac:(lia)).
  vm_compute. discriminate.
Defined.

(** X2: the weeks [scrape_billboard] generates from two well-formed
    dates are dates of the calendar none of which is after the first week
    or less than 4 days after the last week; the earliest of them is at
    most 10 days after the last week.  The chart of the last week itself
    is not among them. *)
Theorem X2_generated_weeks_stop_after_last_week
    (pad_year : bool) (first_week last_week : string) (a b : datetime)
    (n : Z) (date_list : list string) :
  strptime first_week = Ok a -> strptime last_week = Ok b ->
  n_weeks first_week last_week = Ok n ->
  generate_dates pad_year first_week n = Ok date_list ->
  exists ds,
    date_list = map (strftime pad_year) ds
    /\ Forall (fun d => valid d = true
                        /\ toordinal b + 4 <= toordinal d <= toordinal a) ds
    /\ (0 < n -> exists d, In d ds /\ toordinal d <= toordinal b + 10)
    /\ ~ In b ds.
Proof.
  intros Ea Eb En Eg.
  destruct (PipelineFacts.scrape_billboard_dates pad_year _ _ _ _ Ea Eb) as [En' Eg'].
  rewrite En in En'. injection En' as ->.
  set (n := (sub_days a b + 3) / 7) in *.
  pose proof (proj1 (StrptimeFacts.strptime_Ok _ _ Ea)) as Va.
  rewrite Eg in Eg'.
  destruct (Z.ltb_spec 0 n) as [P|N]; cbn [andb] in Eg'.
  2:{ replace (Z.to_nat n) with O in Eg' by lia. cbn in Eg'. injection Eg' as ->.
      exists []. split; [reflexivity|]. split; [constructor|].
      split; [lia|tauto]. }
  destruct (Z.leb_spec (toordinal a) (7 * n)) as [O|L]; [discriminate|].
  injection Eg' as ->.
  exists (map (weeks_before a) (seq 0 (Z.to_nat n))).
  assert (F : Forall (fun d => valid d = true
                               /\ toordinal b + 4 <= toordinal d <= toordinal a)
                (map (weeks_before a) (seq 0 (Z.to_nat n)))).
  { apply Forall_forall. intros d Hd. apply in_map_iff in Hd.
    destruct Hd as (i & <- & Hi). apply in_seq in Hi.
    apply PipelineFacts.generated_date_range; [exact Va|lia|exact L]. }
  split; [now rewrite map_map|]. split; [exact F|]. split.
  - intros _. exists (weeks_before a (Z.to_nat n - 1)). split.
    + apply in_map, in_seq. lia.
    + rewrite GenerateDatesFacts.weeks_before_toordinal by lia.
      unfold n, sub_days in *. Z.div_mod_to_equations. lia.
  - intros Hb. rewrite Forall_forall in F. apply F in Hb. lia.
Qed.

Lemma X2_generated_weeks_witness :
  n_weeks "2019-05-12" "2019-04-28" = Ok 2
  /\ generate_dates false "2019-05-12" 2 = Ok ["2019-05-12"; "2019-05-05"]
  /\ exists ds,
       ["2019-05-12"; "2019-05-05"] = map (strftime false) ds
       /\ ~ In (mkdate 2019 4 28) ds.
Proof.
  assert (N : n_weeks "2019-05-12" "2019-04-28" = Ok 2) by (vm_compute; reflexivity).
  assert (G : generate_dates false "2019-05-12" 2 = Ok ["2019-05-12"; "2019-05-05"])
    by (vm_compute; reflexivity).
  split; [exact N|]. split; [exact G|].
  destruct (X2_generated_weeks_stop_after_last_week false
              "2019-05-12" "2019-04-28" (mkdate 2019 5 12) (mkdate 2019 4 28)
              2 _ eq_refl eq_refl N G) as (ds & E & _ & _ & I).
  exists ds. split; [exact E|exact I].
Defined.

(** ** The scrape as a whole *)

(** X3: when [scrape_billboard] returns, its result holds one record
    per generated week, in the order of the weeks, newest first: the
    record [scrape_week] builds from the document of the URL
    [url + week].  The requests made are those of these URLs, one for
    each, in the order in which the workers of the pool got to them, which
    need not be the order of the weeks. *)
Theorem X3_one_record_per_week_in_order
    (pad_year : bool) (web : string -> option Soup.node)
    (pool_time : nat -> nat) (first_week last_week url : string)
    (log log' : list string) (rs : list WeekRecord) :
  scrape_billboard pad_year web pool_time first_week last_week url log
  = (Ok rs, log') ->
  exists n date_list,
    n_weeks first_week last_week = Ok n
    /\ generate_dates pad_year first_week n = Ok date_list
    /\ List.length rs = Z.to_nat n
    /\ Forall2 (fun week r =>
                  exists soup, web (url ++ week) = Some soup
                               /\ r = week_record soup (url ++ week))
         date_list rs
    /\ exists requests,
         log' = (log ++ requests)%list
         /\ Permutation requests (map (fun week => (url ++ week)%string) date_list).
Proof.
  rewrite ScrapeFacts.scrape_billboard_run.
  destruct (n_weeks first_week last_week) as [n|e] eqn:En; [|discriminate].
  destruct (generate_dates pad_year first_week n) as [dl|e] eqn:Eg; [|discriminate].
  intros H. apply PipelineFacts.imap_Ok in H. destruct H as [R F].
  exists n, dl. split; [reflexivity|]. split; [exact Eg|].
  assert (F' : Forall2 (fun week r =>
                          exists soup, web (url ++ week) = Some soup
                                       /\ r = week_record soup (url ++ week)) dl rs).
  { clear -F. remember (map (fun week => url ++ week) dl) as urls eqn:Eu.
    revert dl Eu. induction F as [|u r urls rs Hr _ IH]; intros dl Eu.
    - destruct dl; [constructor|discriminate].
    - destruct dl as [|d dl]; [discriminate|]. injection Eu as -> ->.
      constructor; [exact Hr|now apply IH]. }
  split; [|split; [exact F'|exact R]].
  rewrite <- (Forall2_length F').
  unfold generate_dates in Eg.
  destruct (strptime first_week) as [a|] eqn:Ea; [|discriminate].
  cbn [bind] in Eg.
  assert (L : forall k week acc l,
              generate_dates_loop pad_year k week acc = Ok l ->
              List.length l = (List.length acc + k)%nat).
  { induction k as [|k IH]; intros week acc l E; cbn in E.
    - injection E as <-. lia.
    - destruct (sub_timedelta week 7) as [week'|]; [|discriminate]. cbn in E.
      apply IH in E. rewrite E, length_app. cbn. lia. }
  apply L in Eg. cbn in Eg. lia.
Qed.

Lemma X3_one_record_per_week_witness :
  scrape_billboard false (serves page_one_entry) second_first
    "2019-05-12" "2019-04-28" base_url []
  = (Ok [mkWeek ["Whiskey Glasses"] ["Morgan Wallen"] ["1"] ["2019-05-12"];
         mkWeek ["Whiskey Glasses"] ["Morgan Wallen"] ["1"] ["2019-05-05"]],
     ["https://www.billboard.com/charts/country-songs/2019-05-05";
      "https://www.billboard.com/charts/country-songs/2019-05-12"])
  /\ exists n date_list,
       n_weeks "2019-05-12" "2019-04-28" = Ok n
       /\ generate_dates false "2019-05-12" n = Ok date_list
       /\ 2%nat = Z.to_nat n.
Proof.
  assert (E : scrape_billboard false (serves page_one_entry) second_first
                "2019-05-12" "2019-04-28" base_url []
              = (Ok [mkWeek ["Whiskey Glasses"] ["Morgan Wallen"] ["1"] ["2019-05-12"];
                     mkWeek ["Whiskey Glasses"] ["Morgan Wallen"] ["1"] ["2019-05-05"]],
                 ["https://www.billboard.com/charts/country-songs/2019-05-05";
                  "https://www.billboard.com/charts/country-songs/2019-05-12"]))
    by (vm_compute; reflexivity).
  split; [exact E|].
  destruct (X3_one_record_per_week_in_order _ _ _ _ _ _ _ _ _ E)
    as (n & dl & N & G & L & _).
  exists n, dl. split; [exact N|]. split; [exact G|exact L].
Defined.

(** X4: [scrape_billboard] raises nothing but the [ValueError] of a
    malformed date, the [OverflowError] of a walk that leaves the
    calendar, and the exception of a failed request.  The first two leave
    the log of requests as it was; the third means that the document of a
    generated week could not be fetched. *)
Theorem X4_scrape_billboard_errors
    (pad_year : bool) (web : string -> option Soup.node)
    (pool_time : nat -> nat) (first_week last_week url : string)
    (log log' : list string)
    (e : exception) :
  scrape_billboard pad_year web pool_time first_week last_week url log = (Raise e, log') ->
  (e = ValueError /\ log' = log /\ (malformed first_week \/ malformed last_week))
  \/ (e = OverflowError /\ log' = log
      /\ exists a n, strptime first_week = Ok a
                     /\ n_weeks first_week last_week = Ok n
                     /\ 0 < n /\ toordinal a <= 7 * n)
  \/ (e = RequestException
      /\ exists n date_list week,
           n_weeks first_week last_week = Ok n
           /\ generate_dates pad_year first_week n = Ok date_list
           /\ In week date_list /\ web (url ++ week) = None).
Proof.
  rewrite ScrapeFacts.scrape_billboard_run.
  destruct (strptime first_week) as [a|ea] eqn:Ea.
  2:{ rewrite ScrapeFacts.n_weeks_malformed by (left; now exists ea).
      intros [= <- <-]. left. repeat split. left. intros t. congruence. }
  destruct (strptime last_week) as [b|eb] eqn:Eb.
  2:{ rewrite ScrapeFacts.n_weeks_malformed by (right; now exists eb).
      intros [= <- <-]. left. repeat split. right. intros t. congruence. }
  destruct (PipelineFacts.scrape_billboard_dates pad_year _ _ _ _ Ea Eb) as [En Eg].
  rewrite En, Eg.
  set (n := (sub_days a b + 3) / 7) in *.
  destruct (Z.ltb_spec 0 n) as [P|N]; cbn [andb].
  - destruct (Z.leb_spec (toordinal a) (7 * n)) as [O|L].
    + intros [= <- <-]. right. left. split; [reflexivity|]. split; [reflexivity|].
      exists a, n. split; [reflexivity|]. split; [tauto|]. split; assumption.
    + intros H. apply PipelineFacts.imap_raises in H. destruct H as [-> X].
      right. right. split; [reflexivity|].
      apply Exists_exists in X. destruct X as (u & Hu & Wu).
      apply in_map_iff in Hu. destruct Hu as (week & <- & Hw).
      exists n, (map (fun i => strftime pad_year (weeks_before a i))
                   (seq 0 (Z.to_nat n))), week.
      split; [first [exact En|reflexivity]|].
      split; [first [exact Eg|reflexivity]|split; assumption].
  - intros H. apply PipelineFacts.imap_raises in H. destruct H as [_ X].
    replace (Z.to_nat n) with O in X by lia. inversion X.
Qed.

Lemma X4_scrape_billboard_errors_witness :
  scrape_billboard false offline in_turn "2019-05-12" "2019-04-28" base_url []
  = (Raise RequestException,
     ["https://www.billboard.com/charts/country-songs/2019-05-12";
      "https://www.billboard.com/charts/country-songs/2019-05-05"])
  /\ ~ malformed "2019-05-12" /\ ~ malformed "2019-04-28"
  /\ exists n date_list week,
       n_weeks "2019-05-12" "2019-04-28" = Ok n
       /\ generate_dates false "2019-05-12" n = Ok date_list
       /\ In week date_list /\ offline (base_url ++ week) = None.
Proof.
  assert (E : scrape_billboard false offline in_turn "2019-05-12" "2019-04-28" base_url []
              = (Raise RequestException,
                 ["https://www.billboard.com/charts/country-songs/2019-05-12";
                  "https://www.billboard.com/charts/country-songs/2019-05-05"]))
    by (vm_compute; reflexivity).
  assert (M1 : ~ malformed "2019-05-12")
    by (intros M; apply (M (mkdate 2019 5 12)); vm_compute; reflexivity).
  assert (M2 : ~ malformed "2019-04-28")
    by (intros M; apply (M (mkdate 2019 4 28)); vm_compute; reflexivity).
  split; [exact E|]. split; [exact M1|]. split; [exact M2|].
  destruct (X4_scrape_billboard_errors _ _ _ _ _ _ _ _ _ E)
    as [(D & _) | [(D & _) | (_ & H)]]; [discriminate D|discriminate D|exact H].
Defined.

(** X5: one generated week whose document cannot be fetched makes the
    whole of [scrape_billboard] end with the exception of the request: no
    record of any week is returned. *)
Theorem X5_one_failed_fetch_fails_the_scrape
    (pad_year : bool) (web : string -> option Soup.node)
    (pool_time : nat -> nat) (first_week last_week url : string)
    (log : list string)
    (n : Z) (date_list : list string) (week : string) :
  n_weeks first_week last_week = Ok n ->
  generate_dates pad_year first_week n = Ok date_list ->
  In week date_list -> web (url ++ week) = None ->
  exists log',
    scrape_billboard pad_year web pool_time first_week last_week url log
    = (Raise RequestException, log').
Proof.
  intros En Eg Hw Ww. rewrite ScrapeFacts.scrape_billboard_run, En, Eg.
  apply PipelineFacts.imap_fails. apply Exists_exists.
  exists (url ++ week). split; [|exact Ww].
  apply in_map_iff. now exists week.
Qed.

Lemma X5_one_failed_fetch_witness :
  n_weeks "2019-05-12" "2019-04-28" = Ok 2
  /\ generate_dates false "2019-05-12" 2 = Ok ["2019-05-12"; "2019-05-05"]
  /\ In "2019-05-05" ["2019-05-12"; "2019-05-05"]
  /\ exists log',
       scrape_billboard false
         (fun u => if String.eqb u (base_url ++ "2019-05-05") then None
                   else Some page_one_entry)
         in_turn "2019-05-12" "2019-04-28" base_url []
       = (Raise RequestException, log').
Proof.
  assert (N : n_weeks "2019-05-12" "2019-04-28" = Ok 2) by (vm_compute; reflexivity).
  assert (G : generate_dates false "2019-05-12" 2 = Ok ["2019-05-12"; "2019-05-05"])
    by (vm_compute; reflexivity).
  assert (I : In "2019-05-05" ["2019-05-12"; "2019-05-05"]) by (right; left; reflexivity).
  split; [exact N|]. split; [exact G|]. split; [exact I|].
  apply (X5_one_failed_fetch_fails_the_scrape false _ in_turn "2019-05-12" "2019-04-28"
           base_url [] 2 _ "2019-05-05" N G I).
  vm_compute. reflexivity.
Defined.

Lemma append_inj_l (p s s' : string) : (p ++ s = p ++ s')%string -> s = s'.
Proof. induction p as [|c p IH]; cbn; [tauto|]. intros [= H]. now apply IH. Qed.

(** X6: the URLs [scrape_billboard] makes of its generated weeks are
    all different, so that no chart week is requested twice (for a last
    week from the year 1000 on, and for every year where the C library
    pads the year). *)
Theorem X6_no_week_is_requested_twice
    (pad_year : bool) (first_week last_week url : string) (a b : datetime)
    (n : Z) (date_list : list string) :
  strptime first_week = Ok a -> strptime last_week = Ok b ->
  pad_year = true \/ 1000 <= year b ->
  n_weeks first_week last_week = Ok n ->
  generate_dates pad_year first_week n = Ok date_list ->
  NoDup (map (fun week => url ++ week) date_list).
Proof.
  intros Ea Eb P En Eg.
  destruct (PipelineFacts.scrape_billboard_dates pad_year _ _ _ _ Ea Eb) as [En' Eg'].
  rewrite En in En'. injection En' as ->.
  set (n := (sub_days a b + 3) / 7) in *.
  pose proof (proj1 (StrptimeFacts.strptime_Ok _ _ Ea)) as Va.
  pose proof (proj1 (StrptimeFacts.strptime_Ok _ _ Eb)) as Vb.
  rewrite Eg in Eg'.
  destruct (Z.ltb_spec 0 n) as [Hn|Hn]; cbn [andb] in Eg'.
  2:{ replace (Z.to_nat n) with O in Eg' by lia. injection Eg' as ->. constructor. }
  destruct (Z.leb_spec (toordinal a) (7 * n)) as [O|L]; [discriminate|].
  injection Eg' as ->. rewrite map_map.
  apply NoDup_map_NoDup_ForallPairs; [|apply seq_NoDup].
  intros i j Hi Hj E. apply in_seq in Hi, Hj. apply append_inj_l in E.
  assert (R : forall k, (k < Z.to_nat n)%nat ->
              strptime (strftime pad_year (weeks_before a k)) = Ok (weeks_before a k)).
  { intros k Hk.
    destruct (PipelineFacts.generated_date_range a b k Va Hk L) as [Vk Bk].
    apply StrptimeFacts.strptime_strftime; [exact Vk|].
    destruct P as [P|P]; [now left|right].
    apply ScrapeFacts.year_from_1000; [exact Vk|].
    pose proof (ScrapeFacts.toordinal_from_1000 b Vb P). lia. }
  pose proof (R i ltac:(lia)) as Ri. pose proof (R j ltac:(lia)) as Rj.
  rewrite E, Rj in Ri. injection Ri as Ri.
  apply (f_equal toordinal) in Ri.
  rewrite !GenerateDatesFacts.weeks_before_toordinal in Ri by lia. lia.
Qed.

Lemma X6_no_week_is_requested_twice_witness :
  strptime "2019-05-12" = Ok (mkdate 2019 5 12)
  /\ strptime "2019-04-28" = Ok (mkdate 2019 4 28)
  /\ 1000 <= year (mkdate 2019 4 28)
  /\ n_weeks "2019-05-12" "2019-04-28" = Ok 2
  /\ generate_dates false "2019-05-12" 2 = Ok ["2019-05-12"; "2019-05-05"]
  /\ NoDup (map (fun week => base_url ++ week) ["2019-05-12"; "2019-05-05"]).
Proof.
  assert (N : n_weeks "2019-05-12" "2019-04-28" = Ok 2) by (vm_compute; reflexivity).
  assert (G : generate_dates false "2019-05-12" 2 = Ok ["2019-05-12"; "2019-05-05"])
    by (vm_compute; reflexivity).
  assert (Y : 1000 <= year (mkdate 2019 4 28)) by (cbn; lia).
  split; [reflexivity|]. split; [reflexivity|]. split; [exact Y|].
  split; [exact N|]. split; [exact G|].
  exact (X6_no_week_is_requested_twice false "2019-05-12" "2019-04-28" base_url
           (mkdate 2019 5 12) (mkdate 2019 4 28) 2 _
           eq_refl eq_refl (or_intror Y) N G).
Defined.

(** ** The table, continued *)

Module TableFacts.
Import Pandas GroupFacts AggregateFacts.

Lemma setitem_raises df name values e :
  setitem df name values = Raise e -> e = ValueError.
Proof.
  unfold setitem. destruct (_ =? 0)%nat; [discriminate|].
  destruct (_ =? _)%nat; [discriminate|]. now intros [= <-].
Qed.

(** An assignment keeps the columns of the frame, by name and in their
    order, and adds its own as the last, cell by cell. *)
Lemma setitem_shape df name values df' :
  setitem df name values = Ok df' ->
  exists df0, df' = (df0 ++ [(name, map Str values)])%list
              /\ map fst df0 = map fst df.
Proof.
  unfold setitem. destruct (_ =? 0)%nat.
  - intros [= <-]. eexists. split; [reflexivity|].
    rewrite map_map. now apply map_ext.
  - destruct (_ =? _)%nat; [|discriminate]. intros [= <-]. now eexists.
Qed.

Lemma tracks_df_flat_shape rs df :
  tracks_df_flat rs = Ok df ->
  exists c1 c2 c3,
    df = [("title", c1); ("artist", c2); ("rank", c3);
          ("week", map Str (flatten weeks rs))].
Proof.
  unfold tracks_df_flat. intros H.
  destruct (setitem empty "title" _) as [df1|] eqn:E1; [|discriminate].
  cbn [bind] in H.
  destruct (setitem df1 "artist" _) as [df2|] eqn:E2; [|discriminate].
  cbn [bind] in H.
  destruct (setitem df2 "rank" _) as [df3|] eqn:E3; [|discriminate].
  cbn [bind] in H.
  apply setitem_shape in E1, E2, E3, H.
  destruct E1 as (d1 & -> & N1), E2 as (d2 & -> & N2), E3 as (d3 & -> & N3),
    H as (d4 & -> & N4).
  destruct d1; [|discriminate]. cbn in N2.
  destruct d2 as [|[n1 c1] [|? ?]]; try discriminate. cbn in N2, N3.
  injection N2 as ->.
  destruct d3 as [|[n1 c1'] [|[n2 c2] [|? ?]]]; try discriminate. cbn in N3, N4.
  injection N3 as -> ->.
  destruct d4 as [|[n1 d1] [|[n2 d2] [|[n3 d3] [|? ?]]]]; try discriminate.
  cbn in N4. injection N4 as -> -> ->. cbn. now eexists _, _, _.
Qed.

Lemma tracks_df_flat_raises rs e :
  tracks_df_flat rs = Raise e -> e = ValueError.
Proof.
  unfold tracks_df_flat. intros H.
  destruct (setitem empty "title" _) as [df1|e1] eqn:E1;
    [|injection H as <-; exact (setitem_raises _ _ _ _ E1)].
  cbn [bind] in H.
  destruct (setitem df1 "artist" _) as [df2|e2] eqn:E2;
    [|injection H as <-; exact (setitem_raises _ _ _ _ E2)].
  cbn [bind] in H.
  destruct (setitem df2 "rank" _) as [df3|e3] eqn:E3;
    [|injection H as <-; exact (setitem_raises _ _ _ _ E3)].
  cbn [bind] in H. exact (setitem_raises _ _ _ _ H).
Qed.

Lemma strings_of_Str cells :
  Forall (fun c => exists s, c = Str s) cells -> exists l, strings cells = Some l.
Proof.
  induction 1 as [|c cells [s ->] _ [l IH]]; cbn; [now eauto|].
  rewrite IH. cbn. now eauto.
Qed.

(** Joining never fails on the groups of a column of strings. *)
Lemma apply_join_week_column by1 by2 W :
  exists out, apply_join (groupby by1 by2 (map Str W)) = Ok out.
Proof.
  apply apply_join_total.
  destruct (groupby_grouped by1 by2 (map Str W)) as [S L].
  apply Forall_forall. intros [k ws] Hin. cbn [snd].
  apply (lookup_In _ _ _ S) in Hin. rewrite L in Hin.
  apply nonempty_Some in Hin. destruct Hin as [-> _].
  apply strings_of_Str. apply Forall_forall. intros c Hc.
  unfold select in Hc. apply in_map_iff in Hc.
  destruct Hc as ([[c1 c2] c'] & <- & Hf). apply filter_In in Hf.
  destruct Hf as [Hf _]. apply in_combine_r in Hf. apply in_map_iff in Hf.
  destruct Hf as (s & <- & _). now exists s.
Qed.

Lemma tracks_df_flatten_ext rs rs' :
  flatten songs rs = flatten songs rs' ->
  flatten artists rs = flatten artists rs' ->
  flatten ranks rs = flatten ranks rs' ->
  flatten weeks rs = flatten weeks rs' ->
  tracks_df rs = tracks_df rs'.
Proof.
  intros E1 E2 E3 E4. unfold tracks_df, tracks_df_flat.
  now rewrite E1, E2, E3, E4.
Qed.

(** With as many week identifiers as titles, unequal counts of artists
    or ranks stop the assignments: the index is that of the titles when
    there is one, and that of the first list that is not empty when
    there is none. *)
Lemma tracks_df_mismatch rs :
  List.length (flatten weeks rs) = List.length (flatten songs rs) ->
  ~ (List.length (flatten artists rs) = List.length (flatten songs rs)
     /\ List.length (flatten ranks rs) = List.length (flatten songs rs)) ->
  tracks_df rs = Raise ValueError.
Proof.
  unfold tracks_df, tracks_df_flat.
  generalize (flatten songs rs) as T.
  generalize (flatten artists rs) as A.
  generalize (flatten ranks rs) as R.
  generalize (flatten weeks rs) as W.
  intros W R A T HW HN. destruct T as [|t0 T].
  - destruct W; [|discriminate]. destruct A as [|a A].
    + destruct R as [|r R]; [now destruct HN|].
      unfold setitem. cbn [empty index_length map app bind List.length Nat.eqb].
      rewrite !repeat_length. reflexivity.
    + unfold setitem. cbn [empty index_length map app bind List.length Nat.eqb].
      rewrite !repeat_length. cbn [Nat.eqb]. rewrite ?length_map.
      destruct (List.length R =? _)%nat; reflexivity.
  - unfold setitem. cbn [empty index_length map app bind List.length Nat.eqb].
    rewrite !length_map.
    destruct (List.length A =? _)%nat eqn:EA; [|reflexivity].
    cbn [empty index_length map app bind List.length Nat.eqb].
    rewrite !length_map.
    destruct (List.length R =? _)%nat eqn:ER; [|reflexivity].
    apply Nat.eqb_eq in EA, ER. destruct HN. cbn [List.length]. now split.
Qed.

(** The weeks of a scrape hold one week identifier for every title. *)
Lemma week_record_weeks soup url :
  List.length (weeks (week_record soup url))
  = List.length (songs (week_record soup url)).
Proof. cbn. now rewrite repeat_length, length_map. Qed.

Lemma flatten_weeks_length rs :
  Forall (fun r => List.length (weeks r) = List.length (songs r)) rs ->
  List.length (flatten weeks rs) = List.length (flatten songs rs).
Proof.
  unfold flatten. induction 1 as [|r rs E _ IH]; cbn [flat_map]; [reflexivity|].
  rewrite !length_app. lia.
Qed.

Lemma scrape_billboard_record_shape
    pad_year web pool_time first_week last_week url log rs log' :
  scrape_billboard pad_year web pool_time first_week last_week url log = (Ok rs, log') ->
  Forall (fun r => List.length (weeks r) = List.length (songs r)) rs.
Proof.
  rewrite ScrapeFacts.scrape_billboard_run.
  destruct (n_weeks first_week last_week) as [n|e]; [|discriminate].
  destruct (generate_dates pad_year first_week n) as [dl|e]; [|discriminate].
  intros H. apply PipelineFacts.imap_Ok in H. destruct H as [_ F].
  induction F as [|u r urls rs (soup & _ & ->) _ IH]; constructor;
    [apply week_record_weeks|exact IH].
Qed.

(** Among keys without repetition, a key that occurs is met once. *)
Lemma count_one (ks : list key) (x : key) :
  NoDup ks -> In x ks ->
  fold_right Nat.add 0%nat (map (fun k => if key_eqb x k then 1%nat else 0%nat) ks)
  = 1%nat.
Proof.
  induction 1 as [|k ks Hk N IH]; cbn [In map fold_right]; [tauto|].
  intros [->|Hin].
  - rewrite key_eqb_refl. f_equal.
    clear -Hk. induction ks as [|k ks IH]; cbn; [reflexivity|].
    destruct (key_eqb_spec x k) as [->|_]; [destruct Hk; now left|].
    apply IH. intros H. apply Hk. now right.
  - destruct (key_eqb_spec x k) as [->|_]; [contradiction|]. now apply IH.
Qed.

(** The entries of the keys of a table, counted key by key, are all
    the entries, when every entry has its key in the table. *)
Lemma weeks_of_partition (ks : list key) (es : list (string * string * string)) :
  NoDup ks -> (forall e, In e es -> In (fst e) ks) ->
  fold_right Nat.add 0%nat (map (fun k => List.length (weeks_of k es)) ks)
  = List.length es.
Proof.
  intros N. induction es as [|e es IH]; intros C.
  - clear. induction ks as [|k ks IHk]; cbn; [reflexivity|exact IHk].
  - assert (S : fold_right Nat.add 0%nat
                  (map (fun k => List.length (weeks_of k (e :: es))) ks)
                = (fold_right Nat.add 0%nat
                     (map (fun k => if key_eqb (fst e) k then 1 else 0) ks)
                   + fold_right Nat.add 0%nat
                       (map (fun k => List.length (weeks_of k es)) ks))%nat).
    { clear. induction ks as [|k ks IHk]; cbn [map fold_right]; [reflexivity|].
      rewrite IHk. unfold weeks_of. cbn [filter]. unfold key in *.
      destruct (key_eqb (fst e) k); cbn [map List.length]; lia. }
    rewrite S, IH by (intros e' H; apply C; now right).
    rewrite (count_one ks (fst e) N) by (apply C; now left). reflexivity.
Qed.

Lemma sum_of_nat (l : list nat) :
  fold_right Z.add 0 (map Z.of_nat l) = Z.of_nat (fold_right Nat.add 0%nat l).
Proof. induction l as [|n l IH]; cbn [map fold_right]; [reflexivity|lia]. Qed.

Lemma entries_length rs out :
  tracks_df rs = Ok out ->
  List.length (entries rs) = List.length (flatten songs rs).
Proof.
  intros H. apply aggregate_Ok in H. cbv zeta in H. unfold entries.
  destruct H as [[-> _]|(EA & EW & _)]; [reflexivity|].
  rewrite !length_combine. lia.
Qed.

Lemma weeks_of_In k es w :
  In w (weeks_of k es) -> exists e, In e es /\ fst e = k /\ snd e = w.
Proof.
  unfold weeks_of. intros H. apply in_map_iff in H.
  destruct H as (e & <- & H). apply filter_In in H. destruct H as [H E].
  exists e. destruct (key_eqb_spec (fst e) k); [now auto|discriminate].
Qed.

Lemma In_weeks_of e es : In e es -> In (snd e) (weeks_of (fst e) es).
Proof.
  intros H. unfold weeks_of. apply in_map. apply filter_In.
  split; [exact H|apply key_eqb_refl].
Qed.

Lemma weeks_of_nonempty e es : In e es -> weeks_of (fst e) es <> [].
Proof. intros H N. apply In_weeks_of in H. now rewrite N in H. Qed.

Lemma Permutation_flat_map {A B} (f : A -> list B) l l' :
  Permutation l l' -> Permutation (flat_map f l) (flat_map f l').
Proof.
  induction 1 as [|x l l' _ IH|x y l|l l' l'' _ IH1 _ IH2]; cbn [flat_map].
  - constructor.
  - now apply Permutation_app_head.
  - rewrite !app_assoc. apply Permutation_app_tail, Permutation_app_comm.
  - now transitivity (flat_map f l').
Qed.

Lemma Permutation_filter {A} (f : A -> bool) l l' :
  Permutation l l' -> Permutation (filter f l) (filter f l').
Proof.
  induction 1 as [|x l l' _ IH|x y l|l l' l'' _ IH1 _ IH2]; cbn [filter].
  - constructor.
  - destruct (f x); [now constructor|exact IH].
  - destruct (f x), (f y); try reflexivity. constructor.
  - now transitivity (filter f l').
Qed.

Lemma weeks_of_Permutation k es es' :
  Permutation es es' -> Permutation (weeks_of k es) (weeks_of k es').
Proof. intros P. unfold weeks_of. now apply Permutation_map, Permutation_filter. Qed.

(** The flattened rows of well-formed weeks are the rows of the weeks,
    one week after the other. *)
Lemma entries_flat_map rs :
  Forall well_formed rs -> entries rs = flat_map record_entries rs.
Proof.
  induction 1 as [|r rs W _ IH]; [reflexivity|].
  rewrite (entries_cons _ _ W), IH. reflexivity.
Qed.

(** A strictly increasing list of keys is determined by its elements. *)
Lemma sorted_unique (l : list key) : forall l',
  StronglySorted key_lt l -> StronglySorted key_lt l' ->
  (forall k, In k l <-> In k l') -> l = l'.
Proof.
  induction l as [|x l IH]; intros [|y l'] S S' H.
  - reflexivity.
  - destruct (proj2 (H y)). now left.
  - destruct (proj1 (H x)). now left.
  - apply StronglySorted_inv in S, S'. destruct S as [S F], S' as [S' F'].
    rewrite Forall_forall in F, F'.
    assert (E : x = y).
    { destruct (proj1 (H x) (or_introl eq_refl)) as [E|Hx]; [now symmetry|].
      destruct (proj2 (H y) (or_introl eq_refl)) as [E|Hy]; [exact E|].
      destruct (key_lt_irrefl x).
      exact (key_lt_trans _ _ _ (F _ Hy) (F' _ Hx)). }
    subst y. f_equal. apply IH; [exact S|exact S'|].
    intros k. split; intros Hk.
    + destruct (proj1 (H k) (or_intror Hk)) as [<-|Hk']; [|exact Hk'].
      destruct (key_lt_irrefl _ (F _ Hk)).
    + destruct (proj2 (H k) (or_intror Hk)) as [<-|Hk']; [|exact Hk'].
      destruct (key_lt_irrefl _ (F' _ Hk)).
Qed.

(** The keys of a table depend on the entries, not on their order. *)
Lemma keys_incl rs rs' out out' :
  tracks_df rs = Ok out -> tracks_df rs' = Ok out' ->
  Permutation (entries rs) (entries rs') ->
  forall k, In k (map Track.key out) -> In k (map Track.key out').
Proof.
  intros E E' P k Hk. apply in_map_iff in Hk. destruct Hk as (row & <- & Hrow).
  destruct (aggregate_spec _ _ E) as (_ & C & _).
  destruct (aggregate_spec _ _ E') as (_ & _ & K'). cbv zeta in *.
  destruct (C row Hrow) as (N & _).
  destruct (K' (Track.key row)) as (row' & Hrow' & <-); [|now apply in_map].
  intros N'. apply N. apply Permutation_nil. rewrite <- N'.
  symmetry. now apply weeks_of_Permutation.
Qed.

Lemma Forall2_map_eq {A B} (f : A -> B) (P : A -> A -> Prop) (l : list A) :
  forall l', map f l = map f l' ->
  (forall x y, In x l -> In y l' -> f x = f y -> P x y) -> Forall2 P l l'.
Proof.
  induction l as [|x l IH]; intros [|y l'] E H; try discriminate; constructor.
  - injection E as E _. apply H; [now left|now left|exact E].
  - injection E as _ E. apply IH; [exact E|].
    intros x' y' Hx Hy. apply H; now right.
Qed.

Lemma StronglySorted_app {A} (R : A -> A -> Prop) (l1 l2 : list A) :
  StronglySorted R l1 -> StronglySorted R l2 ->
  (forall x y, In x l1 -> In y l2 -> R x y) -> StronglySorted R (l1 ++ l2).
Proof.
  induction 1 as [|x l1 _ IH F]; intros S2 H; cbn [app]; [exact S2|].
  constructor.
  - apply IH; [exact S2|]. intros x' y Hx Hy. apply H; [now right|exact Hy].
  - apply Forall_app. split; [exact F|].
    apply Forall_forall. intros y Hy. apply H; [now left|exact Hy].
Qed.

Lemma StronglySorted_repeat {A} (R : A -> A -> Prop) (x : A) (k : nat) :
  R x x -> StronglySorted R (repeat x k).
Proof.
  intros H. induction k as [|k IH]; cbn; constructor; [exact IH|].
  apply Forall_forall. intros y Hy. apply repeat_spec in Hy. now subst y.
Qed.

Lemma StronglySorted_map_filter {A B} (R : B -> B -> Prop) (g : A -> B)
    (f : A -> bool) (l : list A) :
  StronglySorted R (map g l) -> StronglySorted R (map g (filter f l)).
Proof.
  induction l as [|x l IH]; cbn [map filter]; intros S; [exact S|].
  apply StronglySorted_inv in S. destruct S as [S F].
  destruct (f x); [|now apply IH]. cbn [map]. constructor; [now apply IH|].
  rewrite Forall_forall in *. intros y Hy. apply F.
  apply in_map_iff in Hy. destruct Hy as (z & <- & Hz).
  apply in_map. apply filter_In in Hz. tauto.
Qed.

Lemma StronglySorted_combine_snd {A B} (R : B -> B -> Prop) (l' : list B) :
  StronglySorted R l' ->
  forall l : list A, StronglySorted R (map snd (combine l l')).
Proof.
  induction 1 as [|y l' _ IH F]; intros [|x l]; cbn; try constructor.
  - apply IH.
  - rewrite Forall_forall in *. intros z Hz. apply F.
    apply in_map_iff in Hz. destruct Hz as ([x' z'] & <- & Hz).
    exact (in_combine_r _ _ _ _ Hz).
Qed.

Lemma StronglySorted_map_seq {A} (R : A -> A -> Prop) (f : nat -> A) (len : nat) :
  forall start,
  (forall i j, (start <= i)%nat -> (i < j)%nat -> (j < start + len)%nat ->
               R (f i) (f j)) ->
  StronglySorted R (map f (seq start len)).
Proof.
  induction len as [|len IH]; intros start H; cbn; constructor.
  - apply IH. intros i j Hi Hij Hj. apply H; lia.
  - apply Forall_forall. intros y Hy. apply in_map_iff in Hy.
    destruct Hy as (j & <- & Hj). apply in_seq in Hj. apply H; lia.
Qed.

(** The flattened week identifiers keep the order of the weeks when
    every record repeats the identifier of its week. *)
Lemma flatten_weeks_sorted {U} (R : string -> string -> Prop) (h : U -> string)
    (urls : list U) (rs : list WeekRecord) :
  Forall2 (fun u r => exists k, weeks r = repeat (h u) k) urls rs ->
  StronglySorted R (map h urls) -> Forall (fun u => R (h u) (h u)) urls ->
  StronglySorted R (flatten weeks rs).
Proof.
  unfold flatten.
  induction 1 as [|u r urls rs [k Hk] F2 IH]; intros S F; cbn [flat_map map] in *;
    [constructor|].
  apply StronglySorted_inv in S. destruct S as [S Fu].
  inversion F as [|? ? Ru F']; subst.
  rewrite Hk. apply StronglySorted_app.
  - now apply StronglySorted_repeat.
  - now apply IH.
  - intros x y Hx Hy. apply repeat_spec in Hx. subst x.
    apply in_flat_map in Hy. destruct Hy as (r' & Hr' & Hy).
    destruct (Forall2_In_r _ _ _ _ F2 Hr') as (u' & Hu' & k' & Hk').
    rewrite Hk' in Hy. apply repeat_spec in Hy. subst y.
    rewrite Forall_forall in Fu. apply Fu. now apply in_map.
Qed.

(** The week identifiers of a scrape, flattened, run from the newest
    week to the oldest. *)
Lemma scrape_billboard_weeks_sorted
    pad_year web pool_time first_week last_week url log rs log' b :
  scrape_billboard pad_year web pool_time first_week last_week url log = (Ok rs, log') ->
  strptime last_week = Ok b -> pad_year = true \/ 1000 <= year b ->
  StronglySorted not_earlier (flatten weeks rs).
Proof.
  intros H Eb P. rewrite ScrapeFacts.scrape_billboard_run in H.
  destruct (strptime first_week) as [a|e] eqn:Ea;
    [|rewrite ScrapeFacts.n_weeks_malformed in H by (left; now exists e);
      discriminate].
  rewrite (ScrapeFacts.n_weeks_Ok _ _ _ _ Ea Eb) in H.
  set (n := (sub_days a b + 3) / 7) in *.
  pose proof (proj1 (StrptimeFacts.strptime_Ok _ _ Ea)) as Va.
  pose proof (proj1 (StrptimeFacts.strptime_Ok _ _ Eb)) as Vb.
  destruct (Z.le_gt_cases n 0) as [N|N].
  { rewrite (GenerateDatesFacts.generate_dates_nonpositive _ _ _ a Ea N) in H.
    cbn in H. injection H as <- _. constructor. }
  destruct (Z.ltb_spec (7 * n) (toordinal a)) as [L|L];
    [|rewrite (GenerateDatesFacts.generate_dates_overflow _ _ _ a Ea) in H by lia;
      discriminate].
  rewrite (GenerateDatesFacts.generate_dates_Ok _ _ _ a Ea L) in H.
  rewrite map_map in H. apply ScrapeFacts.imap_scrape_week in H.
  assert (D : forall i, (i < Z.to_nat n)%nat ->
              Str.suffix 10 (url ++ strftime pad_year (weeks_before a i))
              = strftime pad_year (weeks_before a i)
              /\ strptime (strftime pad_year (weeks_before a i))
                 = Ok (weeks_before a i)).
  { intros i Hi.
    destruct (PipelineFacts.generated_date_range a b i Va Hi L) as [Vi Bi].
    assert (Pi : pad_year = true \/ 1000 <= year (weeks_before a i)).
    { destruct P as [P|P]; [now left|right].
      apply ScrapeFacts.year_from_1000; [exact Vi|].
      pose proof (ScrapeFacts.toordinal_from_1000 b Vb P). lia. }
    split; [|now apply StrptimeFacts.strptime_strftime].
    rewrite <- (ScrapeFacts.strftime_length pad_year _ Vi Pi).
    apply ScrapeFacts.suffix_app. }
  apply (flatten_weeks_sorted _ _ _ _ H).
  - rewrite map_map. apply StronglySorted_map_seq. intros i j _ Hij Hj.
    destruct (D i ltac:(lia)) as [-> Ei]. destruct (D j Hj) as [-> Ej].
    exists (weeks_before a i), (weeks_before a j).
    split; [exact Ei|]. split; [exact Ej|].
    rewrite !GenerateDatesFacts.weeks_before_toordinal by lia. lia.
  - apply Forall_forall. intros u Hu. apply in_map_iff in Hu.
    destruct Hu as (i & <- & Hi). apply in_seq in Hi.
    destruct (D i ltac:(lia)) as [-> Ei].
    exists (weeks_before a i), (weeks_before a i).
    split; [exact Ei|]. split; [exact Ei|]. lia.
Qed.

Lemma scrape_billboard_records
    pad_year web pool_time first_week last_week url log rs log' :
  scrape_billboard pad_year web pool_time first_week last_week url log = (Ok rs, log') ->
  Forall (fun r => exists soup u, r = week_record soup u) rs.
Proof.
  rewrite ScrapeFacts.scrape_billboard_run.
  destruct (n_weeks first_week last_week) as [n|e]; [|discriminate].
  destruct (generate_dates pad_year first_week n) as [dl|e]; [|discriminate].
  intros H. apply PipelineFacts.imap_Ok in H. destruct H as [_ F].
  induction F as [|u r urls rs (soup & _ & ->) _ IH]; constructor;
    [now eexists _, _|exact IH].
Qed.

(** The title and the artist of a row of the table are a scraped
    title and a scraped artist. *)
Lemma table_row_entry rs out row :
  tracks_df rs = Ok out -> In row out ->
  In (Track.title row) (flatten songs rs)
  /\ In (Track.artist row) (flatten artists rs).
Proof.
  intros E Hrow. destruct (aggregate_spec _ _ E) as (_ & C & _). cbv zeta in C.
  destruct (C row Hrow) as (N & _).
  destruct (weeks_of (Track.key row) (entries rs)) as [|w ws] eqn:Ew; [congruence|].
  assert (Hw : In w (weeks_of (Track.key row) (entries rs)))
    by (rewrite Ew; now left).
  apply weeks_of_In in Hw. destruct Hw as ([[t a] w'] & He & K & _).
  unfold entries in He. apply in_combine_l in He.
  cbn in K. unfold Track.key in K. injection K as -> ->.
  split; [exact (in_combine_l _ _ _ _ He)|exact (in_combine_r _ _ _ _ He)].
Qed.

(** An assignment looks at the length of its list only: two lists of
    one length are both refused, or both added to the same columns. *)
Lemma setitem_length df name v v' :
  List.length v = List.length v' ->
  match setitem df name v, setitem df name v' with
  | Ok d, Ok d' => exists df0, d = (df0 ++ [(name, map Str v)])%list
                               /\ d' = (df0 ++ [(name, map Str v')])%list
                               /\ map fst df0 = map fst df
  | Raise e, Raise e' => e = e'
  | _, _ => False
  end.
Proof.
  intros H. unfold setitem. rewrite <- H.
  destruct (index_length df =? 0)%nat.
  - eexists. split; [reflexivity|]. split; [reflexivity|].
    rewrite map_map. now apply map_ext.
  - destruct (_ =? _)%nat; [|reflexivity]. exists df. now auto.
Qed.

End TableFacts.

(** X7: the cells that build the table raise nothing but the
    [ValueError] of an assignment whose list has not the length of the
    index: no column is ever missing and [','.join] never meets a cell
    that is not a string. *)
Theorem X7_table_raises_only_ValueError
    (billboard_responses : list WeekRecord) (e : exception) :
  tracks_df billboard_responses = Raise e -> e = ValueError.
Proof.
  unfold tracks_df.
  destruct (tracks_df_flat billboard_responses) as [df|e'] eqn:E.
  - destruct (TableFacts.tracks_df_flat_shape _ _ E) as (c1 & c2 & c3 & ->).
    cbn [bind Pandas.getitem String.eqb Ascii.eqb Bool.eqb].
    destruct (TableFacts.apply_join_week_column c1 c2
                (flatten weeks billboard_responses)) as [out ->].
    discriminate.
  - intros [= <-]. exact (TableFacts.tracks_df_flat_raises _ _ E).
Qed.

Lemma X7_table_raises_witness :
  tracks_df [mkWeek ["Song X"] [] [] ["2019-05-12"]] = Raise ValueError.
Proof.
  assert (E : exists e, tracks_df [mkWeek ["Song X"] [] [] ["2019-05-12"]] = Raise e)
    by (eexists; vm_compute; reflexivity).
  destruct E as [e E]. rewrite E. f_equal.
  exact (X7_table_raises_only_ValueError _ _ E).
Defined.

(** X8: the table of a scrape.  A scraped week holds one week
    identifier for each of its titles, so the cells that build the table
    return exactly when the pages together hold as many artist elements
    and as many rank elements as title elements, whatever the counts of
    each page are; otherwise an assignment raises [ValueError]. *)
Theorem X8_table_of_a_scrape
    (pad_year : bool) (web : string -> option Soup.node)
    (pool_time : nat -> nat) (first_week last_week url : string)
    (log log' : list string)
    (billboard_responses : list WeekRecord) :
  scrape_billboard pad_year web pool_time first_week last_week url log
  = (Ok billboard_responses, log') ->
  let titles := List.length (flatten songs billboard_responses) in
  if ((List.length (flatten artists billboard_responses) =? titles)
      && (List.length (flatten ranks billboard_responses) =? titles))%nat
  then exists out, tracks_df billboard_responses = Ok out
  else tracks_df billboard_responses = Raise ValueError.
Proof.
  intros H titles. apply TableFacts.scrape_billboard_record_shape in H.
  apply TableFacts.flatten_weeks_length in H. fold titles in H.
  destruct (Nat.eqb_spec (List.length (flatten artists billboard_responses)) titles)
    as [EA|NA]; cbn [andb].
  - destruct (Nat.eqb_spec (List.length (flatten ranks billboard_responses)) titles)
      as [ER|NR].
    + now apply AggregateFacts.aggregate_total.
    + apply TableFacts.tracks_df_mismatch; [exact H|]. intros [_ ER]. now apply NR.
  - apply TableFacts.tracks_df_mismatch; [exact H|]. intros [EA _]. now apply NA.
Qed.

Lemma X8_table_of_a_scrape_witness :
  scrape_billboard false (serves page_title_only) in_turn
    "2019-05-12" "2019-05-05" base_url []
  = (Ok [mkWeek ["Song X"] [] [] ["2019-05-12"]],
     ["https://www.billboard.com/charts/country-songs/2019-05-12"])
  /\ tracks_df [mkWeek ["Song X"] [] [] ["2019-05-12"]] = Raise ValueError.
Proof.
  assert (E : scrape_billboard false (serves page_title_only) in_turn
                "2019-05-12" "2019-05-05" base_url []
              = (Ok [mkWeek ["Song X"] [] [] ["2019-05-12"]],
                 ["https://www.billboard.com/charts/country-songs/2019-05-12"]))
    by (vm_compute; reflexivity).
  split; [exact E|].
  exact (X8_table_of_a_scrape _ _ _ _ _ _ _ _ _ E).
Defined.

(** X9: a scraped week without entries contributes nothing: the table
    is the same with it and without it, wherever it stands in the list. *)
Theorem X9_empty_week_contributes_nothing
    (before after : list WeekRecord) (r : WeekRecord) :
  songs r = [] -> artists r = [] -> ranks r = [] -> weeks r = [] ->
  tracks_df (before ++ r :: after) = tracks_df (before ++ after).
Proof.
  intros E1 E2 E3 E4.
  apply TableFacts.tracks_df_flatten_ext; unfold flatten;
    rewrite !flat_map_app; cbn [flat_map];
    rewrite ?E1, ?E2, ?E3, ?E4; reflexivity.
Qed.

Lemma X9_empty_week_witness :
  tracks_df (firstn 1 three_weeks ++ empty_week :: skipn 1 three_weeks)
  = Ok three_weeks_table.
Proof.
  rewrite (X9_empty_week_contributes_nothing _ _ empty_week
             eq_refl eq_refl eq_refl eq_refl).
  vm_compute. reflexivity.
Defined.

(** X10: the week counts of the table add up to the number of chart
    entries that were scraped: every entry is counted in the row of its
    title and artist and in no other, when no week identifier holds a
    comma. *)
Theorem X10_week_counts_add_up
    (billboard_responses : list WeekRecord) (out : list Track.row) :
  Forall (fun r => Forall (fun w => Str.comma_free w = true) (weeks r))
    billboard_responses ->
  tracks_df billboard_responses = Ok out ->
  total_count out = Z.of_nat (List.length (flatten songs billboard_responses)).
Proof.
  intros F E.
  destruct (AggregateFacts.aggregate_spec _ _ E) as (S & C & K). cbv zeta in *.
  rewrite <- (TableFacts.entries_length _ _ E).
  rewrite <- (TableFacts.weeks_of_partition (map Track.key out)).
  - rewrite <- TableFacts.sum_of_nat. unfold total_count. f_equal.
    rewrite !map_map. apply map_ext_in. intros row Hrow.
    destruct (C row Hrow) as (_ & _ & ->).
    now rewrite (week_count_comma_free _ _ _ F E Hrow).
  - now apply AggregateFacts.sorted_NoDup.
  - intros e He. destruct (K (fst e)) as (row & Hrow & <-).
    + exact (TableFacts.weeks_of_nonempty _ _ He).
    + now apply in_map.
Qed.

Lemma X10_week_counts_witness :
  total_count three_weeks_table
  = Z.of_nat (List.length (flatten songs three_weeks)).
Proof.
  apply X10_week_counts_add_up.
  - repeat constructor.
  - vm_compute. reflexivity.
Defined.

(** X11: the order of the scraped weeks decides nothing but the order
    of the week identifiers within a row.  For weeks whose four lists
    have one length each, and week identifiers without a comma, the
    table of the weeks in any other order has the same rows in the same
    order: the same titles, artists and week counts, and week
    identifiers that are a rearrangement of each other. *)
Theorem X11_order_of_weeks_rearranges_rows_only
    (billboard_responses reordered : list WeekRecord) (out : list Track.row) :
  Permutation billboard_responses reordered ->
  Forall well_formed billboard_responses ->
  Forall (fun r => Forall (fun w => Str.comma_free w = true) (weeks r))
    billboard_responses ->
  tracks_df billboard_responses = Ok out ->
  exists out',
    tracks_df reordered = Ok out'
    /\ Forall2 (fun row row' =>
                  Track.title row' = Track.title row
                  /\ Track.artist row' = Track.artist row
                  /\ Track.week_count row' = Track.week_count row
                  /\ Permutation (Str.split_comma (Track.weeks row))
                        (Str.split_comma (Track.weeks row')))
         out out'.
Proof.
  intros P W F E.
  assert (W' : Forall well_formed reordered)
    by exact (Permutation_Forall P W).
  assert (F' : Forall (fun r => Forall (fun w => Str.comma_free w = true) (weeks r))
                 reordered)
    by exact (Permutation_Forall P F).
  destruct (AggregateFacts.tracks_df_well_formed _ W') as [out' E'].
  exists out'. split; [exact E'|].
  assert (Pe : Permutation (entries billboard_responses) (entries reordered)).
  { rewrite !TableFacts.entries_flat_map by assumption.
    now apply TableFacts.Permutation_flat_map. }
  destruct (AggregateFacts.aggregate_spec _ _ E) as (S & C & _).
  destruct (AggregateFacts.aggregate_spec _ _ E') as (S' & C' & _).
  cbv zeta in *.
  apply (TableFacts.Forall2_map_eq Track.key).
  - apply TableFacts.sorted_unique; [exact S|exact S'|].
    intros k. split.
    + exact (TableFacts.keys_incl _ _ _ _ E E' Pe k).
    + apply (TableFacts.keys_incl _ _ _ _ E' E). now symmetry.
  - intros row row' Hrow Hrow' K.
    assert (Pw : Permutation (Str.split_comma (Track.weeks row))
                   (Str.split_comma (Track.weeks row'))).
    { rewrite (week_count_comma_free _ _ _ F E Hrow).
      rewrite (week_count_comma_free _ _ _ F' E' Hrow').
      rewrite <- K. now apply TableFacts.weeks_of_Permutation. }
    destruct (C row Hrow) as (_ & _ & ->).
    destruct (C' row' Hrow') as (_ & _ & ->).
    unfold Track.key in K. injection K as Kt Ka.
    split; [now symmetry|]. split; [now symmetry|]. split; [|exact Pw].
    f_equal. symmetry. now apply Permutation_length.
Qed.

Lemma X11_order_of_weeks_witness :
  exists out',
    tracks_df (rev three_weeks) = Ok out'
    /\ Forall2 (fun row row' =>
                  Track.title row' = Track.title row
                  /\ Track.artist row' = Track.artist row
                  /\ Track.week_count row' = Track.week_count row
                  /\ Permutation (Str.split_comma (Track.weeks row))
                        (Str.split_comma (Track.weeks row')))
         three_weeks_table out'.
Proof.
  apply (X11_order_of_weeks_rearranges_rows_only three_weeks).
  - apply Permutation_rev.
  - repeat constructor.
  - repeat constructor.
  - vm_compute. reflexivity.
Defined.

(** X12: in the table of a scrape, the week identifiers of a row run
    from the newest week to the oldest: each field of the joined text is
    a date, and no field is a later date than a field before it.  (Where
    the C library does not pad the year, for a last week from the year
    1000 on.) *)
Theorem X12_weeks_of_a_row_are_newest_first
    (pad_year : bool) (web : string -> option Soup.node)
    (pool_time : nat -> nat) (first_week last_week url : string)
    (log log' : list string)
    (billboard_responses : list WeekRecord) (b : datetime)
    (out : list Track.row) (row : Track.row) :
  scrape_billboard pad_year web pool_time first_week last_week url log
  = (Ok billboard_responses, log') ->
  strptime last_week = Ok b -> pad_year = true \/ 1000 <= year b ->
  tracks_df billboard_responses = Ok out -> In row out ->
  StronglySorted not_earlier (Str.split_comma (Track.weeks row)).
Proof.
  intros H Eb P E Hrow.
  assert (F : Forall (fun r => Forall (fun w => Str.comma_free w = true) (weeks r))
                billboard_responses).
  { pose proof (ScrapeFacts.scrape_billboard_week_identifiers
                  _ _ _ _ _ _ _ _ _ _ H Eb P) as F.
    eapply Forall_impl; [|exact F]. intros r Fr.
    eapply Forall_impl; [|exact Fr]. intros w Hw.
    now apply date_string_comma_free. }
  rewrite (week_count_comma_free _ _ _ F E Hrow).
  unfold weeks_of, entries.
  apply TableFacts.StronglySorted_map_filter.
  apply TableFacts.StronglySorted_combine_snd.
  exact (TableFacts.scrape_billboard_weeks_sorted _ _ _ _ _ _ _ _ _ _ H Eb P).
Qed.

Lemma X12_weeks_of_a_row_witness :
  scrape_billboard false (serves page_one_entry) second_first
    "2019-05-12" "2019-04-28" base_url []
  = (Ok [mkWeek ["Whiskey Glasses"] ["Morgan Wallen"] ["1"] ["2019-05-12"];
         mkWeek ["Whiskey Glasses"] ["Morgan Wallen"] ["1"] ["2019-05-05"]],
     ["https://www.billboard.com/charts/country-songs/2019-05-05";
      "https://www.billboard.com/charts/country-songs/2019-05-12"])
  /\ tracks_df [mkWeek ["Whiskey Glasses"] ["Morgan Wallen"] ["1"] ["2019-05-12"];
                mkWeek ["Whiskey Glasses"] ["Morgan Wallen"] ["1"] ["2019-05-05"]]
     = Ok [Track.mk "Whiskey Glasses" "Morgan Wallen" "2019-05-12,2019-05-05" 2]
  /\ StronglySorted not_earlier (Str.split_comma "2019-05-12,2019-05-05").
Proof.
  assert (H : scrape_billboard false (serves page_one_entry) second_first
                "2019-05-12" "2019-04-28" base_url []
              = (Ok [mkWeek ["Whiskey Glasses"] ["Morgan Wallen"] ["1"] ["2019-05-12"];
                     mkWeek ["Whiskey Glasses"] ["Morgan Wallen"] ["1"] ["2019-05-05"]],
                 ["https://www.billboard.com/charts/country-songs/2019-05-05";
                  "https://www.billboard.com/charts/country-songs/2019-05-12"]))
    by (vm_compute; reflexivity).
  assert (E : tracks_df
                [mkWeek ["Whiskey Glasses"] ["Morgan Wallen"] ["1"] ["2019-05-12"];
                 mkWeek ["Whiskey Glasses"] ["Morgan Wallen"] ["1"] ["2019-05-05"]]
              = Ok [Track.mk "Whiskey Glasses" "Morgan Wallen"
                      "2019-05-12,2019-05-05" 2])
    by (vm_compute; reflexivity).
  assert (B : strptime "2019-04-28" = Ok (mkdate 2019 4 28))
    by (vm_compute; reflexivity).
  assert (Y : 1000 <= year (mkdate 2019 4 28)) by (cbn; lia).
  split; [exact H|]. split; [exact E|].
  exact (X12_weeks_of_a_row_are_newest_first _ _ _ _ _ _ _ _ _ _ _
           (Track.mk "Whiskey Glasses" "Morgan Wallen" "2019-05-12,2019-05-05" 2)
           H B (or_intror Y) E (or_introl eq_refl)).
Defined.

(** ** Generated dates as start dates *)

Module RestartFacts.
Import DatetimeFacts GenerateDatesFacts.

Lemma lstrip_zeros_length n : forall s,
  (String.length (lstrip_zeros n s) <= String.length s)%nat.
Proof.
  induction n as [|n IH]; intros [|c s]; cbn; try lia.
  destruct (Ascii.eqb c "0"); [|cbn; lia]. specialize (IH s). lia.
Qed.

(** Without padding, a year before 1000 is written with 3 characters
    or fewer. *)
Lemma short_year y :
  0 <= y < 1000 -> (String.length (format_year false y) <= 3)%nat.
Proof.
  intros H. unfold format_year, year4, pad2. cbn [append].
  replace (y / 100 / 10) with 0 by (Z.div_mod_to_equations; lia).
  change (Str.digit_char 0) with "0"%char.
  change (lstrip_zeros 3 (String "0" ?s)) with (lstrip_zeros 2 s).
  match goal with |- (String.length (lstrip_zeros 2 ?s) <= 3)%nat =>
    pose proof (lstrip_zeros_length 2 s) as L end.
  cbn [String.length] in L. exact L.
Qed.

Lemma is_digit_dash : Str.is_digit "-" = false.
Proof. reflexivity. Qed.

(** A text whose year has fewer than 4 digits does not match the format. *)
Lemma strptime_short_year f r :
  (String.length f <= 3)%nat -> strptime (f ++ "-" ++ r) = Raise ValueError.
Proof.
  intros H. unfold strptime, format_regex_match, group_Y, chars2.
  destruct f as [|a [|b [|c [|x f]]]]; cbn [append String.length] in *; try lia.
  - destruct r; [reflexivity|]. now rewrite is_digit_dash.
  - now rewrite is_digit_dash, andb_false_r.
  - destruct (Str.is_digit a && Str.is_digit b); [|reflexivity].
    destruct r; [reflexivity|]. now rewrite is_digit_dash.
  - destruct (Str.is_digit a && Str.is_digit b); [|reflexivity].
    now rewrite is_digit_dash, andb_false_r.
Qed.

Lemma strptime_strftime_short_year d :
  valid d = true -> year d < 1000 ->
  strptime (strftime false d) = Raise ValueError.
Proof.
  intros V H. unfold valid in V. apply valid_ymd_spec in V.
  unfold strftime. apply strptime_short_year. apply short_year.
  unfold MINYEAR in V. lia.
Qed.

Lemma nth_error_map_seq {A} (f : nat -> A) (len : nat) : forall start i w,
  nth_error (map f (seq start len)) i = Some w ->
  (i < len)%nat /\ w = f (start + i)%nat.
Proof.
  induction len as [|len IH]; intros start [|i] w H; cbn in H; try discriminate.
  - injection H as <-. split; [lia|]. now rewrite Nat.add_0_r.
  - apply IH in H. destruct H as [L ->]. split; [lia|]. f_equal. lia.
Qed.

Lemma map_seq_shift {A} (f : nat -> A) (a len : nat) : forall start,
  map f (seq (a + start) len) = map (fun i => f (a + i)%nat) (seq start len).
Proof.
  induction len as [|len IH]; intros start; cbn; [reflexivity|].
  f_equal. rewrite <- IH. f_equal. f_equal. lia.
Qed.

Lemma weeks_before_add t k i :
  7 * Z.of_nat k < toordinal t ->
  weeks_before (weeks_before t k) i = weeks_before t (k + i).
Proof.
  intros H. unfold weeks_before at 1 3.
  rewrite weeks_before_toordinal by lia. f_equal. lia.
Qed.

(** When [generate_dates] returns for a positive number of weeks, the
    walk has stayed in the calendar. *)
Lemma generate_dates_Ok_inv pad_year first_week weeks t l :
  strptime first_week = Ok t -> 0 < weeks ->
  generate_dates pad_year first_week weeks = Ok l ->
  7 * weeks < toordinal t
  /\ l = map (fun i => strftime pad_year (weeks_before t i))
           (seq 0 (Z.to_nat weeks)).
Proof.
  intros Et Hw E.
  destruct (Z.le_gt_cases (toordinal t) (7 * weeks)) as [O|L].
  - rewrite (generate_dates_overflow _ _ _ t Et Hw O) in E. discriminate.
  - rewrite (generate_dates_Ok _ _ _ t Et) in E by lia.
    injection E as <-. split; [lia|reflexivity].
Qed.

End RestartFacts.

(** X13: a walk can be resumed.  The dates of [k + m] weeks are the
    dates of the first [k] weeks followed by the dates of [m] weeks
    started from the date [generate_dates] wrote for week [k].  (Where the
    C library does not pad the year, for a date of week [k] from the year
    1000 on.) *)
Theorem X13_generate_dates_resumes
    (pad_year : bool) (first_week : string) (k m : Z) (t : datetime)
    (date_list : list string) :
  strptime first_week = Ok t -> 0 <= k -> 0 < m ->
  generate_dates pad_year first_week (k + m) = Ok date_list ->
  pad_year = true \/ 1000 <= year (weeks_before t (Z.to_nat k)) ->
  exists head tail,
    generate_dates pad_year first_week k = Ok head
    /\ generate_dates pad_year
         (strftime pad_year (weeks_before t (Z.to_nat k))) m = Ok tail
    /\ date_list = (head ++ tail)%list.
Proof.
  intros Et Hk Hm E P.
  assert (Hkm : 0 < k + m) by lia.
  destruct (RestartFacts.generate_dates_Ok_inv _ _ _ _ _ Et Hkm E) as [L ->].
  pose proof (proj1 (StrptimeFacts.strptime_Ok _ _ Et)) as Vt.
  set (d := weeks_before t (Z.to_nat k)) in *.
  assert (Vd : valid d = true)
    by (apply GenerateDatesFacts.weeks_before_valid; [exact Vt|lia]).
  assert (Od : toordinal d = toordinal t - 7 * k)
    by (unfold d; rewrite GenerateDatesFacts.weeks_before_toordinal; lia).
  pose proof (StrptimeFacts.strptime_strftime pad_year d Vd P) as Ed.
  exists (map (fun i => strftime pad_year (weeks_before t i)) (seq 0 (Z.to_nat k))),
    (map (fun i => strftime pad_year (weeks_before d i)) (seq 0 (Z.to_nat m))).
  split; [apply GenerateDatesFacts.generate_dates_Ok; [exact Et|lia]|].
  split; [apply (GenerateDatesFacts.generate_dates_Ok _ _ _ d Ed); lia|].
  replace (Z.to_nat (k + m)) with (Z.to_nat k + Z.to_nat m)%nat by lia.
  rewrite seq_app, map_app. f_equal. cbn [Nat.add].
  replace (Z.to_nat k) with (Z.to_nat k + 0)%nat at 1 by lia.
  rewrite RestartFacts.map_seq_shift. apply map_ext. intros i. f_equal.
  unfold d. rewrite RestartFacts.weeks_before_add by lia. reflexivity.
Qed.

Lemma X13_generate_dates_resumes_witness :
  generate_dates false "2019-05-12" (1 + 2)
  = Ok ["2019-05-12"; "2019-05-05"; "2019-04-28"]
  /\ exists head tail,
       generate_dates false "2019-05-12" 1 = Ok head
       /\ generate_dates false "2019-05-05" 2 = Ok tail
       /\ ["2019-05-12"; "2019-05-05"; "2019-04-28"] = (head ++ tail)%list.
Proof.
  assert (T : strptime "2019-05-12" = Ok (mkdate 2019 5 12))
    by (vm_compute; reflexivity).
  assert (E : generate_dates false "2019-05-12" (1 + 2)
              = Ok ["2019-05-12"; "2019-05-05"; "2019-04-28"])
    by (vm_compute; reflexivity).
  assert (Y : 1000 <= year (weeks_before (mkdate 2019 5 12) (Z.to_nat 1)))
    by (vm_compute; discriminate).
  split; [exact E|].
  exact (X13_generate_dates_resumes false "2019-05-12" 1 2 (mkdate 2019 5 12) _
           T ltac:(lia) ltac:(lia) E (or_intror Y)).
Defined.

(** X14: whether a generated date is itself accepted as a start date.
    The [i]-th date that [generate_dates] returns is read back by
    [strptime] as the date it was written from when the C library pads
    the year to four digits or the date is of the year 1000 or later;
    written without padding, a date before the year 1000 raises
    [ValueError]. *)
Theorem X14_generated_dates_read_back
    (pad_year : bool) (first_week : string) (weeks : Z) (t : datetime)
    (date_list : list string) (i : nat) (week : string) :
  strptime first_week = Ok t ->
  generate_dates pad_year first_week weeks = Ok date_list ->
  nth_error date_list i = Some week ->
  strptime week
  = if pad_year || (1000 <=? year (weeks_before t i))
    then Ok (weeks_before t i) else Raise ValueError.
Proof.
  intros Et E Hi.
  destruct (Z.le_gt_cases weeks 0) as [N|N].
  { rewrite (GenerateDatesFacts.generate_dates_nonpositive _ _ _ t Et N) in E.
    injection E as <-. now destruct i. }
  assert (P : 0 < weeks) by lia.
  destruct (RestartFacts.generate_dates_Ok_inv _ _ _ _ _ Et P E) as [L ->].
  apply RestartFacts.nth_error_map_seq in Hi. destruct Hi as [Hi ->].
  cbn [Nat.add].
  pose proof (proj1 (StrptimeFacts.strptime_Ok _ _ Et)) as Vt.
  assert (Vd : valid (weeks_before t i) = true)
    by (apply GenerateDatesFacts.weeks_before_valid; [exact Vt|lia]).
  destruct pad_year; cbn [orb].
  - apply StrptimeFacts.strptime_strftime; [exact Vd|now left].
  - destruct (Z.leb_spec 1000 (year (weeks_before t i))) as [Y|Y].
    + apply StrptimeFacts.strptime_strftime; [exact Vd|now right].
    + now apply RestartFacts.strptime_strftime_short_year.
Qed.

Lemma X14_generated_dates_witness :
  generate_dates false "1000-01-04" 1 = Ok ["1000-01-04"]
  /\ generate_dates false "1000-01-04" 2 = Ok ["1000-01-04"; "999-12-28"]
  /\ strptime "999-12-28" = Raise ValueError.
Proof.
  assert (T : strptime "1000-01-04" = Ok (mkdate 1000 1 4))
    by (vm_compute; reflexivity).
  assert (E : generate_dates false "1000-01-04" 2 = Ok ["1000-01-04"; "999-12-28"])
    by (vm_compute; reflexivity).
  split; [vm_compute; reflexivity|]. split; [exact E|].
  exact (X14_generated_dates_read_back false "1000-01-04" 2 (mkdate 1000 1 4)
           _ 1 "999-12-28" T E eq_refl).
Defined.

(** ** Texts and ranks in the table *)

(** X15: the keys of the table are trimmed.  In the table of a scrape
    the title and the artist of every row are texts that [strip] leaves
    as they are, as [scrape_week] wrote them: whitespace around a title
    or an artist on a page never makes a row of its own. *)
Theorem X15_table_keys_are_trimmed
    (pad_year : bool) (web : string -> option Soup.node)
    (pool_time : nat -> nat) (first_week last_week url : string)
    (log log' : list string)
    (billboard_responses : list WeekRecord)
    (out : list Track.row) (row : Track.row) :
  scrape_billboard pad_year web pool_time first_week last_week url log
  = (Ok billboard_responses, log') ->
  tracks_df billboard_responses = Ok out -> In row out ->
  Str.strip (Track.title row) = Track.title row
  /\ Str.strip (Track.artist row) = Track.artist row.
Proof.
  intros H E Hrow. apply TableFacts.scrape_billboard_records in H.
  rewrite Forall_forall in H.
  destruct (TableFacts.table_row_entry _ _ _ E Hrow) as [Ht Ha].
  unfold flatten in Ht, Ha. apply in_flat_map in Ht, Ha.
  destruct Ht as (r & Hr & Ht), Ha as (r' & Hr' & Ha).
  destruct (H r Hr) as (soup & u & ->). destruct (H r' Hr') as (soup' & u' & ->).
  cbn [songs artists week_record] in Ht, Ha.
  apply in_map_iff in Ht, Ha.
  destruct Ht as (n & <- & _), Ha as (n' & <- & _).
  unfold trimmed_text. split; apply StripFacts.strip_idem.
Qed.

Lemma X15_table_keys_witness :
  Soup.text (Soup.Tag "div" [artist_class] [Soup.NavigableString " Morgan Wallen "])
  = " Morgan Wallen "
  /\ Str.strip "Whiskey Glasses" = "Whiskey Glasses"
  /\ Str.strip "Morgan Wallen" = "Morgan Wallen".
Proof.
  assert (H : scrape_billboard false (serves page_one_entry) in_turn
                "2019-05-12" "2019-04-28" base_url []
              = (Ok [mkWeek ["Whiskey Glasses"] ["Morgan Wallen"] ["1"] ["2019-05-12"];
                     mkWeek ["Whiskey Glasses"] ["Morgan Wallen"] ["1"] ["2019-05-05"]],
                 ["https://www.billboard.com/charts/country-songs/2019-05-12";
                  "https://www.billboard.com/charts/country-songs/2019-05-05"]))
    by (vm_compute; reflexivity).
  assert (E : tracks_df
                [mkWeek ["Whiskey Glasses"] ["Morgan Wallen"] ["1"] ["2019-05-12"];
                 mkWeek ["Whiskey Glasses"] ["Morgan Wallen"] ["1"] ["2019-05-05"]]
              = Ok [Track.mk "Whiskey Glasses" "Morgan Wallen"
                      "2019-05-12,2019-05-05" 2])
    by (vm_compute; reflexivity).
  split; [reflexivity|].
  exact (X15_table_keys_are_trimmed _ _ _ _ _ _ _ _ _ _
           (Track.mk "Whiskey Glasses" "Morgan Wallen" "2019-05-12,2019-05-05" 2)
           H E (or_introl eq_refl)).
Defined.

(** X16: the rank texts never reach the table.  The ranks are
    assigned as a column, so their number is checked against the index,
    but the grouping reads the title, artist and week columns only: two
    lists of weeks with the same flattened titles, artists and week
    identifiers and as many ranks come to the same end, the same table or
    the same error. *)
Theorem X16_rank_texts_never_reach_the_table
    (billboard_responses other : list WeekRecord) :
  flatten songs other = flatten songs billboard_responses ->
  flatten artists other = flatten artists billboard_responses ->
  flatten weeks other = flatten weeks billboard_responses ->
  List.length (flatten ranks other)
  = List.length (flatten ranks billboard_responses) ->
  tracks_df other = tracks_df billboard_responses.
Proof.
  unfold tracks_df, tracks_df_flat. intros -> -> ->.
  generalize (flatten songs billboard_responses) as T.
  generalize (flatten artists billboard_responses) as A.
  generalize (flatten ranks billboard_responses) as R.
  generalize (flatten ranks other) as R'.
  generalize (flatten weeks billboard_responses) as W.
  intros W R' R A T H.
  destruct (Pandas.setitem Pandas.empty "title" T) as [df1|e1] eqn:E1;
    [|reflexivity].
  cbn [bind].
  destruct (Pandas.setitem df1 "artist" A) as [df2|e2] eqn:E2; [|reflexivity].
  cbn [bind].
  apply TableFacts.setitem_shape in E1, E2.
  destruct E1 as (d1 & -> & N1), E2 as (d2 & -> & N2).
  destruct d1; [|discriminate]. cbn in N2.
  destruct d2 as [|[n1 c1] [|? ?]]; try discriminate. cbn in N2.
  injection N2 as ->. cbn [app].
  pose proof (TableFacts.setitem_length
                [("title", c1); ("artist", map Pandas.Str A)] "rank" R' R H) as L.
  destruct (Pandas.setitem _ "rank" R') as [d3'|e3'];
    destruct (Pandas.setitem _ "rank" R) as [d3|e3];
    try contradiction; [|now subst].
  destruct L as (X & -> & -> & NX). cbn [bind].
  destruct X as [|[n1 x1] [|[n2 x2] [|? ?]]]; try discriminate.
  cbn in NX. injection NX as -> ->. cbn [app].
  unfold Pandas.setitem. cbn [Pandas.index_length].
  destruct (_ =? 0)%nat.
  - cbn. reflexivity.
  - destruct (_ =? _)%nat; [|reflexivity]. cbn. reflexivity.
Qed.

Lemma X16_rank_texts_witness :
  tracks_df (map (fun r => mkWeek (songs r) (artists r)
                             (map (fun _ => "-") (ranks r)) (weeks r))
               three_weeks)
  = Ok three_weeks_table.
Proof.
  rewrite (X16_rank_texts_never_reach_the_table three_weeks);
    vm_compute; reflexivity.
Defined.
